(** * Stock holdings slice of the Zakat calculator store

    A shallow embedding of [src/store/modules/stocks.ts]: the
    passive-investment state migrator, the active holdings registry, the
    batch price refresh and the read-side aggregation getters, followed by
    the properties established about them.

    Conventions of the embedding.
    - A JavaScript [number] is an IEEE 754 binary64 value, i.e. a primitive
      [float]; [NaN] and the infinities are ordinary inhabitants.
    - Untyped persisted state (the argument of the migrator) is a [JsValue].
    - The typed store ([ZakatState], [StockValues], [ActiveStock]) is a
      record per TypeScript interface; optional members are [option]s.
    - Code that may raise returns a [Completion]; [try]/[catch] is
      [tryCatch].
    - [await]ed collaborators (the price source, the currency converter)
      and the wall clock are explicit arguments.
    - Strings are ASCII: [toUpperCase] maps [a-z] to [A-Z] and leaves every
      other byte alone. *)

From Stdlib Require Import Floats Ascii String ZArith.
From stdpp Require Import base option list strings.

Local Open Scope string_scope.
Set Warnings "-inexact-float".

(** ** JavaScript numbers *)

Module Num.

Definition number := float.

(** [ToBoolean] on a number: [0], [-0] and [NaN] are falsy. *)
Definition truthy (x : number) : bool :=
  negb (PrimFloat.is_zero x || PrimFloat.is_nan x).

(** [x || 0] on a number. *)
Definition orZero (x : number) : number :=
  if truthy x then x else 0%float.

(** [Number.isFinite(x)], and the global [isFinite(x)], on a number. *)
Definition isFinite (x : number) : bool := PrimFloat.is_finite x.

(** [Number.isFinite(x) ? x : 0]. *)
Definition finiteOrZero (x : number) : number :=
  if isFinite x then x else 0%float.

(** [a > b]. *)
Definition gt (a b : number) : bool := PrimFloat.ltb b a.

(** [a <= b]. *)
Definition le (a b : number) : bool := PrimFloat.leb a b.

(** [a !== b] on numbers ([NaN !== NaN] holds, [0 !== -0] does not). *)
Definition strictNe (a b : number) : bool := negb (PrimFloat.eqb a b).

(** [String(x)], as a template literal forms it, for an [x] that is not
    finite: ['NaN'], ['Infinity'] or ['-Infinity']. *)
Definition nonFiniteToString (x : number) : string :=
  if PrimFloat.is_nan x then "NaN"
  else if PrimFloat.ltb x 0%float then "-Infinity"
  else "Infinity".

End Num.

Export Num(number).
Bind Scope float_scope with Num.number.

(** ** Strings *)

Definition upper_ascii (c : ascii) : ascii :=
  let n := nat_of_ascii c in
  if ((97 <=? n) && (n <=? 122))%nat then ascii_of_nat (n - 32) else c.

(** [String.prototype.toUpperCase] on ASCII text. *)
Fixpoint toUpperCase (s : string) : string :=
  match s with
  | EmptyString => EmptyString
  | String c r => String (upper_ascii c) (toUpperCase r)
  end.

(** [ToBoolean] on a string: only the empty string is falsy. *)
Definition str_truthy (s : string) : bool :=
  match s with EmptyString => false | _ => true end.

(** [a || b] where [a] is an optional string and [b] a string. *)
Definition strOr (a : option string) (b : string) : string :=
  match a with
  | Some s => if str_truthy s then s else b
  | None => b
  end.

(** ** Abrupt completion *)

Inductive JsError : Type :=
  | TypeError (msg : string)
  | RangeError (msg : string)
  | Error (msg : string).

Inductive Completion (A : Type) : Type :=
  | Normal (a : A)
  | Throw (e : JsError).
Arguments Normal {A} a.
Arguments Throw {A} e.

Global Instance Completion_ret : MRet Completion := fun _ a => Normal a.
Global Instance Completion_bind : MBind Completion := fun _ _ f m =>
  match m with
  | Normal a => f a
  | Throw e => Throw e
  end.

(** [try { body } catch (e) { handler e }]. *)
Definition tryCatch {A} (body : Completion A) (handler : JsError → Completion A)
    : Completion A :=
  match body with
  | Normal a => Normal a
  | Throw e => handler e
  end.

Definition completes {A} (c : Completion A) : Prop := ∃ a, c = Normal a.

(** ** Untyped values *)

#[warnings="-register-all"]
Inductive JsValue : Type :=
  | JUndefined
  | JNull
  | JBool (b : bool)
  | JNum (x : number)
  | JStr (s : string)
  | JArr (items : list JsValue)
  | JObj (fields : list (string * JsValue)).

Arguments JNum x%_float.

Module Js.

(** [ToBoolean]. *)
Definition truthy (v : JsValue) : bool :=
  match v with
  | JUndefined | JNull => false
  | JBool b => b
  | JNum x => Num.truthy x
  | JStr s => str_truthy s
  | JArr _ | JObj _ => true
  end.

Inductive TypeTag : Type :=
  | TUndefined | TObject | TBoolean | TNumber | TString.

(** [typeof v]. *)
Definition typeof (v : JsValue) : TypeTag :=
  match v with
  | JUndefined => TUndefined
  | JNull | JArr _ | JObj _ => TObject
  | JBool _ => TBoolean
  | JNum _ => TNumber
  | JStr _ => TString
  end.

Definition isString (v : JsValue) : bool :=
  match typeof v with TString => true | _ => false end.
Definition isNumber (v : JsValue) : bool :=
  match typeof v with TNumber => true | _ => false end.
Definition isBoolean (v : JsValue) : bool :=
  match typeof v with TBoolean => true | _ => false end.

(** [Array.isArray(v)]. *)
Definition isArray (v : JsValue) : bool :=
  match v with JArr _ => true | _ => false end.

(** [v === s] for a string literal [s]. *)
Definition isStr (s : string) (v : JsValue) : bool :=
  match v with JStr t => String.eqb t s | _ => false end.

(** [[...literals].includes(v)] for an array of string literals. *)
Definition includes (literals : list string) (v : JsValue) : bool :=
  existsb (fun s => isStr s v) literals.

(** Own property of an object literal or parsed object; a key occurs once
    in either, and of a repeated key the first binding is read. *)
Fixpoint own (fields : list (string * JsValue)) (k : string) : JsValue :=
  match fields with
  | [] => JUndefined
  | (k', v) :: rest => if String.eqb k' k then v else own rest k
  end.

(** [v.k]: reading a property of [undefined] or [null] raises; none of
    the names this module reads exists on the prototype of a boolean,
    number, string or array, so there the read yields [undefined]. *)
Definition get (v : JsValue) (k : string) : Completion JsValue :=
  match v with
  | JUndefined => Throw (TypeError "Cannot read properties of undefined")
  | JNull => Throw (TypeError "Cannot read properties of null")
  | JObj fields => Normal (own fields k)
  | _ => Normal JUndefined
  end.

(** [v?.k]. *)
Definition getOpt (v : JsValue) (k : string) : Completion JsValue :=
  match v with
  | JUndefined | JNull => Normal JUndefined
  | _ => get v k
  end.

(** [a || b]. *)
Definition or (a b : JsValue) : JsValue := if truthy a then a else b.

End Js.

(** ** The wall clock

    What the clock yields at the moment of a call: [Date.now().toString()]
    and [new Date().toISOString()]. *)

Record Clock : Type := {
  dateNow : string;
  nowISO : string
}.

(** ** StateMigrator: [migratePassiveInvestments] *)

Module Migrator.

(** The placeholder row
    [{id: Date.now().toString(), name: '', shares: 0, pricePerShare: 0, marketValue: 0}]. *)
Definition placeholderInvestment (c : Clock) : JsValue :=
  JObj [("id", JStr (dateNow c)); ("name", JStr ""); ("shares", JNum 0);
        ("pricePerShare", JNum 0); ("marketValue", JNum 0)].

(** [typeof m === 'string' && ['quick', 'detailed'].includes(m) ? m : 'quick']. *)
Definition sanitizeMethod (m : JsValue) : JsValue :=
  if Js.isString m && Js.includes ["quick"; "detailed"] m then m else JStr "quick".

(** [typeof x === 'number' ? x : 0]. *)
Definition numberOrZero (x : JsValue) : JsValue :=
  if Js.isNumber x then x else JNum 0.

(** [m === 'quick' ? '30% Rule' : 'CRI Method']. *)
Definition methodLabel (m : JsValue) : JsValue :=
  JStr (if Js.isStr "quick" m then "30% Rule" else "CRI Method").

(** [m === 'quick' ? 'Total Investments' : 'Total Company Assets']. *)
Definition totalLabel (m : JsValue) : JsValue :=
  JStr (if Js.isStr "quick" m then "Total Investments" else "Total Company Assets").

(** The statements inside [try { ... }]. Every label is computed from the
    raw [state.method], as in the source, not from the sanitized method
    stored next to it. *)
Definition migrateBody (c : Clock) (state : JsValue) : Completion JsValue :=
  version ← Js.get state "version";
  if negb (Js.truthy version) then
    (* unversioned state *)
    investments ← Js.get state "investments";
    method ← Js.get state "method";
    marketValue ← Js.get state "marketValue";
    zakatableValue ← Js.get state "zakatableValue";
    companyData ← Js.get state "companyData";
    mret (JObj [
      ("version", JStr "2.0");
      ("investments",
        if Js.isArray investments then investments
        else JArr [placeholderInvestment c]);
      ("method", sanitizeMethod method);
      ("marketValue", numberOrZero marketValue);
      ("zakatableValue", numberOrZero zakatableValue);
      ("companyData", Js.or companyData JUndefined);
      ("hawlStatus", JObj [("isComplete", JBool false);
                           ("startDate", JStr (nowISO c))]);
      ("displayProperties", JObj [("currency", JStr "USD");
                                  ("method", methodLabel method);
                                  ("totalLabel", totalLabel method)])])
  else if Js.isStr "1.0" version then
    investments ← Js.get state "investments";
    method ← Js.get state "method";
    marketValue ← Js.get state "marketValue";
    zakatableValue ← Js.get state "zakatableValue";
    companyData ← Js.get state "companyData";
    mret (JObj [
      ("version", JStr "2.0");
      ("investments",
        if Js.isArray investments then investments
        else JArr [placeholderInvestment c]);
      ("method", sanitizeMethod method);
      ("marketValue", numberOrZero marketValue);
      ("zakatableValue", numberOrZero zakatableValue);
      ("companyData", companyData);
      ("hawlStatus", JObj [("isComplete", JBool false);
                           ("startDate", JStr (nowISO c))]);
      ("displayProperties", JObj [("currency", JStr "USD");
                                  ("method", methodLabel method);
                                  ("totalLabel", totalLabel method)])])
  else if Js.isStr "2.0" version then
    investments ← Js.get state "investments";
    method ← Js.get state "method";
    marketValue ← Js.get state "marketValue";
    zakatableValue ← Js.get state "zakatableValue";
    companyData ← Js.get state "companyData";
    hawlStatus ← Js.get state "hawlStatus";
    isCompleteRaw ← Js.getOpt hawlStatus "isComplete";
    isComplete ← (if Js.isBoolean isCompleteRaw
                  then Js.get hawlStatus "isComplete"
                  else mret (JBool false));
    startDateRaw ← Js.getOpt hawlStatus "startDate";
    endDate ← Js.getOpt hawlStatus "endDate";
    displayProperties ← Js.get state "displayProperties";
    currencyRaw ← Js.getOpt displayProperties "currency";
    currency ← (if Js.isString currencyRaw
                then Js.get displayProperties "currency"
                else mret (JStr "USD"));
    mret (JObj [
      ("version", JStr "2.0");
      ("investments", if Js.isArray investments then investments else JArr []);
      ("method", sanitizeMethod method);
      ("marketValue", numberOrZero marketValue);
      ("zakatableValue", numberOrZero zakatableValue);
      ("companyData", Js.or companyData JUndefined);
      ("hawlStatus", JObj [("isComplete", isComplete);
                           ("startDate", Js.or startDateRaw (JStr (nowISO c)));
                           ("endDate", endDate)]);
      ("displayProperties", JObj [("currency", currency);
                                  ("method", methodLabel method);
                                  ("totalLabel", totalLabel method)])])
  else
    (* version not recognized *)
    mret JUndefined.

(** [migratePassiveInvestments(state)]; [undefined] is [JUndefined]. The
    handler logs and returns [undefined]. *)
Definition migratePassiveInvestments (c : Clock) (state : JsValue)
    : Completion JsValue :=
  if negb (Js.truthy state) then Normal JUndefined
  else tryCatch (migrateBody c state) (fun _error => Normal JUndefined).

(** Reading a nested property of a result, [v.k1.k2], with [undefined]
    for an abrupt read. *)
Definition field (v : JsValue) (k : string) : JsValue :=
  match Js.get v k with Normal x => x | Throw _ => JUndefined end.

End Migrator.


(** ** The typed store *)

Module ActiveStock.

(** [ActiveStock]: one actively traded position. [currency] and
    [sourceCurrency] are set by the batch refresh only. *)
Record t : Type := mk {
  symbol : string;
  shares : number;
  currentPrice : number;
  marketValue : number;
  zakatDue : number;
  lastUpdated : string;
  currency : option string;
  sourceCurrency : option string
}.

End ActiveStock.

Module Passive.

(** The members of [stockValues.passiveInvestments] the getters read. *)
Record t : Type := mk {
  method : string;
  marketValue : number;
  zakatableValue : number
}.

End Passive.

(** [StockValues]. *)
Record StockValues : Type := {
  activeStocks : list ActiveStock.t;
  market_value : number;
  zakatable_value : number;
  total_dividend_earnings : option number;
  fund_value : option number;
  is_passive_fund : option bool;
  passiveInvestments : option Passive.t
}.

(** The members of [ZakatState] this slice reads and writes. *)
Record ZakatState : Type := {
  stockValues : StockValues;
  stockHawlMet : bool;
  currency : option string
}.

(** [{...state.stockValues, activeStocks: stocks}]. *)
Definition withActiveStocks (sv : StockValues) (stocks : list ActiveStock.t)
    : StockValues :=
  {| activeStocks := stocks;
     market_value := market_value sv;
     zakatable_value := zakatable_value sv;
     total_dividend_earnings := total_dividend_earnings sv;
     fund_value := fund_value sv;
     is_passive_fund := is_passive_fund sv;
     passiveInvestments := passiveInvestments sv |}.

(** The state after [set({stockValues: sv})]. *)
Definition setStockValues (st : ZakatState) (sv : StockValues) : ZakatState :=
  {| stockValues := sv;
     stockHawlMet := stockHawlMet st;
     currency := currency st |}.

(** ** Collaborators *)

(** What [getStockPrice] resolves to. *)
Record PriceQuote : Type := {
  quotePrice : number;
  quoteLastUpdated : string
}.

Module PriceUpdate.

(** One entry of what [getBatchStockPrices] resolves to. *)
Record t : Type := mk {
  symbol : string;
  price : number;
  currency : string;
  sourceCurrency : option string;
  conversionApplied : bool;
  lastUpdated : string
}.

End PriceUpdate.

(** [window.useCurrencyStore.getState()]: [convertAmount] may be absent,
    and may raise. *)
Record CurrencyStore : Type := {
  convertAmount : option (number → string → string → Completion number)
}.

(** [items.some_key = {...}] of [getStocksBreakdown]. *)
Record BreakdownItem : Type := {
  itemValue : number;
  isZakatable : bool;
  itemZakatable : number;
  itemZakatDue : number;
  label : string;
  tooltip : string;
  percentage : number
}.

Record Breakdown : Type := {
  total : number;
  zakatable : number;
  breakdownZakatDue : number;
  items : list (string * BreakdownItem)
}.

(** ** The slice: [createStocksSlice] *)

Section Slice.

(** [roundCurrency] of [@/lib/utils/currency] and [ZAKAT_RATE] of
    [@/lib/constants] are imported by the module and not part of it. *)
Variable roundCurrency : number → number.
Variable ZAKAT_RATE : number.

(** [new Date(x).toISOString()], which raises a [RangeError] on an invalid
    date. *)
Variable toISOString : string → Completion string.

(** [value || 0] on an optional number. *)
Definition optOrZero (value : option number) : number :=
  match value with
  | Some x => Num.orZero x
  | None => 0%float
  end.

(** [stocks.reduce((sum, stock) =>
      sum + (Number.isFinite(stock.marketValue) ? stock.marketValue : 0), 0)]. *)
Definition activeTotal (stocks : list ActiveStock.t) : number :=
  fold_left
    (fun sum stock => (sum + Num.finiteOrZero (ActiveStock.marketValue stock))%float)
    stocks 0%float.

(** *** HoldingsRegistry *)

(** [s.symbol.toUpperCase() === symbol.toUpperCase()]. *)
Definition sameTicker (symbol : string) (s : ActiveStock.t) : Prop :=
  toUpperCase (ActiveStock.symbol s) = toUpperCase symbol.

Global Instance sameTicker_dec symbol s : Decision (sameTicker symbol s).
Proof. unfold sameTicker. apply _. Defined.

(** The updater handed to [set] by [addActiveStock], with the timestamp
    already evaluated: [findIndex], then either an in-place update of the
    hit or a [push]. *)
Definition upsertStock (symbol : string) (shares price marketValue zakatDue : number)
    (lastUpdated : string) (stocks : list ActiveStock.t) : list ActiveStock.t :=
  match list_find (sameTicker symbol) stocks with
  | Some (existingIndex, existing) =>
      <[existingIndex :=
          {| ActiveStock.symbol := ActiveStock.symbol existing;
             ActiveStock.shares := shares;
             ActiveStock.currentPrice := price;
             ActiveStock.marketValue := marketValue;
             ActiveStock.zakatDue := zakatDue;
             ActiveStock.lastUpdated := lastUpdated;
             ActiveStock.currency := ActiveStock.currency existing;
             ActiveStock.sourceCurrency := ActiveStock.sourceCurrency existing |}]>
        stocks
  | None =>
      stocks ++
        [{| ActiveStock.symbol := toUpperCase symbol;
            ActiveStock.shares := shares;
            ActiveStock.currentPrice := price;
            ActiveStock.marketValue := marketValue;
            ActiveStock.zakatDue := zakatDue;
            ActiveStock.lastUpdated := lastUpdated;
            ActiveStock.currency := None;
            ActiveStock.sourceCurrency := None |}]
  end.

(** [manualPrice] as a condition. *)
Definition manualPriceGiven (manualPrice : option number) : bool :=
  match manualPrice with
  | Some p => Num.truthy p
  | None => false
  end.

(** [addActiveStock(symbol, shares, manualPrice?, currency?)]. [pre] is the
    store at the call ([get()]), [cur] the store the updater of [set] is
    applied to once the price has arrived. *)
Definition addActiveStock
    (getStockPrice : string → option string → Completion PriceQuote)
    (clock : Clock)
    (symbol : string) (shares : number)
    (manualPrice : option number) (currency_ : option string)
    (pre cur : ZakatState) : Completion ZakatState :=
  tryCatch
    (if negb (str_truthy symbol) || Num.le shares 0%float then
       Throw (Error "Invalid symbol or shares")
     else if negb (manualPriceGiven manualPrice) then
       let currentCurrency := strOr currency_ (strOr (currency pre) "USD") in
       quote ← getStockPrice symbol (Some currentCurrency);
       let price := quotePrice quote in
       let marketValue := roundCurrency (shares * price)%float in
       let zakatDue := roundCurrency (marketValue * ZAKAT_RATE)%float in
       lastUpdated ← toISOString (quoteLastUpdated quote);
       mret (setStockValues cur
               (withActiveStocks (stockValues cur)
                  (upsertStock symbol shares price marketValue zakatDue lastUpdated
                     (activeStocks (stockValues cur)))))
     else
       let price := default 0%float manualPrice in
       let marketValue := roundCurrency (shares * price)%float in
       let zakatDue := roundCurrency (marketValue * ZAKAT_RATE)%float in
       mret (setStockValues cur
               (withActiveStocks (stockValues cur)
                  (upsertStock symbol shares price marketValue zakatDue (nowISO clock)
                     (activeStocks (stockValues cur))))))
    (fun error => Throw error).

(** [updatedStocks.reduce((sum, s) => sum + (s.marketValue || 0), 0)]. *)
Definition legacyTotal (stocks : list ActiveStock.t) : number :=
  fold_left
    (fun sum s => (sum + Num.orZero (ActiveStock.marketValue s))%float)
    stocks 0%float.

(** [updateActiveStock(symbol, shares)]: the match is [stock.symbol === symbol].
    The price of a [PriceQuote] is a number, so the guard of line 421 is
    [!isFinite(price)], and the price it reports is not finite. *)
Definition updateActiveStock
    (getStockPrice : string → option string → Completion PriceQuote)
    (symbol : string) (shares : number)
    (cur : ZakatState) : Completion ZakatState :=
  tryCatch
    (quote ← getStockPrice symbol None;
     let price := quotePrice quote in
     if negb (Num.isFinite price) then
       Throw (Error ("Invalid price received for " ++ symbol ++ ": "
                     ++ Num.nonFiniteToString price))
     else
       let marketValue := roundCurrency (shares * price)%float in
       let zakatDue := roundCurrency (marketValue * ZAKAT_RATE)%float in
       updatedStocks ←
         mapM (fun stock =>
                 if String.eqb (ActiveStock.symbol stock) symbol then
                   lastUpdated ← toISOString (quoteLastUpdated quote);
                   mret {| ActiveStock.symbol := ActiveStock.symbol stock;
                           ActiveStock.shares := shares;
                           ActiveStock.currentPrice := price;
                           ActiveStock.marketValue := marketValue;
                           ActiveStock.zakatDue := zakatDue;
                           ActiveStock.lastUpdated := lastUpdated;
                           ActiveStock.currency := ActiveStock.currency stock;
                           ActiveStock.sourceCurrency := ActiveStock.sourceCurrency stock |}
                 else mret stock)
              (activeStocks (stockValues cur));
       let totalValue := legacyTotal updatedStocks in
       mret (setStockValues cur
               {| activeStocks := updatedStocks;
                  market_value := totalValue;
                  zakatable_value := if stockHawlMet cur then totalValue else 0%float;
                  total_dividend_earnings := total_dividend_earnings (stockValues cur);
                  fund_value := fund_value (stockValues cur);
                  is_passive_fund := is_passive_fund (stockValues cur);
                  passiveInvestments := passiveInvestments (stockValues cur) |}))
    (fun error => Throw error).

(** [removeActiveStock(symbol)]: [filter(s => s.symbol !== symbol)]. *)
Definition removeActiveStock (symbol : string) (st : ZakatState) : ZakatState :=
  setStockValues st
    (withActiveStocks (stockValues st)
       (List.filter (fun s => negb (String.eqb (ActiveStock.symbol s) symbol))
          (activeStocks (stockValues st)))).

(** *** PriceUpdatePipeline *)

(** [{...stock, currentPrice: price, marketValue, zakatDue, lastUpdated,
      currency, sourceCurrency}] with
    [marketValue = roundCurrency(stock.shares * price)] and
    [zakatDue = roundCurrency(marketValue * ZAKAT_RATE)]. *)
Definition reprice (stock : ActiveStock.t) (price : number) (lastUpdated : string)
    (currency_ : option string) (sourceCurrency : option string) : ActiveStock.t :=
  let marketValue := roundCurrency (ActiveStock.shares stock * price)%float in
  let zakatDue := roundCurrency (marketValue * ZAKAT_RATE)%float in
  {| ActiveStock.symbol := ActiveStock.symbol stock;
     ActiveStock.shares := ActiveStock.shares stock;
     ActiveStock.currentPrice := price;
     ActiveStock.marketValue := marketValue;
     ActiveStock.zakatDue := zakatDue;
     ActiveStock.lastUpdated := lastUpdated;
     ActiveStock.currency := currency_;
     ActiveStock.sourceCurrency := sourceCurrency |}.

(** [p.symbol.toUpperCase() === stock.symbol.toUpperCase()]. *)
Definition quotesTicker (stock : ActiveStock.t) (p : PriceUpdate.t) : bool :=
  String.eqb (toUpperCase (PriceUpdate.symbol p)) (toUpperCase (ActiveStock.symbol stock)).

(** The callback of [activeStocks.map] inside the updater of
    [updateStockPrices]; the counters it bumps are only logged. *)
Definition refreshStock (currencyStore : option CurrencyStore)
    (currentCurrency : string) (updatedPrices : list PriceUpdate.t)
    (stock : ActiveStock.t) : ActiveStock.t :=
  match List.find (quotesTicker stock) updatedPrices with
  | Some updated =>
      if PriceUpdate.conversionApplied updated
         && String.eqb (PriceUpdate.currency updated) currentCurrency
      then
        reprice stock (PriceUpdate.price updated) (PriceUpdate.lastUpdated updated)
          (Some (PriceUpdate.currency updated)) (PriceUpdate.sourceCurrency updated)
      else
        (* no conversion possible: keep the original currency *)
        let unconverted :=
          reprice stock (PriceUpdate.price updated) (PriceUpdate.lastUpdated updated)
            (Some (PriceUpdate.currency updated)) (PriceUpdate.sourceCurrency updated) in
        match currencyStore with
        | Some store =>
            match convertAmount store with
            | Some convert =>
                if negb (String.eqb (PriceUpdate.currency updated) currentCurrency) then
                  let originalPrice := PriceUpdate.price updated in
                  match convert originalPrice (PriceUpdate.currency updated) currentCurrency with
                  | Normal convertedPrice =>
                      if Num.strictNe convertedPrice originalPrice then
                        reprice stock convertedPrice (PriceUpdate.lastUpdated updated)
                          (Some currentCurrency) (Some (PriceUpdate.currency updated))
                      else unconverted
                  | Throw _conversionError => unconverted
                  end
                else unconverted
            | None => unconverted
            end
        | None => unconverted
        end
  | None =>
      (* no updated price: leave it unchanged *)
      stock
  end.

(** *** ZakatAggregator *)

(** [getTotalStocks()]. *)
Definition getTotalStocks (st : ZakatState) : number :=
  let activeTotal := activeTotal (activeStocks (stockValues st)) in
  let passiveTotal :=
    match passiveInvestments (stockValues st) with
    | Some passive => Num.orZero (Passive.marketValue passive)
    | None => 0%float
    end in
  let dividendTotal := optOrZero (total_dividend_earnings (stockValues st)) in
  let total := (activeTotal + passiveTotal + dividendTotal)%float in
  if Num.isFinite total then roundCurrency total else 0%float.

(** [getTotalZakatableStocks()]. *)
Definition getTotalZakatableStocks (st : ZakatState) : number :=
  if negb (stockHawlMet st) then 0%float
  else
    let activeTotal := activeTotal (activeStocks (stockValues st)) in
    let passiveZakatable :=
      match passiveInvestments (stockValues st) with
      | Some passive => Num.orZero (Passive.zakatableValue passive)
      | None => 0%float
      end in
    let dividendTotal := optOrZero (total_dividend_earnings (stockValues st)) in
    let total := (activeTotal + passiveZakatable + dividendTotal)%float in
    if Num.isFinite total then roundCurrency total else 0%float.

(** [updateStockPrices(targetCurrency?, fromCurrency?)]. [pre] is the store
    at the call, [cur] the store the updater of [set] is applied to after
    the batch has arrived. The two getters called at the end are pure and
    their results are dropped. *)
Definition updateStockPrices
    (getBatchStockPrices : list string → string → Completion (list PriceUpdate.t))
    (currencyStore : option CurrencyStore)
    (targetCurrency fromCurrency : option string)
    (pre cur : ZakatState) : Completion ZakatState :=
  tryCatch
    (let held := activeStocks (stockValues pre) in
     if (length held =? 0)%nat then
       mret cur
     else
       let symbols := ActiveStock.symbol <$> held in
       let currentCurrency := strOr targetCurrency (strOr (currency pre) "USD") in
       updatedPrices ← getBatchStockPrices symbols currentCurrency;
       let updatedStocks :=
         refreshStock currencyStore currentCurrency updatedPrices
           <$> activeStocks (stockValues cur) in
       let st' :=
         {| stockValues := withActiveStocks (stockValues cur) updatedStocks;
            stockHawlMet := stockHawlMet cur;
            currency := Some currentCurrency |} in
       let _ := getTotalStocks st' in
       let _ := getTotalZakatableStocks st' in
       mret st')
    (fun error => Throw error).

(** [getStocksBreakdown()]: [items] keeps the insertion order of the keys. *)
Definition getStocksBreakdown (st : ZakatState) : Breakdown :=
  let total := getTotalStocks st in
  let zakatable := getTotalZakatableStocks st in
  let zakatDue := roundCurrency (zakatable * ZAKAT_RATE)%float in
  let sv := stockValues st in
  let hawl := stockHawlMet st in
  let active_trading :=
    if (0 <? length (activeStocks sv))%nat then
      [("active_trading",
        {| itemValue := activeTotal (activeStocks sv);
           isZakatable := hawl;
           itemZakatable := if hawl then activeTotal (activeStocks sv) else 0%float;
           itemZakatDue :=
             if hawl then roundCurrency (activeTotal (activeStocks sv) * ZAKAT_RATE)%float
             else 0%float;
           label := "Active Trading";
           tooltip := "Full market value is zakatable";
           percentage :=
             if Num.gt total 0%float
             then roundCurrency ((activeTotal (activeStocks sv) / total) * 100)%float
             else 0%float |})]
    else [] in
  let passive_investments :=
    match passiveInvestments sv with
    | Some passive =>
        let passiveValue := Passive.marketValue passive in
        let passiveZakatable := Passive.zakatableValue passive in
        let method := Passive.method passive in
        [("passive_investments",
          {| itemValue := passiveValue;
             isZakatable := hawl;
             itemZakatable := if hawl then passiveZakatable else 0%float;
             itemZakatDue :=
               if hawl then roundCurrency (passiveZakatable * ZAKAT_RATE)%float else 0%float;
             label :=
               "Passive Investments ("
                 ++ (if String.eqb method "quick" then "30% Rule" else "CRI Method")
                 ++ ")";
             tooltip :=
               if String.eqb method "quick" then "30% of market value is zakatable"
               else "Based on company financials";
             percentage :=
               if Num.gt total 0%float
               then roundCurrency ((passiveValue / total) * 100)%float
               else 0%float |})]
    | None => []
    end in
  let dividendValue := optOrZero (total_dividend_earnings sv) in
  let dividends :=
    if Num.gt dividendValue 0%float then
      [("dividends",
        {| itemValue := dividendValue;
           isZakatable := hawl;
           itemZakatable := if hawl then dividendValue else 0%float;
           itemZakatDue :=
             if hawl then roundCurrency (dividendValue * ZAKAT_RATE)%float else 0%float;
           label := "Dividend Earnings";
           tooltip := "Full dividend amount is zakatable";
           percentage :=
             if Num.gt total 0%float
             then roundCurrency ((dividendValue / total) * 100)%float
             else 0%float |})]
    else [] in
  let items := (active_trading ++ passive_investments ++ dividends)%list in
  {| total := total;
     zakatable := zakatable;
     breakdownZakatDue := zakatDue;
     items :=
       if (length items =? 0)%nat then
         [("stocks",
           {| itemValue := 0%float;
              isZakatable := false;
              itemZakatable := 0%float;
              itemZakatDue := 0%float;
              label := "Stocks";
              tooltip := "No stocks added yet";
              percentage := 0%float |})]
       else items |}.

End Slice.

(** ** The rest of the slice

    The remaining actions and getters of [createStocksSlice]. They read
    members of the store that the functions above do not: the whole
    passive-investment object (not only the three members the getters
    read), the top-level [passiveInvestments], and [metalPrices], which
    the metals slice owns. Those travel beside the [ZakatState]. *)

(** [state.metalPrices]. *)
Record MetalPrices : Type := {
  gold : number;
  silver : number
}.

(** The store as [updatePassiveInvestments] and [resetStockValues] see it:
    [passiveObject] is the object under [stockValues.passiveInvestments]
    ([undefined] when there is none), [passiveTop] the top-level
    [passiveInvestments]. *)
Record PassiveSlice : Type := {
  store : ZakatState;
  passiveObject : JsValue;
  passiveTop : JsValue
}.

(** A member that holds a number, read as one. *)
Definition asNumber (v : JsValue) : number :=
  match v with JNum x => x | _ => nan end.

(** A member that holds a string, read as one. *)
Definition asString (v : JsValue) : string :=
  match v with JStr s => s | _ => "" end.

(** The three members of a passive-investment object the getters read. *)
Definition passiveView (v : JsValue) : option Passive.t :=
  match v with
  | JObj fields =>
      Some {| Passive.method := asString (Js.own fields "method");
              Passive.marketValue := asNumber (Js.own fields "marketValue");
              Passive.zakatableValue := asNumber (Js.own fields "zakatableValue") |}
  | _ => None
  end.

(** The [method] argument of [updatePassiveInvestments]. *)
Inductive PassiveMethod : Type := Quick | Detailed.

Definition methodName (method : PassiveMethod) : string :=
  match method with Quick => "quick" | Detailed => "detailed" end.

(** [data.companyData]. *)
Record CompanyData : Type := {
  cash : number;
  receivables : number;
  inventory : number;
  totalShares : number;
  yourShares : number
}.

(** The [data] argument: [investments] as handed in ([undefined] when
    absent), and the optional company figures. *)
Record PassiveData : Type := {
  dataInvestments : JsValue;
  dataCompanyData : option CompanyData
}.

(** One well-typed call of [setStockValue(key, value)]. *)
Inductive StockValueUpdate : Type :=
  | SetMarketValue (value : number)
  | SetZakatableValue (value : number)
  | SetTotalDividendEarnings (value : number)
  | SetFundValue (value : number)
  | SetIsPassiveFund (value : bool).

(** [const initialStockValues]. *)
Definition initialStockValues : StockValues :=
  {| activeStocks := [];
     market_value := 0;
     zakatable_value := 0;
     total_dividend_earnings := Some 0%float;
     fund_value := Some 0%float;
     is_passive_fund := Some false;
     passiveInvestments := None |}.

(** The default passive-investment block, written out in the initial
    state and again in [resetStockValues]. *)
Definition defaultPassiveInvestments (c : Clock) : JsValue :=
  JObj [
    ("version", JStr "2.0");
    ("method", JStr "quick");
    ("investments", JArr [Migrator.placeholderInvestment c]);
    ("marketValue", JNum 0);
    ("zakatableValue", JNum 0);
    ("hawlStatus", JObj [("isComplete", JBool false);
                         ("startDate", JStr (nowISO c))]);
    ("displayProperties", JObj [("currency", JStr "USD");
                                ("method", JStr "30% Rule");
                                ("totalLabel", JStr "Total Investments")])].

(** [Math.min(a, b)]: [NaN] if either is, and [-0] below [+0]. *)
Definition mathMin (a b : number) : number :=
  if PrimFloat.is_nan a || PrimFloat.is_nan b then nan
  else if PrimFloat.ltb a b then a
  else if PrimFloat.ltb b a then b
  else if PrimFloat.get_sign a then a else b.

(** [getActiveStocksBreakdown().stocks[i]]. *)
Record StockHoldingView : Type := {
  viewSymbol : string;
  viewShares : number;
  viewCurrentPrice : number;
  viewMarketValue : number;
  viewZakatDue : number
}.

Record ActiveStocksBreakdown : Type := {
  viewStocks : list StockHoldingView;
  viewTotalMarketValue : number;
  viewTotalZakatDue : number
}.

Section SliceRest.

Variable roundCurrency : number → number.
Variable ZAKAT_RATE : number.

(** [DEFAULT_HAWL_STATUS.stocks] of [../constants], [NISAB.GOLD] and
    [NISAB.SILVER] of [@/lib/constants]. *)
Variable DEFAULT_HAWL_STATUS_stocks : bool.
Variable NISAB_GOLD : number.
Variable NISAB_SILVER : number.

(** [StockPrices] of [@/lib/assets/stocks], and what
    [getAssetType('stocks')] of [@/lib/assets/registry] returns. The
    calculator is handed the typed [stockValues] and, beside it, the
    passive-investment object they carry. *)
Variable StockPrices : Type.

Record AssetType : Type := {
  calculateTotal : StockValues → JsValue → StockPrices → Completion number;
  calculateZakatable :
    StockValues → JsValue → StockPrices → bool → Completion number
}.

(** The state [createStocksSlice] starts from. *)
Definition initialSlice (c : Clock) : PassiveSlice :=
  {| store := {| stockValues := initialStockValues;
                 stockHawlMet := DEFAULT_HAWL_STATUS_stocks;
                 currency := None |};
     passiveObject := JUndefined;
     passiveTop := defaultPassiveInvestments c |}.

(** [setStockValue(key, value)]. *)
Definition setStockValue (update : StockValueUpdate) (st : ZakatState) : ZakatState :=
  let sv := stockValues st in
  setStockValues st
    match update with
    | SetMarketValue value =>
        {| activeStocks := activeStocks sv;
           market_value := value;
           zakatable_value := zakatable_value sv;
           total_dividend_earnings := total_dividend_earnings sv;
           fund_value := fund_value sv;
           is_passive_fund := is_passive_fund sv;
           passiveInvestments := passiveInvestments sv |}
    | SetZakatableValue value =>
        {| activeStocks := activeStocks sv;
           market_value := market_value sv;
           zakatable_value := value;
           total_dividend_earnings := total_dividend_earnings sv;
           fund_value := fund_value sv;
           is_passive_fund := is_passive_fund sv;
           passiveInvestments := passiveInvestments sv |}
    | SetTotalDividendEarnings value =>
        {| activeStocks := activeStocks sv;
           market_value := market_value sv;
           zakatable_value := zakatable_value sv;
           total_dividend_earnings := Some value;
           fund_value := fund_value sv;
           is_passive_fund := is_passive_fund sv;
           passiveInvestments := passiveInvestments sv |}
    | SetFundValue value =>
        {| activeStocks := activeStocks sv;
           market_value := market_value sv;
           zakatable_value := zakatable_value sv;
           total_dividend_earnings := total_dividend_earnings sv;
           fund_value := Some value;
           is_passive_fund := is_passive_fund sv;
           passiveInvestments := passiveInvestments sv |}
    | SetIsPassiveFund value =>
        {| activeStocks := activeStocks sv;
           market_value := market_value sv;
           zakatable_value := zakatable_value sv;
           total_dividend_earnings := total_dividend_earnings sv;
           fund_value := fund_value sv;
           is_passive_fund := Some value;
           passiveInvestments := passiveInvestments sv |}
    end.

(** [setStockHawl(value)]. *)
Definition setStockHawl (value : bool) (st : ZakatState) : ZakatState :=
  {| stockValues := stockValues st;
     stockHawlMet := value;
     currency := currency st |}.

(** [resetStockValues()]. *)
Definition resetStockValues (c : Clock) (s : PassiveSlice) : PassiveSlice :=
  {| store :=
       {| stockValues :=
            {| activeStocks := activeStocks initialStockValues;
               market_value := market_value initialStockValues;
               zakatable_value := zakatable_value initialStockValues;
               total_dividend_earnings := total_dividend_earnings initialStockValues;
               fund_value := fund_value initialStockValues;
               is_passive_fund := is_passive_fund initialStockValues;
               passiveInvestments := passiveView (defaultPassiveInvestments c) |};
          stockHawlMet := DEFAULT_HAWL_STATUS_stocks;
          currency := currency (store s) |};
     passiveObject := defaultPassiveInvestments c;
     passiveTop := JUndefined |}.

(** [getActiveStocksBreakdown()]; every member of a holding is a number,
    so the [typeof] guards keep it. *)
Definition getActiveStocksBreakdown (st : ZakatState) : ActiveStocksBreakdown :=
  let stocks :=
    (fun stock =>
       {| viewSymbol := ActiveStock.symbol stock;
          viewShares := ActiveStock.shares stock;
          viewCurrentPrice := ActiveStock.currentPrice stock;
          viewMarketValue := ActiveStock.marketValue stock;
          viewZakatDue := ActiveStock.zakatDue stock |})
    <$> activeStocks (stockValues st) in
  {| viewStocks := stocks;
     viewTotalMarketValue :=
       fold_left (fun sum stock => (sum + Num.finiteOrZero (viewMarketValue stock))%float)
         stocks 0%float;
     viewTotalZakatDue :=
       fold_left (fun sum stock => (sum + Num.finiteOrZero (viewZakatDue stock))%float)
         stocks 0%float |}.

(** [meetsNisabThreshold()]. *)
Definition meetsNisabThreshold (metalPrices : option MetalPrices) (st : ZakatState)
    : bool :=
  let metalPrices := default {| gold := 0; silver := 0 |} metalPrices in
  let goldNisab := (NISAB_GOLD * gold metalPrices)%float in
  let silverNisab := (NISAB_SILVER * silver metalPrices)%float in
  let nisabThreshold := mathMin goldNisab silverNisab in
  let totalStockValue := getTotalStocks roundCurrency st in
  PrimFloat.leb nisabThreshold totalStockValue.

(** The draft [newState] of [updatePassiveInvestments], company data
    attached when given. *)
Definition draftPassiveState (c : Clock) (method : PassiveMethod)
    (data : option PassiveData) (calculations : JsValue) (currentState : JsValue)
    : Completion JsValue :=
  let dataInvestments :=
    match data with Some d => dataInvestments d | None => JUndefined end in
  currentInvestments ← Js.getOpt currentState "investments";
  calcMarketValue ← Js.getOpt calculations "marketValue";
  currentMarketValue ← Js.getOpt currentState "marketValue";
  calcZakatableValue ← Js.getOpt calculations "zakatableValue";
  currentZakatableValue ← Js.getOpt currentState "zakatableValue";
  currentHawlStatus ← Js.getOpt currentState "hawlStatus";
  currentDisplay ← Js.getOpt currentState "displayProperties";
  currentCurrency ← Js.getOpt currentDisplay "currency";
  let newState := [
    ("version", JStr "2.0");
    ("method", JStr (methodName method));
    ("investments",
      if Js.isArray dataInvestments then dataInvestments
      else Js.or currentInvestments (JArr []));
    ("marketValue",
      if Js.isNumber calcMarketValue then calcMarketValue
      else Js.or currentMarketValue (JNum 0));
    ("zakatableValue",
      if Js.isNumber calcZakatableValue then calcZakatableValue
      else Js.or currentZakatableValue (JNum 0));
    ("hawlStatus",
      Js.or currentHawlStatus
        (JObj [("isComplete", JBool false); ("startDate", JStr (nowISO c))]));
    ("displayProperties",
      JObj [("currency", Js.or currentCurrency (JStr "USD"));
            ("method",
              JStr (match method with Quick => "30% Rule" | Detailed => "CRI Method" end));
            ("totalLabel",
              JStr (match method with
                    | Quick => "Total Investments"
                    | Detailed => "Total Company Assets"
                    end))])] in
  match data with
  | Some {| dataCompanyData := Some company |} =>
      mret (JObj (newState ++ [
        ("companyData",
          JObj [("cash", JNum (cash company));
                ("receivables", JNum (receivables company));
                ("inventory", JNum (inventory company));
                ("totalShares", JNum (totalShares company));
                ("yourShares", JNum (yourShares company));
                ("displayProperties",
                  JObj [("currency", Js.or currentCurrency (JStr "USD"));
                        ("sharePercentage",
                          JNum (yourShares company / totalShares company * 100))])])])%list)
  | _ => mret (JObj newState)
  end.

(** [updatePassiveInvestments(method, data?, calculations?)]. Whatever is
    raised inside is logged and dropped, the store staying as it was. *)
Definition updatePassiveInvestments (stockAsset : option AssetType)
    (stockPrices : StockPrices) (c : Clock)
    (method : PassiveMethod) (data : option PassiveData) (calculations : JsValue)
    (s : PassiveSlice) : PassiveSlice :=
  let attempt : Completion PassiveSlice :=
    newState ← draftPassiveState c method data calculations (passiveObject s);
    migratedState ← Migrator.migratePassiveInvestments c newState;
    if negb (Js.truthy migratedState) then
      mret s
    else
      let sv := stockValues (store s) in
      let updatedStockValues :=
        {| activeStocks := activeStocks sv;
           market_value := asNumber (Migrator.field migratedState "marketValue");
           zakatable_value := asNumber (Migrator.field migratedState "zakatableValue");
           total_dividend_earnings := total_dividend_earnings sv;
           fund_value := fund_value sv;
           is_passive_fund := is_passive_fund sv;
           passiveInvestments := passiveView migratedState |} in
      finalStockValues ←
        match stockAsset with
        | Some asset =>
            newTotal ←
              calculateTotal asset updatedStockValues migratedState stockPrices;
            newZakatable ←
              calculateZakatable asset updatedStockValues migratedState stockPrices
                (stockHawlMet (store s));
            mret {| activeStocks := activeStocks updatedStockValues;
                    market_value := newTotal;
                    zakatable_value := newZakatable;
                    total_dividend_earnings := total_dividend_earnings updatedStockValues;
                    fund_value := fund_value updatedStockValues;
                    is_passive_fund := is_passive_fund updatedStockValues;
                    passiveInvestments := passiveInvestments updatedStockValues |}
        | None => mret updatedStockValues
        end;
      mret {| store := setStockValues (store s) finalStockValues;
              passiveObject := migratedState;
              passiveTop := migratedState |} in
  match attempt with
  | Normal s' => s'
  | Throw _error => s
  end.

End SliceRest.

(** ** A reference environment

    Modelled from the spec: [roundCurrency] ([@/lib/utils/currency]) and
    [ZAKAT_RATE] ([@/lib/constants]) are not among the sources. The spec
    says results are "rounded to currency precision" and that zakat is "a
    fixed rate"; [roundCents] rounds to two decimals the way
    [Math.round(x * 100) / 100] does (up to the sign of a zero result) and
    [zakatRate] is 2.5%. The properties below are proved for every
    [roundCurrency] and [ZAKAT_RATE]; this environment only instantiates
    them. *)

Definition ofInteger (n : Z) : number :=
  SF2Prim (binary_normalize prec emax n 0 false).

(** [Math.round(y)]: the largest integer not above [y + 0.5]. *)
Definition mathRound (y : number) : number :=
  match Prim2SF y with
  | S754_finite _ _ _ =>
      match Prim2SF (y + 0.5)%float with
      | S754_finite s m e =>
          let v := if s then Z.neg m else Z.pos m in
          ofInteger (if (0 <=? e)%Z then v * 2 ^ e else Z.shiftr v (- e))%Z
      | _ => (y + 0.5)%float
      end
  | _ => y
  end.

Definition roundCents (x : number) : number :=
  (mathRound (x * 100) / 100)%float.

Definition zakatRate : number := 0x1.999999999999ap-6%float.

(** A stand-in for [new Date(x).toISOString()]: the date strings handed
    around are ISO strings already, and the empty string is no date. *)
Definition isoOrRangeError (x : string) : Completion string :=
  if str_truthy x then Normal x else Throw (RangeError "Invalid time value").

Definition sampleClock : Clock :=
  {| dateNow := "1700000000000"; nowISO := "2023-11-14T22:13:20.000Z" |}.

Definition laterClock : Clock :=
  {| dateNow := "1800000000000"; nowISO := "2027-01-15T08:00:00.000Z" |}.

(** ** Sample stores *)

Definition aapl : ActiveStock.t :=
  {| ActiveStock.symbol := "AAPL";
     ActiveStock.shares := 10;
     ActiveStock.currentPrice := 150;
     ActiveStock.marketValue := 1500;
     ActiveStock.zakatDue := 37.5;
     ActiveStock.lastUpdated := "2023-11-01T00:00:00.000Z";
     ActiveStock.currency := None;
     ActiveStock.sourceCurrency := None |}.

Definition tsla : ActiveStock.t :=
  {| ActiveStock.symbol := "TSLA";
     ActiveStock.shares := 4;
     ActiveStock.currentPrice := 250;
     ActiveStock.marketValue := 1000;
     ActiveStock.zakatDue := 25;
     ActiveStock.lastUpdated := "2023-11-02T00:00:00.000Z";
     ActiveStock.currency := Some "USD";
     ActiveStock.sourceCurrency := None |}.

(** Two holdings, a passive block under the quick method whose figures
    were mirrored into the legacy fields, and some dividends. *)
Definition sampleValues (passiveMarketValue : number) : StockValues :=
  {| activeStocks := [aapl; tsla];
     market_value := passiveMarketValue;
     zakatable_value := 300;
     total_dividend_earnings := Some 50%float;
     fund_value := Some 0%float;
     is_passive_fund := Some false;
     passiveInvestments :=
       Some {| Passive.method := "quick";
               Passive.marketValue := passiveMarketValue;
               Passive.zakatableValue := 300 |} |}.

Definition sampleStore (hawl : bool) (passiveMarketValue : number) : ZakatState :=
  {| stockValues := sampleValues passiveMarketValue;
     stockHawlMet := hawl;
     currency := Some "USD" |}.

(** The [dividends] entry of the breakdown of [sampleStore true 1000]. *)
Definition sampleDividendsItem : BreakdownItem :=
  {| itemValue := 50;
     isZakatable := true;
     itemZakatable := 50;
     itemZakatDue := 1.25;
     label := "Dividend Earnings";
     tooltip := "Full dividend amount is zakatable";
     percentage := 1.41 |}.

(** The store of [createStocksSlice] before anything was added. *)
Definition emptyStore : ZakatState :=
  {| stockValues :=
       {| activeStocks := [];
          market_value := 0;
          zakatable_value := 0;
          total_dividend_earnings := Some 0%float;
          fund_value := Some 0%float;
          is_passive_fund := Some false;
          passiveInvestments := None |};
     stockHawlMet := false;
     currency := None |}.

(** ** Notions used to state the properties *)

(** The IEEE class of a number is "not a number" or "infinite". *)
Definition unbounded (x : number) : Prop :=
  Prim2SF x = S754_nan ∨ ∃ s, Prim2SF x = S754_infinity s.


(** The canonical (uppercased) symbols of the holdings, in order. *)
Definition tickers (stocks : list ActiveStock.t) : list string :=
  (fun s => toUpperCase (ActiveStock.symbol s)) <$> stocks.

(** A holding of [shares] shares valued at [price]. *)
Definition valuedAt (roundCurrency : number → number) (ZAKAT_RATE : number)
    (symbol : string) (shares price : number) (lastUpdated : string)
    (currency_ sourceCurrency : option string) : ActiveStock.t :=
  {| ActiveStock.symbol := symbol;
     ActiveStock.shares := shares;
     ActiveStock.currentPrice := price;
     ActiveStock.marketValue := roundCurrency (shares * price)%float;
     ActiveStock.zakatDue :=
       roundCurrency (roundCurrency (shares * price) * ZAKAT_RATE)%float;
     ActiveStock.lastUpdated := lastUpdated;
     ActiveStock.currency := currency_;
     ActiveStock.sourceCurrency := sourceCurrency |}.

(** A batch answer that quotes AAPL only, in USD. *)
Definition batchWithoutTsla (symbols : list string) (currency_ : string)
    : Completion (list PriceUpdate.t) :=
  Normal [{| PriceUpdate.symbol := "aapl";
             PriceUpdate.price := 160;
             PriceUpdate.currency := "USD";
             PriceUpdate.sourceCurrency := None;
             PriceUpdate.conversionApplied := false;
             PriceUpdate.lastUpdated := "2023-11-14T22:00:00.000Z" |}].

(** A price source that quotes every symbol at 150. *)
Definition quoteAt150 (symbol : string) (currency_ : option string)
    : Completion PriceQuote :=
  Normal {| quotePrice := 150; quoteLastUpdated := "2023-11-14T22:00:00.000Z" |}.

(** A holding whose market value and zakat due are the ones its shares
    and price call for. *)
Definition consistentHolding (roundCurrency : number → number) (ZAKAT_RATE : number)
    (s : ActiveStock.t) : Prop :=
  ActiveStock.marketValue s
  = roundCurrency (ActiveStock.shares s * ActiveStock.currentPrice s)%float
  ∧ ActiveStock.zakatDue s
    = roundCurrency (ActiveStock.marketValue s * ZAKAT_RATE)%float.

(** Holdings with pairwise distinct uppercased symbols, each consistently
    valued. *)
Definition wellFormedHoldings (roundCurrency : number → number) (ZAKAT_RATE : number)
    (stocks : list ActiveStock.t) : Prop :=
  NoDup (tickers stocks) ∧ Forall (consistentHolding roundCurrency ZAKAT_RATE) stocks.

(** A price source that is down. *)
Definition sourceDown (symbol : string) (currency_ : option string)
    : Completion PriceQuote :=
  Throw (Error "Network request failed").

(** A price source that quotes an infinite price, and one whose quote
    carries no date. *)
Definition quoteAtInfinity (symbol : string) (currency_ : option string)
    : Completion PriceQuote :=
  Normal {| quotePrice := infinity; quoteLastUpdated := "2023-11-14T22:00:00.000Z" |}.

Definition quoteUndated (symbol : string) (currency_ : option string)
    : Completion PriceQuote :=
  Normal {| quotePrice := 150; quoteLastUpdated := "" |}.


Definition converterAt09 : CurrencyStore :=
  {| convertAmount := Some (fun amount _ _ => Normal (amount * 0.9)%float) |}.

(** A batch answer that quotes both holdings in euros, unconverted. *)
Definition batchInEuros (symbols : list string) (currency_ : string)
    : Completion (list PriceUpdate.t) :=
  Normal [{| PriceUpdate.symbol := "AAPL";
             PriceUpdate.price := 140;
             PriceUpdate.currency := "EUR";
             PriceUpdate.sourceCurrency := None;
             PriceUpdate.conversionApplied := false;
             PriceUpdate.lastUpdated := "2023-11-14T22:00:00.000Z" |};
          {| PriceUpdate.symbol := "TSLA";
             PriceUpdate.price := 230;
             PriceUpdate.currency := "EUR";
             PriceUpdate.sourceCurrency := None;
             PriceUpdate.conversionApplied := false;
             PriceUpdate.lastUpdated := "2023-11-14T22:00:00.000Z" |}].

(** What the callback of [map] in [updateActiveStock] makes of a holding:
    [s'] is [s] revalued at the quote when [s] has exactly that symbol,
    and [s] otherwise. *)
Definition revalued (roundCurrency : number → number) (ZAKAT_RATE : number)
    (toISOString : string → Completion string)
    (symbol : string) (shares : number) (quote : PriceQuote)
    (s s' : ActiveStock.t) : Prop :=
  if String.eqb (ActiveStock.symbol s) symbol then
    ∃ iso, toISOString (quoteLastUpdated quote) = Normal iso
           ∧ s' = valuedAt roundCurrency ZAKAT_RATE (ActiveStock.symbol s) shares
                    (quotePrice quote) iso (ActiveStock.currency s)
                    (ActiveStock.sourceCurrency s)
  else s' = s.

(** An optional number, 0 when absent. *)
Definition termOrZeroOf (value : option number) : number := default 0%float value.

(** [{...stockValues, market_value: migrated.marketValue,
      zakatable_value: migrated.zakatableValue}]: the stock values with the
    legacy fields mirroring a passive-investment object. *)
Definition mirrorLegacy (sv : StockValues) (migrated : JsValue) : StockValues :=
  {| activeStocks := activeStocks sv;
     market_value := asNumber (Migrator.field migrated "marketValue");
     zakatable_value := asNumber (Migrator.field migrated "zakatableValue");
     total_dividend_earnings := total_dividend_earnings sv;
     fund_value := fund_value sv;
     is_passive_fund := is_passive_fund sv;
     passiveInvestments := passiveInvestments sv |}.

(** The sample store after [addActiveStock('msft', 5, 300)], after
    [updateActiveStock('AAPL', 20)] at a quote of 150, and after a refresh
    answered in euros with the converter at 0.9. *)
Definition afterAddMsft : ZakatState :=
  Eval vm_compute in
    match addActiveStock roundCents zakatRate isoOrRangeError quoteAt150 sampleClock
            "msft" 5 (Some 300%float) None (sampleStore true 1000)
            (sampleStore true 1000) with
    | Normal st => st
    | Throw _ => emptyStore
    end.

Definition afterUpdateAapl : ZakatState :=
  Eval vm_compute in
    match updateActiveStock roundCents zakatRate isoOrRangeError quoteAt150
            "AAPL" 20 (sampleStore false 1000) with
    | Normal st => st
    | Throw _ => emptyStore
    end.

Definition afterEuroRefresh : ZakatState :=
  Eval vm_compute in
    match updateStockPrices roundCents zakatRate batchInEuros (Some converterAt09)
            (Some "USD") None (sampleStore true 1000) (sampleStore true 1000) with
    | Normal st => st
    | Throw _ => emptyStore
    end.

(** An entry of a batch answer quotes a holding: the symbols agree up to
    letter case. *)
Definition quotes (p : PriceUpdate.t) (s : ActiveStock.t) : Prop :=
  toUpperCase (PriceUpdate.symbol p) = toUpperCase (ActiveStock.symbol s).

(** [q] is the first entry of the answer that quotes the holding. *)
Definition firstQuote (updatedPrices : list PriceUpdate.t) (s : ActiveStock.t)
    (q : PriceUpdate.t) : Prop :=
  ∃ before after,
    updatedPrices = (before ++ q :: after)%list
    ∧ quotes q s
    ∧ ∀ p, p ∈ before → ¬ quotes p s.

(** The entry [q] is in another currency than the target and the currency
    store has a converter that turns its price into a different amount. *)
Definition clientConverted (currencyStore : option CurrencyStore) (target : string)
    (q : PriceUpdate.t) (converted : number) : Prop :=
  PriceUpdate.currency q ≠ target
  ∧ ∃ store convert,
      currencyStore = Some store
      ∧ convertAmount store = Some convert
      ∧ convert (PriceUpdate.price q) (PriceUpdate.currency q) target
        = Normal converted
      ∧ Num.strictNe converted (PriceUpdate.price q) = true.

(** A batch answer with two entries for AAPL and none for TSLA. *)
Definition batchQuotingTwice (symbols : list string) (currency_ : string)
    : Completion (list PriceUpdate.t) :=
  Normal [{| PriceUpdate.symbol := "MSFT";
             PriceUpdate.price := 300;
             PriceUpdate.currency := "USD";
             PriceUpdate.sourceCurrency := None;
             PriceUpdate.conversionApplied := false;
             PriceUpdate.lastUpdated := "2023-11-14T21:00:00.000Z" |};
          {| PriceUpdate.symbol := "aapl";
             PriceUpdate.price := 160;
             PriceUpdate.currency := "USD";
             PriceUpdate.sourceCurrency := None;
             PriceUpdate.conversionApplied := false;
             PriceUpdate.lastUpdated := "2023-11-14T22:00:00.000Z" |};
          {| PriceUpdate.symbol := "AAPL";
             PriceUpdate.price := 170;
             PriceUpdate.currency := "USD";
             PriceUpdate.sourceCurrency := None;
             PriceUpdate.conversionApplied := false;
             PriceUpdate.lastUpdated := "2023-11-14T23:00:00.000Z" |}].

(** A batch source that is down. *)
Definition batchDown (symbols : list string) (currency_ : string)
    : Completion (list PriceUpdate.t) :=
  Throw (Error "Network request failed").

(** ** Sample persisted states *)

Definition unknownVersionState : JsValue :=
  JObj [("version", JStr "3.0"); ("method", JStr "quick")].

(** A stored state whose [version] is [null]. *)
Definition nullVersionState : JsValue :=
  JObj [("version", JNull); ("method", JStr "quick"); ("marketValue", JNum 1000)].

(** A legacy state saved before [method] and [version] existed. *)
Definition legacyState : JsValue :=
  JObj [("marketValue", JNum 1000); ("zakatableValue", JNum 300)].

(** The scenario of the specification:
    [{version: '1.0', method: 'detailed', marketValue: 1000}]. *)
Definition detailedV1State : JsValue :=
  JObj [("version", JStr "1.0"); ("method", JStr "detailed");
        ("marketValue", JNum 1000)].

(** A version ['2.0'] state as the slice stores it, with a started Hawl. *)
Definition canonicalState : JsValue :=
  JObj [("version", JStr "2.0");
        ("investments",
          JArr [JObj [("id", JStr "1690000000000"); ("name", JStr "Index fund");
                      ("shares", JNum 10); ("pricePerShare", JNum 100);
                      ("marketValue", JNum 1000)]]);
        ("method", JStr "quick");
        ("marketValue", JNum 1000);
        ("zakatableValue", JNum 300);
        ("hawlStatus", JObj [("isComplete", JBool true);
                             ("startDate", JStr "2022-07-22T04:26:40.000Z")]);
        ("displayProperties", JObj [("currency", JStr "EUR");
                                    ("method", JStr "30% Rule");
                                    ("totalLabel", JStr "Total Investments")])].

(** The [companyData] object [updatePassiveInvestments] attaches. *)
Definition companyDataObject (currency_ : JsValue) (company : CompanyData) : JsValue :=
  JObj [("cash", JNum (cash company));
        ("receivables", JNum (receivables company));
        ("inventory", JNum (inventory company));
        ("totalShares", JNum (totalShares company));
        ("yourShares", JNum (yourShares company));
        ("displayProperties",
          JObj [("currency", currency_);
                ("sharePercentage",
                  JNum (yourShares company / totalShares company * 100))])].

(** A calculator that adds the passive market value to the holdings, one
    that raises, and sample arguments of [updatePassiveInvestments]. *)
Definition sampleAsset : AssetType unit :=
  {| calculateTotal := fun sv _ _ =>
       Normal (activeTotal (activeStocks sv)
               + termOrZeroOf (Passive.marketValue <$> passiveInvestments sv))%float;
     calculateZakatable := fun sv _ _ hawl =>
       Normal (if hawl
               then (activeTotal (activeStocks sv)
                     + termOrZeroOf (Passive.zakatableValue <$> passiveInvestments sv))%float
               else 0%float) |}.

Definition brokenAsset : AssetType unit :=
  {| calculateTotal := fun _ _ _ => Throw (TypeError "values.activeStocks is undefined");
     calculateZakatable := fun _ _ _ _ => Normal 0%float |}.

(** A calculator whose second answer raises. *)
Definition halfBrokenAsset : AssetType unit :=
  {| calculateTotal := fun _ _ _ => Normal 0%float;
     calculateZakatable := fun _ _ _ _ =>
       Throw (TypeError "values.passiveInvestments is undefined") |}.

(** A calculator is registered and one of its two answers about the stock
    values [sv], which carry the passive state [m], is an exception. *)
Definition calculatorRaises {StockPrices : Type}
    (stockAsset : option (AssetType StockPrices)) (sv : StockValues) (m : JsValue)
    (stockPrices : StockPrices) (hawl : bool) : Prop :=
  ∃ asset,
    stockAsset = Some asset
    ∧ ((∃ e, calculateTotal StockPrices asset sv m stockPrices = Throw e)
       ∨ (∃ e, calculateZakatable StockPrices asset sv m stockPrices hawl = Throw e)).

Definition sampleSlice : PassiveSlice :=
  {| store := sampleStore true 1000;
     passiveObject := canonicalState;
     passiveTop := canonicalState |}.

Definition sampleCalculations : JsValue :=
  JObj [("marketValue", JNum 2000); ("zakatableValue", JNum 450)].

Definition sampleCompany : CompanyData :=
  {| cash := 500; receivables := 300; inventory := 200;
     totalShares := 1000; yourShares := 250 |}.

(** A version ['1.0'] state whose [companyData] was stored as [null]. *)
Definition nullCompanyDataState : JsValue :=
  JObj [("version", JStr "1.0"); ("method", JStr "quick");
        ("marketValue", JNum 1000); ("companyData", JNull)].

(** The labels [displayProperties.method] and [displayProperties.totalLabel]
    of a migrated state. *)
Definition labelsOf (migrated : JsValue) : JsValue * JsValue :=
  (Migrator.field (Migrator.field migrated "displayProperties") "method",
   Migrator.field (Migrator.field migrated "displayProperties") "totalLabel").

(** The labels the sanitized method of a state calls for. *)
Definition labelsFor (method : JsValue) : JsValue * JsValue :=
  if Js.isStr "quick" method
  then (JStr "30% Rule", JStr "Total Investments")
  else (JStr "CRI Method", JStr "Total Company Assets").

(** [v?.k] as a value. *)
Definition optField (v : JsValue) (k : string) : JsValue :=
  match Js.getOpt v k with Normal x => x | Throw _ => JUndefined end.

(** The closed form of what the version ['2.0'] branch of the migrator
    returns: every member sanitized on its own, the labels taken from the
    raw [method]. *)
Definition sanitizedV2 (c : Clock) (state : JsValue) : JsValue :=
  let hawlStatus := Migrator.field state "hawlStatus" in
  let displayProperties := Migrator.field state "displayProperties" in
  JObj [
    ("version", JStr "2.0");
    ("investments",
      if Js.isArray (Migrator.field state "investments")
      then Migrator.field state "investments" else JArr []);
    ("method", Migrator.sanitizeMethod (Migrator.field state "method"));
    ("marketValue", Migrator.numberOrZero (Migrator.field state "marketValue"));
    ("zakatableValue", Migrator.numberOrZero (Migrator.field state "zakatableValue"));
    ("companyData", Js.or (Migrator.field state "companyData") JUndefined);
    ("hawlStatus",
      JObj [("isComplete",
              if Js.isBoolean (optField hawlStatus "isComplete")
              then optField hawlStatus "isComplete" else JBool false);
            ("startDate", Js.or (optField hawlStatus "startDate") (JStr (nowISO c)));
            ("endDate", optField hawlStatus "endDate")]);
    ("displayProperties",
      JObj [("currency",
              if Js.isString (optField displayProperties "currency")
              then optField displayProperties "currency" else JStr "USD");
            ("method", Migrator.methodLabel (Migrator.field state "method"));
            ("totalLabel", Migrator.totalLabel (Migrator.field state "method"))])].

(** [method] is one of the two methods. *)
Definition validMethod (method : JsValue) : bool :=
  Js.isString method && Js.includes ["quick"; "detailed"] method.

(** ** The aggregate total as the specification words it

    "Each summed term defaults to 0 if missing/non-finite; result rounded
    to currency precision." *)

Definition termOrZero (value : option number) : number :=
  match value with
  | Some x => Num.finiteOrZero x
  | None => 0%float
  end.

(** What a holding adds to the total: its market value, 0 when that is
    [NaN] or infinite. *)
Definition countedMarketValue (stock : ActiveStock.t) : number :=
  let value := ActiveStock.marketValue stock in
  if PrimFloat.is_nan value || PrimFloat.is_infinity value then 0%float
  else value.

(** The terms added one after the other, from the left. *)
Fixpoint sumFrom (start : number) (terms : list number) : number :=
  match terms with
  | [] => start
  | term :: rest => sumFrom (start + term)%float rest
  end.

(** The active part of the total: what the holdings add, summed in order. *)
Definition activeSum_spec (stocks : list ActiveStock.t) : number :=
  sumFrom 0%float (countedMarketValue <$> stocks).

Definition totalStocks_spec (roundCurrency : number → number) (st : ZakatState)
    : number :=
  let sv := stockValues st in
  roundCurrency
    (activeSum_spec (activeStocks sv)
     + termOrZero (Passive.marketValue <$> passiveInvestments sv)
     + termOrZero (total_dividend_earnings sv))%float.

(** A term that counts as 0 when it is missing, [NaN] or zero. *)
Definition definedOrZero (value : option number) : number :=
  match value with
  | Some x => if PrimFloat.is_nan x then 0%float
              else if PrimFloat.is_zero x then 0%float else x
  | None => 0%float
  end.

(** A holding with its market value set to 0, and a store with other
    holdings. *)
Definition zeroValued (stock : ActiveStock.t) : ActiveStock.t :=
  {| ActiveStock.symbol := ActiveStock.symbol stock;
     ActiveStock.shares := ActiveStock.shares stock;
     ActiveStock.currentPrice := ActiveStock.currentPrice stock;
     ActiveStock.marketValue := 0;
     ActiveStock.zakatDue := ActiveStock.zakatDue stock;
     ActiveStock.lastUpdated := ActiveStock.lastUpdated stock;
     ActiveStock.currency := ActiveStock.currency stock;
     ActiveStock.sourceCurrency := ActiveStock.sourceCurrency stock |}.

Definition withHoldings (stocks : list ActiveStock.t) (st : ZakatState) : ZakatState :=
  setStockValues st (withActiveStocks (stockValues st) stocks).

(** A holding whose market value overflowed, and the sample store with it
    between the other two. *)
Definition overflowed : ActiveStock.t :=
  {| ActiveStock.symbol := "BRK";
     ActiveStock.shares := 1e200;
     ActiveStock.currentPrice := 1e200;
     ActiveStock.marketValue := infinity;
     ActiveStock.zakatDue := infinity;
     ActiveStock.lastUpdated := "2023-11-03T00:00:00.000Z";
     ActiveStock.currency := Some "USD";
     ActiveStock.sourceCurrency := None |}.

Definition storeWithOverflow : ZakatState :=
  withHoldings [aapl; overflowed; tsla] (sampleStore true 1000).

(** The store without its passive-investment block. *)
Definition withoutPassive (st : ZakatState) : ZakatState :=
  setStockValues st
    {| activeStocks := activeStocks (stockValues st);
       market_value := market_value (stockValues st);
       zakatable_value := zakatable_value (stockValues st);
       total_dividend_earnings := total_dividend_earnings (stockValues st);
       fund_value := fund_value (stockValues st);
       is_passive_fund := is_passive_fund (stockValues st);
       passiveInvestments := None |}.

(** * Properties *)

Local Open Scope list_scope.

(** ** Facts about binary64 arithmetic *)

Module NumFacts.

Lemma SFcompare_self_finite s m e :
  SFcompare (S754_finite s m e) (S754_finite s m e) = Some Eq.
Proof.
  simpl. rewrite Z.compare_refl, Pos.compare_cont_refl. by destruct s.
Qed.

Lemma isFinite_false_unbounded (x : number) :
  Num.isFinite x = false ↔ unbounded x.
Proof.
  unfold Num.isFinite, is_finite, is_nan, is_infinity, unbounded.
  rewrite !FloatAxioms.eqb_spec, abs_spec.
  change (Prim2SF infinity) with (S754_infinity false).
  destruct (Prim2SF x) as [s| s | |s m e] eqn:E; unfold SFeqb.
  - simpl. split; [discriminate | intros [?|[? ?]]; discriminate].
  - destruct s; simpl; (split; [eauto | reflexivity]).
  - simpl. split; [eauto | reflexivity].
  - rewrite SFcompare_self_finite. simpl.
    split; [discriminate | intros [?|[? ?]]; discriminate].
Qed.

Lemma unbounded_add_l (x y : number) : unbounded x → unbounded (x + y)%float.
Proof.
  unfold unbounded. rewrite add_spec. unfold SF64add.
  intros [-> | [s ->]].
  - by left.
  - destruct (Prim2SF y) as [t| t | |t m e]; simpl; eauto.
    destruct s, t; eauto.
Qed.

Lemma unbounded_add_r (x y : number) : unbounded y → unbounded (x + y)%float.
Proof.
  unfold unbounded. rewrite add_spec. unfold SF64add.
  intros [-> | [s ->]].
  - left. by destruct (Prim2SF x).
  - destruct (Prim2SF x) as [t| t | |t m e]; simpl; eauto.
    destruct t, s; eauto.
Qed.

Lemma zero_not_positive (x : number) :
  PrimFloat.is_zero x = true → Num.gt x 0%float = false.
Proof.
  unfold PrimFloat.is_zero, Num.gt.
  rewrite FloatAxioms.eqb_spec, ltb_spec.
  change (Prim2SF PrimFloat.zero) with (S754_zero false).
  change (Prim2SF 0%float) with (S754_zero false).
  destruct (Prim2SF x) as [s| s | |s m e]; try destruct s; cbn; congruence.
Qed.

Lemma zero_share_of_positive (t : number) :
  Num.gt t 0%float = true → (0 / t * 100)%float = 0%float.
Proof.
  unfold Num.gt. rewrite ltb_spec.
  change (Prim2SF 0%float) with (S754_zero false).
  intros Hpos.
  assert (Prim2SF (0 / t)%float = S754_zero false) as Hq.
  { rewrite div_spec. change (Prim2SF 0%float) with (S754_zero false).
    destruct (Prim2SF t) as [s| s | |s m e]; try destruct s;
      cbn in Hpos; try discriminate; reflexivity. }
  change (S754_zero false) with (Prim2SF 0%float) in Hq.
  apply Prim2SF_inj in Hq. by rewrite Hq.
Qed.

Lemma infinite_truthy (x : number) :
  Num.isFinite x = false → PrimFloat.is_nan x = false → Num.truthy x = true.
Proof.
  intros Hx Hnan. unfold Num.truthy. rewrite Hnan, orb_false_r.
  apply isFinite_false_unbounded in Hx as [Hx | [s Hx]].
  - unfold is_nan in Hnan. rewrite FloatAxioms.eqb_spec, Hx in Hnan.
    cbn in Hnan. discriminate.
  - unfold is_zero. rewrite FloatAxioms.eqb_spec, Hx.
    change (Prim2SF PrimFloat.zero) with (S754_zero false). by destruct s.
Qed.

End NumFacts.

(** ** ZakatAggregator *)

Section Aggregator.

Variable roundCurrency : number → number.
Variable ZAKAT_RATE : number.

(** C1. Whenever the Hawl-met flag is false, [getTotalZakatableStocks]
    returns exactly 0, whatever the active holdings, the passive
    investments' zakatable value and the dividend earnings are. *)
Theorem getTotalZakatableStocks_hawl_unmet (st : ZakatState) :
  stockHawlMet st = false →
  getTotalZakatableStocks roundCurrency st = 0%float.
Proof.
  intros Hhawl. unfold getTotalZakatableStocks. by rewrite Hhawl.
Qed.

Lemma activeTotal_activeSum_spec (stocks : list ActiveStock.t) :
  activeTotal stocks = activeSum_spec stocks.
Proof.
  unfold activeTotal, activeSum_spec. generalize 0%float.
  induction stocks as [|stock stocks IH]; intros start; [reflexivity|].
  simpl. rewrite IH. do 2 f_equal.
  unfold Num.finiteOrZero, Num.isFinite, is_finite, countedMarketValue. simpl.
  by destruct (_ || _).
Qed.

Lemma getTotalStocks_unfold (st : ZakatState) :
  let sv := stockValues st in
  let sum :=
    (activeSum_spec (activeStocks sv)
     + definedOrZero (Passive.marketValue <$> passiveInvestments sv)
     + definedOrZero (total_dividend_earnings sv))%float in
  getTotalStocks roundCurrency st
  = if Num.isFinite sum then roundCurrency sum else 0%float.
Proof.
  unfold getTotalStocks, definedOrZero, optOrZero, Num.orZero, Num.truthy.
  rewrite activeTotal_activeSum_spec.
  destruct (passiveInvestments (stockValues st)) as [p|],
           (total_dividend_earnings (stockValues st)) as [d|]; simpl;
    repeat match goal with
           | |- context [PrimFloat.is_nan ?x] => destruct (PrimFloat.is_nan x)
           | |- context [PrimFloat.is_zero ?x] => destruct (PrimFloat.is_zero x)
           end; reflexivity.
Qed.

(** C6, as amended. [getTotalStocks] rounds the sum of the active
    holdings' market values (a non-finite one counting as 0), the passive
    market value and the dividend earnings, the last two counting as 0
    when missing, [NaN] or zero; when that sum is not finite it returns 0
    instead. So a holding whose market value is not finite can as well be
    valued at 0, a [NaN] passive market value contributes 0 and leaves the
    other terms in the total, and an infinite one zeroes the whole total. *)
Theorem getTotalStocks_guarded_sum (st : ZakatState) :
  let sv := stockValues st in
  let sum :=
    (activeSum_spec (activeStocks sv)
     + definedOrZero (Passive.marketValue <$> passiveInvestments sv)
     + definedOrZero (total_dividend_earnings sv))%float in
  getTotalStocks roundCurrency st
  = (if Num.isFinite sum then roundCurrency sum else 0%float)
  ∧ (∀ before stock after,
       activeStocks sv = before ++ stock :: after →
       Num.isFinite (ActiveStock.marketValue stock) = false →
       getTotalStocks roundCurrency st
       = getTotalStocks roundCurrency
           (withHoldings (before ++ zeroValued stock :: after) st))
  ∧ (∀ passive,
       passiveInvestments sv = Some passive →
       PrimFloat.is_nan (Passive.marketValue passive) = true →
       getTotalStocks roundCurrency st
       = getTotalStocks roundCurrency (withoutPassive st))
  ∧ (∀ passive,
       passiveInvestments sv = Some passive →
       Num.isFinite (Passive.marketValue passive) = false →
       PrimFloat.is_nan (Passive.marketValue passive) = false →
       getTotalStocks roundCurrency st = 0%float).
Proof.
  split; [apply getTotalStocks_unfold|]. split; [|split].
  - intros before stock after Hstocks Hstock.
    rewrite !getTotalStocks_unfold. simpl. rewrite Hstocks.
    unfold activeSum_spec. rewrite !fmap_app, !fmap_cons.
    replace (countedMarketValue (zeroValued stock))
      with (countedMarketValue stock); [reflexivity|].
    unfold countedMarketValue. simpl.
    unfold Num.isFinite, is_finite in Hstock.
    apply negb_false_iff in Hstock. by rewrite Hstock.
  - intros passive Hp Hnan.
    unfold getTotalStocks, withoutPassive, Num.orZero, Num.truthy. simpl.
    by rewrite Hp, Hnan, orb_true_r.
  - intros passive Hp Hinf Hnan.
    unfold getTotalStocks. rewrite Hp.
    unfold Num.orZero. rewrite (NumFacts.infinite_truthy _ Hinf Hnan).
    apply NumFacts.isFinite_false_unbounded in Hinf.
    match goal with
    | |- (if Num.isFinite ?s then _ else _) = _ =>
        assert (Num.isFinite s = false) as ->; [|reflexivity]
    end.
    apply NumFacts.isFinite_false_unbounded.
    by apply NumFacts.unbounded_add_l, NumFacts.unbounded_add_r.
Qed.

(** C8. In [getStocksBreakdown] every emitted entry has percentage 0
    whenever the grand total is zero (more generally, not positive), the
    quotient by the total not being formed; and whenever the total is
    positive, each category (active trading, passive investments,
    dividends) has percentage [roundCurrency (value / total * 100)]; so
    has the zero-valued [stocks] placeholder entry, provided rounding
    0 gives 0. *)
Theorem getStocksBreakdown_percentage (st : ZakatState) (key : string)
    (item : BreakdownItem) :
  let breakdown := getStocksBreakdown roundCurrency ZAKAT_RATE st in
  (key, item) ∈ items breakdown →
  (PrimFloat.is_zero (total breakdown) = true → percentage item = 0%float)
  ∧ (Num.gt (total breakdown) 0 = false → percentage item = 0%float)
  ∧ (Num.gt (total breakdown) 0 = true →
     key ≠ "stocks" ∨ roundCurrency 0 = 0%float →
     percentage item
     = roundCurrency (itemValue item / total breakdown * 100)%float).
Proof.
  intros breakdown Hin.
  assert ((Num.gt (total breakdown) 0 = false → percentage item = 0%float)
          ∧ (Num.gt (total breakdown) 0 = true →
             key ≠ "stocks" ∨ roundCurrency 0 = 0%float →
             percentage item
             = roundCurrency (itemValue item / total breakdown * 100)%float))
    as [Hzero Hpos].
  { subst breakdown. unfold getStocksBreakdown in *. simpl in *.
    set (tot := getTotalStocks roundCurrency st) in *.
    destruct (0 <? length (activeStocks (stockValues st)))%nat,
             (passiveInvestments (stockValues st)) as [p|],
             (Num.gt (optOrZero (total_dividend_earnings (stockValues st))) 0);
      simpl in Hin;
      repeat match type of Hin with
             | _ ∈ [] => by apply elem_of_nil in Hin
             | _ ∈ _ :: _ => apply elem_of_cons in Hin as [Hin|Hin]
             end;
      injection Hin as -> ->; simpl;
      (split; [intros Hgt; by rewrite ?Hgt |]);
      intros Hgt Hkey; rewrite ?Hgt; try reflexivity;
      destruct Hkey as [Hkey | Hround]; [done|];
      by rewrite (NumFacts.zero_share_of_positive _ Hgt), Hround. }
  split; [|done].
  intros Hz. by apply Hzero, NumFacts.zero_not_positive.
Qed.

End Aggregator.

Lemma getTotalZakatableStocks_hawl_unmet_witness :
  stockHawlMet (sampleStore false 1000) = false
  ∧ getTotalZakatableStocks roundCents (sampleStore false 1000) = 0%float.
Proof.
  split; [reflexivity|].
  apply getTotalZakatableStocks_hawl_unmet. reflexivity.
Defined.

(** With the flag set the same store has a zakatable total. *)
Example getTotalZakatableStocks_hawl_met :
  getTotalZakatableStocks roundCents (sampleStore true 1000) = 2850%float.
Proof. vm_compute. reflexivity. Qed.

(** C6, as stated, fails when the passive market value is infinite: the
    claim has that term count as 0 and the holdings (2500) and the
    dividends (50) stay in the total, while the code returns 0. *)
Lemma getTotalStocks_infinite_passive_counterexample :
  getTotalStocks roundCents (sampleStore true infinity) = 0%float
  ∧ totalStocks_spec roundCents (sampleStore true infinity) = 2550%float
  ∧ getTotalStocks roundCents (sampleStore true infinity)
    ≠ totalStocks_spec roundCents (sampleStore true infinity).
Proof.
  split; [vm_compute; reflexivity|]. split; [vm_compute; reflexivity|].
  intros Heq. apply (f_equal PrimFloat.is_zero) in Heq.
  vm_compute in Heq. discriminate.
Qed.

Lemma getTotalStocks_guarded_sum_witness :
  getTotalStocks roundCents (sampleStore true nan)
  = getTotalStocks roundCents (withoutPassive (sampleStore true nan))
  ∧ getTotalStocks roundCents (sampleStore true infinity) = 0%float
  ∧ getTotalStocks roundCents storeWithOverflow
    = getTotalStocks roundCents
        (withHoldings [aapl; zeroValued overflowed; tsla] storeWithOverflow)
  ∧ getTotalStocks roundCents storeWithOverflow
    = roundCents (activeSum_spec [aapl; overflowed; tsla] + 1000 + 50)%float.
Proof.
  split; [|split; [|split]].
  - eapply (proj1 (proj2 (proj2 (getTotalStocks_guarded_sum roundCents
                                   (sampleStore true nan)))));
      reflexivity.
  - eapply (proj2 (proj2 (proj2 (getTotalStocks_guarded_sum roundCents
                                   (sampleStore true infinity)))));
      reflexivity.
  - apply (proj1 (proj2 (getTotalStocks_guarded_sum roundCents storeWithOverflow))
             [aapl] overflowed [tsla]); reflexivity.
  - rewrite (proj1 (getTotalStocks_guarded_sum roundCents storeWithOverflow)).
    reflexivity.
Defined.

(** The overflowed holding counts as 0 and the other terms stay. *)
Example getTotalStocks_overflowed_holding :
  getTotalStocks roundCents storeWithOverflow = 3550%float
  ∧ activeSum_spec [aapl; overflowed; tsla] = 2500%float.
Proof. split; vm_compute; reflexivity. Qed.

Example getTotalStocks_nan_passive :
  getTotalStocks roundCents (sampleStore true nan) = 2550%float.
Proof. vm_compute. reflexivity. Qed.

Lemma getStocksBreakdown_percentage_witness :
  let breakdown := getStocksBreakdown roundCents zakatRate (sampleStore true 1000) in
  ("dividends", sampleDividendsItem) ∈ items breakdown
  ∧ total breakdown = 3550%float
  ∧ percentage sampleDividendsItem = roundCents (50 / 3550 * 100)%float.
Proof.
  assert (("dividends", sampleDividendsItem)
          ∈ items (getStocksBreakdown roundCents zakatRate (sampleStore true 1000)))
    as Hin.
  { vm_compute. do 2 apply list_elem_of_further. apply list_elem_of_here. }
  split; [exact Hin|]. split; [vm_compute; reflexivity|].
  refine (proj2 (proj2 (getStocksBreakdown_percentage roundCents zakatRate
                          (sampleStore true 1000) "dividends" sampleDividendsItem Hin))
            _ _).
  - vm_compute. reflexivity.
  - left. discriminate.
Defined.

(** With nothing held the only entry is the placeholder, at 0%. *)
Example getStocksBreakdown_empty :
  items (getStocksBreakdown roundCents zakatRate emptyStore)
  = [("stocks",
      {| itemValue := 0; isZakatable := false; itemZakatable := 0;
         itemZakatDue := 0; label := "Stocks"; tooltip := "No stocks added yet";
         percentage := 0 |})].
Proof. vm_compute. reflexivity. Qed.

(** ** StateMigrator *)

Section MigratorProps.

Import Migrator.

Lemma get_truthy (v : JsValue) (k : string) :
  Js.truthy v = true → Js.get v k = Normal (field v k).
Proof. unfold field. by destruct v. Qed.

Lemma getOpt_completes (v : JsValue) (k : string) :
  ∃ x, Js.getOpt v k = Normal x
       ∧ (Js.isBoolean x = true ∨ Js.isString x = true → Js.get v k = Normal x).
Proof.
  destruct v; simpl; eexists; (split; [reflexivity|]);
    try reflexivity; intros [?|?]; discriminate.
Qed.

(** The statements of the [try] block raise on no truthy state. *)
Lemma migrateBody_completes (c : Clock) (state : JsValue) :
  Js.truthy state = true → completes (migrateBody c state).
Proof.
  intros Hstate. unfold migrateBody, completes.
  rewrite !(get_truthy state) by done. simpl.
  destruct (negb (Js.truthy (field state "version"))); [by eexists|].
  destruct (Js.isStr "1.0" (field state "version")); [by eexists|].
  destruct (Js.isStr "2.0" (field state "version")); [|by eexists].
  destruct (getOpt_completes (field state "hawlStatus") "isComplete")
    as (b & -> & Hb).
  destruct (getOpt_completes (field state "hawlStatus") "startDate") as (s & -> & _).
  destruct (getOpt_completes (field state "hawlStatus") "endDate") as (e & -> & _).
  destruct (getOpt_completes (field state "displayProperties") "currency")
    as (cur & -> & Hcur).
  simpl.
  destruct (Js.isBoolean b) eqn:Eb; [rewrite Hb by auto|]; simpl;
    (destruct (Js.isString cur) eqn:Ecur; [rewrite Hcur by auto|]; simpl;
     by eexists).
Qed.

(** C2, as amended. [migratePassiveInvestments] raises on no input, and
    the statements of its [try] block raise on no input that reaches
    them. It returns [undefined] for every input whose [version] is truthy
    and neither ['1.0'] nor ['2.0']; a falsy [version] ([undefined],
    [null], [false], [0], [NaN], ['']) on a truthy input is treated as
    unversioned state and yields a version ['2.0'] state. *)
Theorem migratePassiveInvestments_total (c : Clock) (state : JsValue) :
  completes (migratePassiveInvestments c state)
  ∧ (Js.truthy state = true → completes (migrateBody c state))
  ∧ (Js.truthy (field state "version") = true →
     Js.isStr "1.0" (field state "version") = false →
     Js.isStr "2.0" (field state "version") = false →
     migratePassiveInvestments c state = Normal JUndefined)
  ∧ (Js.truthy state = true →
     Js.truthy (field state "version") = false →
     ∃ migrated,
       migratePassiveInvestments c state = Normal migrated
       ∧ field migrated "version" = JStr "2.0").
Proof.
  split; [|split; [apply migrateBody_completes|split]].
  - unfold migratePassiveInvestments.
    destruct (negb (Js.truthy state)); [by eexists|].
    destruct (migrateBody c state); by eexists.
  - intros Hv H1 H2. unfold migratePassiveInvestments.
    destruct (Js.truthy state) eqn:Hstate; [|reflexivity]. simpl.
    unfold migrateBody. rewrite !(get_truthy state) by done. simpl.
    by rewrite Hv, H1, H2.
  - intros Hstate Hv. unfold migratePassiveInvestments, migrateBody.
    rewrite Hstate, !(get_truthy state) by done. simpl. rewrite Hv. simpl.
    eexists. split; reflexivity.
Qed.

End MigratorProps.

Lemma migratePassiveInvestments_total_witness :
  unknownVersionState = JObj [("version", JStr "3.0"); ("method", JStr "quick")]
  ∧ Migrator.migratePassiveInvestments sampleClock
      unknownVersionState = Normal JUndefined.
Proof.
  split; [reflexivity|].
  apply (proj1 (proj2 (proj2 (migratePassiveInvestments_total sampleClock
                                unknownVersionState))));
    reflexivity.
Defined.

(** C2, as stated, fails for a [version] of [null]: it is none of
    [undefined], ['1.0'] and ['2.0'], yet the state is migrated as an
    unversioned one instead of being answered with [undefined]. *)
Lemma migratePassiveInvestments_null_version_counterexample :
  Migrator.field nullVersionState "version" = JNull
  ∧ Migrator.migratePassiveInvestments sampleClock nullVersionState
    = Normal (JObj [
        ("version", JStr "2.0");
        ("investments",
          JArr [JObj [("id", JStr "1700000000000"); ("name", JStr "");
                      ("shares", JNum 0); ("pricePerShare", JNum 0);
                      ("marketValue", JNum 0)]]);
        ("method", JStr "quick");
        ("marketValue", JNum 1000);
        ("zakatableValue", JNum 0);
        ("companyData", JUndefined);
        ("hawlStatus", JObj [("isComplete", JBool false);
                             ("startDate", JStr "2023-11-14T22:13:20.000Z")]);
        ("displayProperties", JObj [("currency", JStr "USD");
                                    ("method", JStr "30% Rule");
                                    ("totalLabel", JStr "Total Investments")])])
  ∧ Migrator.migratePassiveInvestments sampleClock nullVersionState
    ≠ Normal JUndefined.
Proof.
  split; [reflexivity|]. split; [reflexivity|].
  vm_compute. discriminate.
Qed.

(** The same happens for the other falsy values of [version]. *)
Example migratePassiveInvestments_falsy_versions :
  Forall (fun version =>
            Migrator.field
              (match Migrator.migratePassiveInvestments sampleClock
                       (JObj [("version", version)]) with
               | Normal migrated => migrated
               | Throw _ => JUndefined
               end) "version" = JStr "2.0")
    [JUndefined; JNull; JBool false; JNum 0; JNum nan; JStr ""].
Proof. repeat constructor. Qed.

(** C4 at a legacy state that stores no [method]: the migrated state has
    method ['quick'], and next to it the labels of the detailed method. *)
Lemma migratePassiveInvestments_label_mismatch :
  ∃ migrated,
    Migrator.migratePassiveInvestments sampleClock legacyState = Normal migrated
    ∧ Migrator.field migrated "method" = JStr "quick"
    ∧ labelsOf migrated = (JStr "CRI Method", JStr "Total Company Assets")
    ∧ labelsFor (Migrator.field migrated "method")
      = (JStr "30% Rule", JStr "Total Investments").
Proof. eexists. repeat split. Qed.

(** C3 at the same legacy state: migrating the migrated state again
    changes the labels, so the first result is no fixed point. *)
Lemma migratePassiveInvestments_second_pass_differs :
  ∃ once twice,
    Migrator.migratePassiveInvestments sampleClock legacyState = Normal once
    ∧ Migrator.migratePassiveInvestments laterClock once = Normal twice
    ∧ labelsOf once = (JStr "CRI Method", JStr "Total Company Assets")
    ∧ labelsOf twice = (JStr "30% Rule", JStr "Total Investments")
    ∧ once ≠ twice.
Proof.
  do 2 eexists. repeat split.
  intros Heq. apply (f_equal labelsOf) in Heq. discriminate.
Qed.

(** A second way out of the fixed point: a version ['1.0'] state passes
    [companyData] through as it is, and the next pass turns a falsy one
    into [undefined]. *)
Example migratePassiveInvestments_null_companyData :
  ∃ once twice,
    Migrator.migratePassiveInvestments sampleClock nullCompanyDataState = Normal once
    ∧ Migrator.migratePassiveInvestments laterClock once = Normal twice
    ∧ Migrator.field once "companyData" = JNull
    ∧ Migrator.field twice "companyData" = JUndefined.
Proof. do 2 eexists. repeat split. Qed.

(** *** Where migration does reach a fixed point *)

Section MigratorFixedPoint.

Import Migrator.

Lemma validMethod_cases (m : JsValue) :
  validMethod m = true → m = JStr "quick" ∨ m = JStr "detailed".
Proof.
  unfold validMethod, Js.includes. destruct m; try discriminate. simpl.
  rewrite orb_false_r. intros [H|H]%orb_true_iff; apply String.eqb_eq in H;
    subst; auto.
Qed.

Lemma sanitizeMethod_valid (m : JsValue) : validMethod (sanitizeMethod m) = true.
Proof.
  unfold sanitizeMethod. fold (validMethod m).
  by destruct (validMethod m) eqn:E.
Qed.

Lemma sanitizeMethod_id (m : JsValue) : validMethod m = true → sanitizeMethod m = m.
Proof. unfold sanitizeMethod. fold (validMethod m). by intros ->. Qed.

Lemma numberOrZero_idem (x : JsValue) : numberOrZero (numberOrZero x) = numberOrZero x.
Proof. by destruct x. Qed.

Lemma or_undefined_idem (x : JsValue) :
  Js.or (Js.or x JUndefined) JUndefined = Js.or x JUndefined.
Proof. unfold Js.or. by destruct (Js.truthy x) eqn:E; [rewrite E|]. Qed.

Lemma or_default_idem (x d d' : JsValue) :
  Js.truthy d = true → Js.or (Js.or x d) d' = Js.or x d.
Proof. unfold Js.or. intros Hd. by destruct (Js.truthy x) eqn:E; [rewrite E|rewrite Hd]. Qed.

Lemma guarded_idem (P : JsValue → bool) (x d : JsValue) :
  (if P (if P x then x else d) then (if P x then x else d) else d)
  = (if P x then x else d).
Proof. destruct (P x) eqn:E; [by rewrite E|]. by destruct (P d). Qed.

(** The version ['2.0'] branch computes [sanitizedV2]. *)
Lemma migratePassiveInvestments_v2 (c : Clock) (state : JsValue) :
  Js.isStr "2.0" (field state "version") = true →
  migratePassiveInvestments c state = Normal (sanitizedV2 c state).
Proof.
  intros Hv.
  assert (Js.truthy state = true) as Hstate.
  { destruct state; try done; simpl in Hv; by destruct b. }
  unfold migratePassiveInvestments, migrateBody.
  rewrite Hstate, !(get_truthy state) by done. simpl.
  destruct (field state "version") as [| | | |v| |]; try discriminate.
  simpl in Hv. apply String.eqb_eq in Hv as ->. simpl.
  unfold sanitizedV2, optField.
  destruct (getOpt_completes (field state "hawlStatus") "isComplete")
    as (b & -> & Hb).
  destruct (getOpt_completes (field state "hawlStatus") "startDate") as (s & -> & _).
  destruct (getOpt_completes (field state "hawlStatus") "endDate") as (e & -> & _).
  destruct (getOpt_completes (field state "displayProperties") "currency")
    as (cur & -> & Hcur).
  simpl.
  destruct (Js.isBoolean b) eqn:Eb; [rewrite Hb by auto|]; simpl;
    (destruct (Js.isString cur) eqn:Ecur; [rewrite Hcur by auto|]; simpl;
     reflexivity).
Qed.

(** Sanitizing a sanitized state whose method was valid changes nothing. *)
Lemma sanitizedV2_fixed (c c' : Clock) (state : JsValue) :
  validMethod (field state "method") = true →
  str_truthy (nowISO c) = true →
  sanitizedV2 c' (sanitizedV2 c state) = sanitizedV2 c state.
Proof.
  intros Hm Hnow. unfold sanitizedV2 at 1. cbn -[sanitizedV2].
  unfold sanitizedV2. cbn [field Js.get Js.own String.eqb Ascii.eqb Bool.eqb].
  cbv [optField]. cbn [Js.getOpt Js.get Js.own String.eqb Ascii.eqb Bool.eqb].
  rewrite (sanitizeMethod_id _ Hm), (sanitizeMethod_id _ Hm).
  rewrite !numberOrZero_idem, or_undefined_idem.
  rewrite (or_default_idem _ (JStr (nowISO c)) _ Hnow).
  by rewrite (guarded_idem Js.isArray), (guarded_idem Js.isBoolean),
    (guarded_idem Js.isString).
Qed.

(** What a migration returns is [undefined] or a version ['2.0'] state
    with a valid method. *)
Lemma migratePassiveInvestments_shape (c : Clock) (state migrated : JsValue) :
  migratePassiveInvestments c state = Normal migrated →
  migrated = JUndefined
  ∨ (Js.isStr "2.0" (field migrated "version") = true
     ∧ validMethod (field migrated "method") = true).
Proof.
  unfold migratePassiveInvestments.
  destruct (Js.truthy state) eqn:Hstate; simpl; [|intros [= <-]; by left].
  destruct (Js.isStr "2.0" (field state "version")) eqn:Hv2.
  { pose proof (migratePassiveInvestments_v2 c state Hv2) as Hm.
    unfold migratePassiveInvestments in Hm. rewrite Hstate in Hm. simpl in Hm.
    rewrite Hm. intros [= <-]. right. split; [reflexivity|].
    apply sanitizeMethod_valid. }
  unfold migrateBody. rewrite !(get_truthy state) by done. simpl.
  rewrite Hv2.
  destruct (negb (Js.truthy (field state "version")));
    [|destruct (Js.isStr "1.0" (field state "version"))]; simpl;
    intros [= <-]; auto; right; (split; [reflexivity|apply sanitizeMethod_valid]).
Qed.

(** When the stored method is one of the two methods, the labels of the
    migrated state are those of its method. *)
Lemma migratePassiveInvestments_labels_valid_method (c : Clock)
    (state migrated : JsValue) :
  validMethod (field state "method") = true →
  migratePassiveInvestments c state = Normal migrated →
  migrated ≠ JUndefined →
  field migrated "method" = field state "method"
  ∧ labelsOf migrated = labelsFor (field migrated "method").
Proof.
  intros Hm. unfold migratePassiveInvestments.
  destruct (Js.truthy state) eqn:Hstate; simpl; [|by intros [= <-]].
  unfold migrateBody. rewrite !(get_truthy state) by done. simpl.
  destruct (negb (Js.truthy (field state "version")));
    [|destruct (Js.isStr "1.0" (field state "version"));
      [|destruct (Js.isStr "2.0" (field state "version"))]]; simpl.
  4: by intros [= <-].
  3: { destruct (getOpt_completes (field state "hawlStatus") "isComplete")
         as (b & -> & Hb).
       destruct (getOpt_completes (field state "hawlStatus") "startDate")
         as (s & -> & _).
       destruct (getOpt_completes (field state "hawlStatus") "endDate")
         as (e & -> & _).
       destruct (getOpt_completes (field state "displayProperties") "currency")
         as (cur & -> & Hcur).
       simpl.
       destruct (Js.isBoolean b) eqn:Eb; [rewrite Hb by auto|]; simpl;
         (destruct (Js.isString cur) eqn:Ecur; [rewrite Hcur by auto|]; simpl);
         intros [= <-] _;
         unfold labelsOf, labelsFor, methodLabel, totalLabel; cbn;
         rewrite ?(sanitizeMethod_id _ Hm);
         (split; [reflexivity|]);
         by destruct (Js.isStr "quick" (field state "method")). }
  all: intros [= <-] _;
    unfold labelsOf, labelsFor, methodLabel, totalLabel; cbn;
    rewrite ?(sanitizeMethod_id _ Hm);
    (split; [reflexivity|]);
    by destruct (Js.isStr "quick" (field state "method")).
Qed.

(** Re-migrating a canonical version ['2.0'] state reproduces it. *)
Lemma migratePassiveInvestments_canonical_fixed_point (c c' : Clock)
    (state once : JsValue) :
  Js.isStr "2.0" (field state "version") = true →
  validMethod (field state "method") = true →
  str_truthy (nowISO c) = true →
  migratePassiveInvestments c state = Normal once →
  migratePassiveInvestments c' once = Normal once.
Proof.
  intros Hv Hm Hnow. rewrite (migratePassiveInvestments_v2 c state Hv).
  intros [= <-].
  rewrite (migratePassiveInvestments_v2 c' (sanitizedV2 c state)) by reflexivity.
  by rewrite sanitizedV2_fixed.
Qed.

(** Whatever the input, the second pass reaches the fixed point: a third
    pass returns what the second one returned. *)
Lemma migratePassiveInvestments_stabilises (c1 c2 c3 : Clock)
    (state once twice : JsValue) :
  str_truthy (nowISO c2) = true →
  migratePassiveInvestments c1 state = Normal once →
  migratePassiveInvestments c2 once = Normal twice →
  migratePassiveInvestments c3 twice = Normal twice.
Proof.
  intros Hnow Honce Htwice.
  destruct (migratePassiveInvestments_shape _ _ _ Honce) as [-> | [Hv Hm]].
  - cbn in Htwice. by injection Htwice as <-.
  - rewrite (migratePassiveInvestments_v2 c2 once Hv) in Htwice.
    injection Htwice as <-.
    rewrite (migratePassiveInvestments_v2 c3 (sanitizedV2 c2 once)) by reflexivity.
    by rewrite sanitizedV2_fixed.
Qed.

End MigratorFixedPoint.

Lemma migratePassiveInvestments_labels_valid_method_witness :
  ∃ migrated,
    Migrator.migratePassiveInvestments sampleClock detailedV1State = Normal migrated
    ∧ Migrator.field migrated "method" = JStr "detailed"
    ∧ labelsOf migrated = (JStr "CRI Method", JStr "Total Company Assets")
    ∧ Migrator.field (Migrator.field migrated "hawlStatus") "isComplete"
      = JBool false.
Proof.
  eexists. split; [reflexivity|].
  destruct (migratePassiveInvestments_labels_valid_method sampleClock
              detailedV1State _ eq_refl eq_refl) as [Hmethod Hlabels].
  - discriminate.
  - split; [exact Hmethod|]. split; [exact Hlabels | reflexivity].
Defined.

Lemma migratePassiveInvestments_canonical_fixed_point_witness :
  ∃ once,
    Migrator.migratePassiveInvestments sampleClock canonicalState = Normal once
    ∧ Migrator.migratePassiveInvestments laterClock once = Normal once.
Proof.
  eexists. split; [reflexivity|].
  eapply (migratePassiveInvestments_canonical_fixed_point sampleClock laterClock
            canonicalState); reflexivity.
Defined.

Lemma migratePassiveInvestments_stabilises_witness :
  ∃ once twice,
    Migrator.migratePassiveInvestments sampleClock legacyState = Normal once
    ∧ Migrator.migratePassiveInvestments laterClock once = Normal twice
    ∧ Migrator.migratePassiveInvestments sampleClock twice = Normal twice.
Proof.
  do 2 eexists. split; [reflexivity|]. split; [reflexivity|].
  eapply (migratePassiveInvestments_stabilises sampleClock laterClock sampleClock
            legacyState); reflexivity.
Defined.

(** ** HoldingsRegistry *)

Lemma upper_ascii_idem (c : ascii) : upper_ascii (upper_ascii c) = upper_ascii c.
Proof. destruct c as [[] [] [] [] [] [] [] []]; reflexivity. Qed.

Lemma toUpperCase_idem (s : string) : toUpperCase (toUpperCase s) = toUpperCase s.
Proof.
  induction s as [|c s IH]; simpl; [reflexivity|].
  by rewrite upper_ascii_idem, IH.
Qed.

Lemma tryCatch_rethrow {A} (body : Completion A) :
  tryCatch body (fun error => Throw error) = body.
Proof. by destruct body. Qed.

Section Registry.

Variable roundCurrency : number → number.
Variable ZAKAT_RATE : number.
Variable toISOString : string → Completion string.

(** [upsertStock] either rewrites the first holding with the same ticker
    in place or appends a holding under the uppercased symbol. *)
Lemma upsertStock_cases (symbol : string) (shares price : number)
    (lastUpdated : string) (old : list ActiveStock.t) :
  let new :=
    upsertStock symbol shares price (roundCurrency (shares * price)%float)
      (roundCurrency (roundCurrency (shares * price) * ZAKAT_RATE)%float)
      lastUpdated old in
  (∃ i existing,
      old !! i = Some existing
      ∧ sameTicker symbol existing
      ∧ (∀ j other, old !! j = Some other → j < i → ¬ sameTicker symbol other)
      ∧ new = <[i := valuedAt roundCurrency ZAKAT_RATE
                        (ActiveStock.symbol existing) shares price lastUpdated
                        (ActiveStock.currency existing)
                        (ActiveStock.sourceCurrency existing)]> old)
  ∨ ((∀ s, s ∈ old → ¬ sameTicker symbol s)
     ∧ new = old ++ [valuedAt roundCurrency ZAKAT_RATE (toUpperCase symbol)
                       shares price lastUpdated None None]).
Proof.
  intros new. subst new. unfold upsertStock.
  destruct (list_find (sameTicker symbol) old) as [[i existing]|] eqn:Hfind.
  - left. apply list_find_Some in Hfind as (Hi & Hsame & Hfirst).
    exists i, existing. eauto.
  - right. split; [|reflexivity].
    apply list_find_None in Hfind. by apply Forall_forall.
Qed.

Lemma upsertStock_tickers_NoDup (symbol : string) (shares price : number)
    (lastUpdated : string) (old : list ActiveStock.t) :
  NoDup (tickers old) →
  NoDup (tickers
           (upsertStock symbol shares price (roundCurrency (shares * price)%float)
              (roundCurrency (roundCurrency (shares * price) * ZAKAT_RATE)%float)
              lastUpdated old)).
Proof.
  intros Hold.
  destruct (upsertStock_cases symbol shares price lastUpdated old)
    as [(i & existing & Hi & Hsame & _ & ->) | (Hnone & ->)].
  - unfold tickers in *. rewrite list_fmap_insert. simpl.
    rewrite list_insert_id; [done|].
    by rewrite list_lookup_fmap, Hi.
  - unfold tickers in *. rewrite fmap_app. simpl.
    apply NoDup_app. split; [done|]. split; [|apply NoDup_singleton].
    intros ticker (s & -> & Hs)%list_elem_of_fmap Hin.
    apply list_elem_of_singleton in Hin.
    rewrite toUpperCase_idem in Hin. by apply (Hnone s).
Qed.

(** C5. A successful [addActiveStock] keeps the uppercased symbols of the
    holdings pairwise distinct. It resolves a price (the manual price, or
    else the fetched one) and either replaces, at its position and with
    the list length unchanged, the holding whose symbol matches
    case-insensitively (shares, price, market value, zakat due and
    timestamp replaced; symbol and currencies kept), or appends exactly
    one holding under the uppercased symbol when no holding matches. The
    rest of the store is untouched. *)
Theorem addActiveStock_unique_symbols
    (getStockPrice : string → option string → Completion PriceQuote)
    (clock : Clock) (symbol : string) (shares : number)
    (manualPrice : option number) (currency_ : option string)
    (pre cur st' : ZakatState) :
  NoDup (tickers (activeStocks (stockValues cur))) →
  addActiveStock roundCurrency ZAKAT_RATE toISOString getStockPrice clock
    symbol shares manualPrice currency_ pre cur = Normal st' →
  let old := activeStocks (stockValues cur) in
  let new := activeStocks (stockValues st') in
  NoDup (tickers new)
  ∧ st' = setStockValues cur (withActiveStocks (stockValues cur) new)
  ∧ ∃ price lastUpdated,
      ((manualPriceGiven manualPrice = true ∧ manualPrice = Some price
        ∧ lastUpdated = nowISO clock)
       ∨ (manualPriceGiven manualPrice = false
          ∧ ∃ quote,
              getStockPrice symbol
                (Some (strOr currency_ (strOr (currency pre) "USD"))) = Normal quote
              ∧ quotePrice quote = price
              ∧ toISOString (quoteLastUpdated quote) = Normal lastUpdated))
      ∧ ((∃ i existing,
            old !! i = Some existing
            ∧ sameTicker symbol existing
            ∧ new = <[i := valuedAt roundCurrency ZAKAT_RATE
                              (ActiveStock.symbol existing) shares price lastUpdated
                              (ActiveStock.currency existing)
                              (ActiveStock.sourceCurrency existing)]> old
            ∧ length new = length old)
         ∨ ((∀ s, s ∈ old → ¬ sameTicker symbol s)
            ∧ new = old ++ [valuedAt roundCurrency ZAKAT_RATE (toUpperCase symbol)
                              shares price lastUpdated None None]
            ∧ length new = S (length old))).
Proof.
  intros Hold Hadd old new.
  assert (∃ price lastUpdated,
            ((manualPriceGiven manualPrice = true ∧ manualPrice = Some price
              ∧ lastUpdated = nowISO clock)
             ∨ (manualPriceGiven manualPrice = false
                ∧ ∃ quote,
                    getStockPrice symbol
                      (Some (strOr currency_ (strOr (currency pre) "USD")))
                    = Normal quote
                    ∧ quotePrice quote = price
                    ∧ toISOString (quoteLastUpdated quote) = Normal lastUpdated))
            ∧ st' = setStockValues cur
                      (withActiveStocks (stockValues cur)
                         (upsertStock symbol shares price
                            (roundCurrency (shares * price)%float)
                            (roundCurrency
                               (roundCurrency (shares * price) * ZAKAT_RATE)%float)
                            lastUpdated old)))
    as (price & lastUpdated & Hprice & Hst').
  { unfold addActiveStock in Hadd. rewrite tryCatch_rethrow in Hadd.
    destruct (negb (str_truthy symbol) || Num.le shares 0); [discriminate|].
    destruct (manualPriceGiven manualPrice) eqn:Hmanual; simpl in Hadd.
    - destruct manualPrice as [p|]; [|discriminate]. simpl in Hadd.
      injection Hadd as <-. exists p, (nowISO clock). split; [|reflexivity].
      left. auto.
    - destruct (getStockPrice symbol _) as [quote|] eqn:Hquote; [|discriminate].
      simpl in Hadd.
      destruct (toISOString (quoteLastUpdated quote)) as [iso|] eqn:Hiso;
        [|discriminate].
      simpl in Hadd. injection Hadd as <-.
      exists (quotePrice quote), iso. split; [|reflexivity].
      right. split; [reflexivity|]. exists quote. auto. }
  assert (new = upsertStock symbol shares price
                  (roundCurrency (shares * price)%float)
                  (roundCurrency (roundCurrency (shares * price) * ZAKAT_RATE)%float)
                  lastUpdated old) as Hnew.
  { subst new. by rewrite Hst'. }
  split; [rewrite Hnew; by apply upsertStock_tickers_NoDup|].
  split; [by rewrite Hnew|].
  exists price, lastUpdated. split; [exact Hprice|].
  rewrite Hnew.
  destruct (upsertStock_cases symbol shares price lastUpdated old)
    as [(i & existing & Hi & Hsame & _ & Hup) | (Hnone & Hup)].
  - left. exists i, existing. rewrite Hup.
    by rewrite length_insert.
  - right. rewrite Hup. rewrite length_app. simpl.
    repeat split; [done|lia].
Qed.

End Registry.

Lemma addActiveStock_unique_symbols_witness :
  ∃ st',
    addActiveStock roundCents zakatRate isoOrRangeError quoteAt150 sampleClock
      "aapl" 20 (Some 150%float) None (sampleStore true 1000) (sampleStore true 1000)
    = Normal st'
    ∧ NoDup (tickers (activeStocks (stockValues st')))
    ∧ tickers (activeStocks (stockValues st')) = ["AAPL"; "TSLA"]
    ∧ ActiveStock.shares <$> activeStocks (stockValues st') = [20%float; 4%float].
Proof.
  eexists. split; [vm_compute; reflexivity|]. split; [|split; reflexivity].
  eapply (addActiveStock_unique_symbols roundCents zakatRate isoOrRangeError
            quoteAt150 sampleClock "aapl" 20 (Some 150%float) None
            (sampleStore true 1000) (sampleStore true 1000)).
  - apply (bool_decide_unpack _). vm_compute. reflexivity.
  - vm_compute. reflexivity.
Defined.

(** The scenario of the specification: AAPL, 10 shares, manual price 150. *)
Example addActiveStock_manual_price :
  addActiveStock roundCents zakatRate isoOrRangeError quoteAt150 sampleClock
    "AAPL" 10 (Some 150%float) None emptyStore emptyStore
  = Normal
      (setStockValues emptyStore
         (withActiveStocks (stockValues emptyStore)
            [{| ActiveStock.symbol := "AAPL";
                ActiveStock.shares := 10;
                ActiveStock.currentPrice := 150;
                ActiveStock.marketValue := 1500;
                ActiveStock.zakatDue := 37.5;
                ActiveStock.lastUpdated := "2023-11-14T22:13:20.000Z";
                ActiveStock.currency := None;
                ActiveStock.sourceCurrency := None |}])).
Proof. vm_compute. reflexivity. Qed.

Lemma filter_symbol_ne (symbol : string) (stocks : list ActiveStock.t) :
  List.filter (fun s => negb (String.eqb (ActiveStock.symbol s) symbol)) stocks
  = filter (fun s => ActiveStock.symbol s ≠ symbol) stocks.
Proof.
  induction stocks as [|s stocks IH]; [reflexivity|].
  simpl. rewrite filter_cons, IH.
  destruct (String.eqb_spec (ActiveStock.symbol s) symbol);
    simpl; by destruct (decide _).
Qed.

(** C9. [removeActiveStock] keeps, unchanged and in their order, exactly
    the holdings whose stored symbol differs from the argument as a
    string: a holding whose symbol equals it only up to letter case
    stays. Nothing else in the store changes. *)
Theorem removeActiveStock_exact_symbol (symbol : string) (st : ZakatState) :
  let before := activeStocks (stockValues st) in
  let after := activeStocks (stockValues (removeActiveStock symbol st)) in
  after = filter (fun s => ActiveStock.symbol s ≠ symbol) before
  ∧ (∀ s, s ∈ after ↔ s ∈ before ∧ ActiveStock.symbol s ≠ symbol)
  ∧ after `sublist_of` before
  ∧ (∀ s, s ∈ before →
          ActiveStock.symbol s ≠ symbol →
          toUpperCase (ActiveStock.symbol s) = toUpperCase symbol →
          s ∈ after)
  ∧ removeActiveStock symbol st
    = setStockValues st (withActiveStocks (stockValues st) after).
Proof.
  intros before after.
  assert (after = filter (fun s => ActiveStock.symbol s ≠ symbol) before) as Hafter.
  { subst after before. unfold removeActiveStock. simpl. apply filter_symbol_ne. }
  split; [exact Hafter|].
  assert (∀ s, s ∈ after ↔ s ∈ before ∧ ActiveStock.symbol s ≠ symbol) as Hmem.
  { intros s. rewrite Hafter, list_elem_of_filter. tauto. }
  split; [exact Hmem|]. split; [rewrite Hafter; apply sublist_filter|].
  split; [|reflexivity].
  intros s Hs Hne _. by apply Hmem.
Qed.

Section RegistryRemoveUpdate.

Variable roundCurrency : number → number.
Variable ZAKAT_RATE : number.
Variable toISOString : string → Completion string.

Lemma mapM_unchanged (f : ActiveStock.t → Completion ActiveStock.t)
    (stocks : list ActiveStock.t) :
  (∀ s, s ∈ stocks → f s = Normal s) → mapM f stocks = Normal stocks.
Proof.
  induction stocks as [|s stocks IH]; intros Hf; [reflexivity|].
  simpl. rewrite (Hf s) by apply list_elem_of_here. simpl.
  rewrite IH; [reflexivity|].
  intros s' Hs'. apply Hf. by apply list_elem_of_further.
Qed.

(** C10. When no holding has exactly the given symbol and the fetched
    price is finite, [updateActiveStock] completes normally, leaves the
    holdings as they are and still overwrites the legacy [market_value]
    with the sum over the active holdings alone, and [zakatable_value]
    with that sum under a met Hawl and 0 otherwise, whatever the two
    fields held before; the other members of the store are kept. *)
Theorem updateActiveStock_unmatched_overwrites_legacy
    (getStockPrice : string → option string → Completion PriceQuote)
    (symbol : string) (shares : number) (cur : ZakatState) (quote : PriceQuote) :
  getStockPrice symbol None = Normal quote →
  Num.isFinite (quotePrice quote) = true →
  (∀ s, s ∈ activeStocks (stockValues cur) → ActiveStock.symbol s ≠ symbol) →
  ∃ st',
    updateActiveStock roundCurrency ZAKAT_RATE toISOString getStockPrice
      symbol shares cur = Normal st'
    ∧ activeStocks (stockValues st') = activeStocks (stockValues cur)
    ∧ market_value (stockValues st')
      = legacyTotal (activeStocks (stockValues cur))
    ∧ zakatable_value (stockValues st')
      = (if stockHawlMet cur then legacyTotal (activeStocks (stockValues cur))
         else 0%float)
    ∧ passiveInvestments (stockValues st') = passiveInvestments (stockValues cur)
    ∧ total_dividend_earnings (stockValues st')
      = total_dividend_earnings (stockValues cur)
    ∧ stockHawlMet st' = stockHawlMet cur
    ∧ currency st' = currency cur.
Proof.
  intros Hquote Hfinite Hnone.
  unfold updateActiveStock. rewrite tryCatch_rethrow, Hquote. simpl.
  rewrite Hfinite. simpl.
  rewrite mapM_unchanged.
  - simpl. eexists. repeat split.
  - intros s Hs. apply Hnone in Hs.
    by destruct (String.eqb_spec (ActiveStock.symbol s) symbol).
Qed.

End RegistryRemoveUpdate.

Lemma removeActiveStock_exact_symbol_witness :
  activeStocks (stockValues (removeActiveStock "aapl" (sampleStore true 1000)))
  = [aapl; tsla]
  ∧ activeStocks (stockValues (removeActiveStock "AAPL" (sampleStore true 1000)))
    = [tsla]
  ∧ aapl ∈ activeStocks (stockValues (removeActiveStock "aapl" (sampleStore true 1000))).
Proof.
  split; [reflexivity|]. split; [reflexivity|].
  apply (proj1 (proj2 (proj2 (proj2
           (removeActiveStock_exact_symbol "aapl" (sampleStore true 1000)))))).
  - apply list_elem_of_here.
  - discriminate.
  - reflexivity.
Defined.

Lemma updateActiveStock_unmatched_overwrites_legacy_witness :
  market_value (stockValues (sampleStore false 1000)) = 1000%float
  ∧ zakatable_value (stockValues (sampleStore false 1000)) = 300%float
  ∧ ∃ st',
      updateActiveStock roundCents zakatRate isoOrRangeError quoteAt150
        "aapl" 20 (sampleStore false 1000) = Normal st'
      ∧ activeStocks (stockValues st') = [aapl; tsla]
      ∧ market_value (stockValues st') = 2500%float
      ∧ zakatable_value (stockValues st') = 0%float.
Proof.
  split; [reflexivity|]. split; [reflexivity|].
  destruct (updateActiveStock_unmatched_overwrites_legacy roundCents zakatRate
              isoOrRangeError quoteAt150 "aapl" 20 (sampleStore false 1000)
              {| quotePrice := 150; quoteLastUpdated := "2023-11-14T22:00:00.000Z" |})
    as (st' & Hst' & Hstocks & Hmv & Hzv & _).
  - reflexivity.
  - reflexivity.
  - intros s Hs. apply (bool_decide_unpack _).
    revert s Hs. apply Forall_forall. repeat constructor.
  - exists st'. split; [exact Hst'|]. split; [exact Hstocks|].
    split; [rewrite Hmv; vm_compute; reflexivity | rewrite Hzv; reflexivity].
Defined.

(** ** PriceUpdatePipeline *)

Section Pipeline.

Variable roundCurrency : number → number.
Variable ZAKAT_RATE : number.

(** A holding that no entry of the batch quotes comes back as it is. *)
Lemma refreshStock_unmatched (currencyStore : option CurrencyStore)
    (currentCurrency : string) (updatedPrices : list PriceUpdate.t)
    (stock : ActiveStock.t) :
  (∀ p, p ∈ updatedPrices →
        toUpperCase (PriceUpdate.symbol p) ≠ toUpperCase (ActiveStock.symbol stock)) →
  refreshStock roundCurrency ZAKAT_RATE currencyStore currentCurrency
    updatedPrices stock = stock.
Proof.
  intros Hnone. unfold refreshStock.
  destruct (List.find (quotesTicker stock) updatedPrices) as [p|] eqn:Hfind;
    [|reflexivity].
  apply List.find_some in Hfind as [Hin Hq].
  apply list_elem_of_In, Hnone in Hin.
  unfold quotesTicker in Hq. by apply String.eqb_eq in Hq.
Qed.

(** C7. A batch refresh that completes leaves every holding whose symbol
    matches, case-insensitively, no entry of the price source's answer
    exactly as it was, at its position: price, market value, zakat due,
    timestamp and currencies included. *)
Theorem updateStockPrices_unmatched_unchanged
    (getBatchStockPrices : list string → string → Completion (list PriceUpdate.t))
    (currencyStore : option CurrencyStore)
    (targetCurrency fromCurrency : option string)
    (pre cur st' : ZakatState) (i : nat) (stock : ActiveStock.t) :
  updateStockPrices roundCurrency ZAKAT_RATE getBatchStockPrices currencyStore
    targetCurrency fromCurrency pre cur = Normal st' →
  activeStocks (stockValues cur) !! i = Some stock →
  (∀ updatedPrices,
     getBatchStockPrices (ActiveStock.symbol <$> activeStocks (stockValues pre))
       (strOr targetCurrency (strOr (currency pre) "USD")) = Normal updatedPrices →
     ∀ p, p ∈ updatedPrices →
          toUpperCase (PriceUpdate.symbol p)
          ≠ toUpperCase (ActiveStock.symbol stock)) →
  activeStocks (stockValues st') !! i = Some stock
  ∧ length (activeStocks (stockValues st')) = length (activeStocks (stockValues cur)).
Proof.
  intros Hrun Hi Hnone.
  unfold updateStockPrices in Hrun. rewrite tryCatch_rethrow in Hrun.
  destruct (length (activeStocks (stockValues pre)) =? 0)%nat.
  { injection Hrun as <-. done. }
  destruct (getBatchStockPrices _ _) as [updatedPrices|] eqn:Hbatch;
    [|discriminate].
  simpl in Hrun. injection Hrun as <-. simpl.
  rewrite list_lookup_fmap, Hi, length_fmap. simpl.
  split; [|reflexivity]. f_equal.
  apply refreshStock_unmatched. by apply Hnone.
Qed.

End Pipeline.

Lemma updateStockPrices_unmatched_unchanged_witness :
  ∃ st',
    updateStockPrices roundCents zakatRate batchWithoutTsla None None None
      (sampleStore true 1000) (sampleStore true 1000) = Normal st'
    ∧ activeStocks (stockValues st') !! 1 = Some tsla
    ∧ ActiveStock.marketValue <$> activeStocks (stockValues st')
      = [1600%float; 1000%float].
Proof.
  eexists. split; [vm_compute; reflexivity|]. split; [|reflexivity].
  eapply (proj1 (updateStockPrices_unmatched_unchanged roundCents zakatRate
                   batchWithoutTsla None None None
                   (sampleStore true 1000) (sampleStore true 1000) _ 1 tsla _ _ _)).
  Unshelve.
  - vm_compute. reflexivity.
  - reflexivity.
  - intros updatedPrices [= <-] p Hp.
    apply (bool_decide_unpack _).
    revert p Hp. apply Forall_forall. repeat constructor.
Defined.

(** * Further properties of the slice *)

(** ** HoldingsRegistry: outcomes, round trips and invariants *)

Lemma mapM_Forall2 {A B} (f : A → Completion B) (l : list A) (k : list B) :
  mapM f l = Normal k → Forall2 (fun x y => f x = Normal y) l k.
Proof.
  revert k. induction l as [|x l IH]; intros k; simpl.
  - intros [= <-]. constructor.
  - destruct (f x) as [y|] eqn:Hy; simpl; [|discriminate].
    destruct (mapM f l) as [k'|]; simpl; [|discriminate].
    intros [= <-]. constructor; auto.
Qed.

Lemma mapM_Throw {A B} (f : A → Completion B) (l : list A) (e : JsError) :
  mapM f l = Throw e → ∃ x, x ∈ l ∧ f x = Throw e.
Proof.
  induction l as [|x l IH]; simpl; [discriminate|].
  destruct (f x) as [y|e'] eqn:Hy; simpl.
  - destruct (mapM f l) as [k'|e'] eqn:Hk; simpl; [discriminate|].
    intros [= <-]. destruct IH as (x' & Hin & Hx'); [reflexivity|].
    exists x'. split; [by apply list_elem_of_further | exact Hx'].
  - intros [= <-]. exists x. split; [apply list_elem_of_here | exact Hy].
Qed.

Lemma mapM_Throw_first {A B} (f : A → Completion B) (l : list A) (e : JsError) :
  (∃ x, x ∈ l ∧ f x = Throw e) →
  (∀ x e', x ∈ l → f x = Throw e' → e' = e) →
  mapM f l = Throw e.
Proof.
  induction l as [|x l IH]; intros (x' & Hin & Hx') Hsame.
  - by apply elem_of_nil in Hin.
  - simpl. destruct (f x) as [y|e'] eqn:Hy; simpl.
    + rewrite IH; [reflexivity| |].
      * apply elem_of_cons in Hin as [->|Hin]; [congruence|by exists x'].
      * intros x0 e0 Hx0. apply Hsame. by apply list_elem_of_further.
    + f_equal. apply (Hsame x); [apply list_elem_of_here | exact Hy].
Qed.

(** A number that is not finite is [NaN], [Infinity] or [-Infinity]. *)
Lemma nonFinite_cases (x : number) :
  Num.isFinite x = false ↔ x = nan ∨ x = infinity ∨ x = neg_infinity.
Proof.
  split.
  - intros Hx. apply NumFacts.isFinite_false_unbounded in Hx as [Hx | [[] Hx]].
    + left. by apply Prim2SF_inj.
    + right. right. by apply Prim2SF_inj.
    + right. left. by apply Prim2SF_inj.
  - by intros [-> | [-> | ->]].
Qed.

Lemma filter_symbol_absent (stocks : list ActiveStock.t) (symbol : string) :
  (∀ s, s ∈ stocks → ActiveStock.symbol s ≠ symbol) →
  List.filter (fun s => negb (String.eqb (ActiveStock.symbol s) symbol)) stocks
  = stocks.
Proof.
  intros Hne. rewrite filter_symbol_ne.
  induction stocks as [|s l IH]; [reflexivity|].
  rewrite filter_cons. destruct (decide _) as [_|Hs].
  - f_equal. apply IH. intros s' Hs'. apply Hne. by apply list_elem_of_further.
  - exfalso. apply Hs, Hne, list_elem_of_here.
Qed.

Section RegistryOutcomes.

Variable roundCurrency : number → number.
Variable ZAKAT_RATE : number.
Variable toISOString : string → Completion string.

(** What a completed [addActiveStock] wrote. *)
Lemma addActiveStock_Normal_inv
    (getStockPrice : string → option string → Completion PriceQuote)
    (clock : Clock) (symbol : string) (shares : number)
    (manualPrice : option number) (currency_ : option string)
    (pre cur st' : ZakatState) :
  addActiveStock roundCurrency ZAKAT_RATE toISOString getStockPrice clock
    symbol shares manualPrice currency_ pre cur = Normal st' →
  str_truthy symbol = true ∧ Num.le shares 0 = false
  ∧ ∃ price lastUpdated,
      st' = setStockValues cur
              (withActiveStocks (stockValues cur)
                 (upsertStock symbol shares price
                    (roundCurrency (shares * price)%float)
                    (roundCurrency
                       (roundCurrency (shares * price) * ZAKAT_RATE)%float)
                    lastUpdated (activeStocks (stockValues cur)))).
Proof.
  unfold addActiveStock. rewrite tryCatch_rethrow.
  destruct (str_truthy symbol); simpl; [|discriminate].
  destruct (Num.le shares 0); simpl; [discriminate|].
  destruct (manualPriceGiven manualPrice) eqn:Hmanual; simpl.
  - intros [= <-]. eauto.
  - destruct (getStockPrice symbol _) as [quote|]; simpl; [|discriminate].
    destruct (toISOString (quoteLastUpdated quote)) as [iso|]; simpl;
      [|discriminate].
    intros [= <-]. eauto.
Qed.

(** The only ways [addActiveStock] fails: an empty symbol or [shares <= 0]
    (before any price is looked up), and, when no manual price is given,
    a failing price source or a timestamp that is no date, whose error it
    raises again. With a valid symbol and share count and a manual price
    it completes whatever the price source would do. *)
Theorem addActiveStock_failures
    (getStockPrice : string → option string → Completion PriceQuote)
    (clock : Clock) (symbol : string) (shares : number)
    (manualPrice : option number) (currency_ : option string)
    (pre cur : ZakatState) :
  (∀ e,
     addActiveStock roundCurrency ZAKAT_RATE toISOString getStockPrice clock
       symbol shares manualPrice currency_ pre cur = Throw e →
     (e = Error "Invalid symbol or shares"
      ∧ (str_truthy symbol = false ∨ Num.le shares 0 = true))
     ∨ (manualPriceGiven manualPrice = false
        ∧ (getStockPrice symbol
             (Some (strOr currency_ (strOr (currency pre) "USD"))) = Throw e
           ∨ ∃ quote,
               getStockPrice symbol
                 (Some (strOr currency_ (strOr (currency pre) "USD")))
               = Normal quote
               ∧ toISOString (quoteLastUpdated quote) = Throw e)))
  ∧ (str_truthy symbol = false ∨ Num.le shares 0 = true →
     addActiveStock roundCurrency ZAKAT_RATE toISOString getStockPrice clock
       symbol shares manualPrice currency_ pre cur
     = Throw (Error "Invalid symbol or shares"))
  ∧ (str_truthy symbol = true → Num.le shares 0 = false →
     manualPriceGiven manualPrice = true →
     completes
       (addActiveStock roundCurrency ZAKAT_RATE toISOString getStockPrice clock
          symbol shares manualPrice currency_ pre cur)).
Proof.
  unfold addActiveStock. rewrite tryCatch_rethrow. repeat split.
  - intros e.
    destruct (str_truthy symbol); simpl; [|intros [= <-]; auto].
    destruct (Num.le shares 0); simpl; [intros [= <-]; auto|].
    destruct (manualPriceGiven manualPrice) eqn:Hmanual; simpl; [discriminate|].
    destruct (getStockPrice symbol _) as [quote|e'] eqn:Hq; simpl;
      [|intros [= <-]; auto].
    destruct (toISOString (quoteLastUpdated quote)) as [iso|e'] eqn:Hiso; simpl;
      [discriminate|].
    intros [= <-]. right. split; [reflexivity|]. right. eauto.
  - intros [-> | Hle]; [reflexivity|]. rewrite Hle. by rewrite orb_true_r.
  - intros -> -> ->. simpl. by eexists.
Qed.

(** Adding a symbol that no holding matches and then removing its
    uppercased form gives back the store as it was. Removing the symbol as
    it was typed does so only if it was typed in upper case: otherwise the
    holding just added stays. *)
Theorem addActiveStock_then_removeActiveStock
    (getStockPrice : string → option string → Completion PriceQuote)
    (clock : Clock) (symbol : string) (shares : number)
    (manualPrice : option number) (currency_ : option string)
    (pre cur st' : ZakatState) :
  addActiveStock roundCurrency ZAKAT_RATE toISOString getStockPrice clock
    symbol shares manualPrice currency_ pre cur = Normal st' →
  (∀ s, s ∈ activeStocks (stockValues cur) → ¬ sameTicker symbol s) →
  removeActiveStock (toUpperCase symbol) st' = cur
  ∧ (toUpperCase symbol ≠ symbol → removeActiveStock symbol st' = st').
Proof.
  intros Hadd Hnone.
  apply addActiveStock_Normal_inv in Hadd
    as (_ & _ & price & lastUpdated & ->).
  unfold upsertStock.
  destruct (list_find (sameTicker symbol) (activeStocks (stockValues cur)))
    as [[i existing]|] eqn:Hfind.
  { apply list_find_Some in Hfind as (Hi & Hsame & _).
    exfalso. apply (Hnone existing); [|done].
    apply list_elem_of_lookup. eauto. }
  pose proof (filter_symbol_absent (activeStocks (stockValues cur))) as Hkeep.
  split.
  - unfold removeActiveStock. simpl. rewrite List.filter_app. simpl.
    rewrite String.eqb_refl. simpl. rewrite app_nil_r, Hkeep.
    + by destruct cur as [[] ? ?].
    + intros s Hs Heq. apply (Hnone s Hs). unfold sameTicker.
      by rewrite Heq, toUpperCase_idem.
  - intros Hcase. unfold removeActiveStock. simpl. rewrite List.filter_app. simpl.
    destruct (String.eqb_spec (toUpperCase symbol) symbol) as [Heq|_]; [done|].
    simpl. rewrite Hkeep; [reflexivity|].
    intros s Hs Heq. apply (Hnone s Hs). unfold sameTicker. by rewrite Heq.
Qed.

End RegistryOutcomes.

Section RegistryUpdateOutcomes.

Variable roundCurrency : number → number.
Variable ZAKAT_RATE : number.
Variable toISOString : string → Completion string.

Lemma updateActiveStock_Normal_inv
    (getStockPrice : string → option string → Completion PriceQuote)
    (symbol : string) (shares : number) (cur st' : ZakatState) :
  updateActiveStock roundCurrency ZAKAT_RATE toISOString getStockPrice
    symbol shares cur = Normal st' →
  ∃ quote new,
    getStockPrice symbol None = Normal quote
    ∧ Num.isFinite (quotePrice quote) = true
    ∧ Forall2 (revalued roundCurrency ZAKAT_RATE toISOString symbol shares quote) (activeStocks (stockValues cur)) new
    ∧ st' = setStockValues cur
              {| activeStocks := new;
                 market_value := legacyTotal new;
                 zakatable_value :=
                   if stockHawlMet cur then legacyTotal new else 0%float;
                 total_dividend_earnings := total_dividend_earnings (stockValues cur);
                 fund_value := fund_value (stockValues cur);
                 is_passive_fund := is_passive_fund (stockValues cur);
                 passiveInvestments := passiveInvestments (stockValues cur) |}.
Proof.
  unfold updateActiveStock. rewrite tryCatch_rethrow.
  destruct (getStockPrice symbol None) as [quote|]; simpl; [|discriminate].
  destruct (Num.isFinite (quotePrice quote)) eqn:Hfin; simpl; [|discriminate].
  destruct (mapM _ _) as [new|] eqn:Hmap; simpl; [|discriminate].
  intros [= <-]. exists quote, new.
  split; [reflexivity|]. split; [exact Hfin|]. split; [|reflexivity].
  apply mapM_Forall2 in Hmap. eapply Forall2_impl; [exact Hmap|].
  intros s s'. unfold revalued. simpl.
  destruct (String.eqb (ActiveStock.symbol s) symbol).
  - destruct (toISOString (quoteLastUpdated quote)) as [iso|]; simpl;
      [|discriminate].
    intros [= <-]. eauto.
  - by intros [= <-].
Qed.

Lemma revalued_symbol (symbol : string) (shares : number) (quote : PriceQuote)
    (s s' : ActiveStock.t) :
  revalued roundCurrency ZAKAT_RATE toISOString symbol shares quote s s' → ActiveStock.symbol s' = ActiveStock.symbol s.
Proof.
  unfold revalued. destruct (String.eqb _ _); [|by intros ->].
  by intros (iso & _ & ->).
Qed.

Lemma revalued_consistent (symbol : string) (shares : number) (quote : PriceQuote)
    (s s' : ActiveStock.t) :
  consistentHolding roundCurrency ZAKAT_RATE s →
  revalued roundCurrency ZAKAT_RATE toISOString symbol shares quote s s' →
  consistentHolding roundCurrency ZAKAT_RATE s'.
Proof.
  unfold revalued. destruct (String.eqb _ _); [|by intros ? ->].
  by intros _ (iso & _ & ->).
Qed.

(** A completed [updateActiveStock] fetched a finite price; it keeps the
    number, the order and the symbols of the holdings, leaves every
    holding with another symbol as it was, revalues every holding with
    exactly that symbol at the fetched price, and leaves the legacy
    [market_value] equal to the sum over the holdings it wrote and
    [zakatable_value] to that sum under a met Hawl and to 0 otherwise. *)
Theorem updateActiveStock_outcome
    (getStockPrice : string → option string → Completion PriceQuote)
    (symbol : string) (shares : number) (cur st' : ZakatState) :
  updateActiveStock roundCurrency ZAKAT_RATE toISOString getStockPrice
    symbol shares cur = Normal st' →
  let old := activeStocks (stockValues cur) in
  let new := activeStocks (stockValues st') in
  ∃ quote,
    getStockPrice symbol None = Normal quote
    ∧ Num.isFinite (quotePrice quote) = true
    ∧ ActiveStock.symbol <$> new = ActiveStock.symbol <$> old
    ∧ (∀ i s, old !! i = Some s →
         ∃ s', new !! i = Some s'
               ∧ (ActiveStock.symbol s ≠ symbol → s' = s)
               ∧ (ActiveStock.symbol s = symbol →
                  ∃ iso, toISOString (quoteLastUpdated quote) = Normal iso
                         ∧ s' = valuedAt roundCurrency ZAKAT_RATE symbol shares
                                  (quotePrice quote) iso (ActiveStock.currency s)
                                  (ActiveStock.sourceCurrency s)))
    ∧ market_value (stockValues st') = legacyTotal new
    ∧ zakatable_value (stockValues st')
      = (if stockHawlMet st' then legacyTotal new else 0%float)
    ∧ passiveInvestments (stockValues st') = passiveInvestments (stockValues cur)
    ∧ total_dividend_earnings (stockValues st')
      = total_dividend_earnings (stockValues cur)
    ∧ stockHawlMet st' = stockHawlMet cur.
Proof.
  intros Hrun old new.
  apply updateActiveStock_Normal_inv in Hrun as (quote & new' & Hq & Hfin & Hall & ->).
  subst old new. simpl. exists quote.
  split; [exact Hq|]. split; [exact Hfin|]. split; [|split; [|done]].
  - induction Hall as [|s s' l l' Hs _ IH]; [reflexivity|].
    rewrite !fmap_cons, IH. f_equal. by eapply revalued_symbol.
  - intros i s Hi.
    destruct (Forall2_lookup_l _ _ _ _ _ Hall Hi) as (s' & Hi' & Hs).
    exists s'. split; [exact Hi'|]. unfold revalued in Hs.
    destruct (String.eqb_spec (ActiveStock.symbol s) symbol) as [Heq|Hne].
    + split; [done|]. intros _. destruct Hs as (iso & Hiso & ->).
      exists iso. by rewrite Heq.
    + split; [done|]. done.
Qed.

(** [updateActiveStock] fails in exactly three ways. The price source
    fails, and its error is passed on. Or the price is not finite, and the
    error reads [Invalid price received for <symbol>: <price>], the price
    shown as [NaN], [Infinity] or [-Infinity]. Or the price is finite, a
    holding has exactly that symbol and the quote's timestamp is no date,
    and the error is the one of the date conversion; with no holding of
    that symbol the timestamp is never looked at. *)
Theorem updateActiveStock_failures
    (getStockPrice : string → option string → Completion PriceQuote)
    (symbol : string) (shares : number) (cur : ZakatState) (e : JsError) :
  updateActiveStock roundCurrency ZAKAT_RATE toISOString getStockPrice
    symbol shares cur = Throw e
  ↔ getStockPrice symbol None = Throw e
    ∨ ∃ quote,
        getStockPrice symbol None = Normal quote
        ∧ ((∃ shown,
              ((quotePrice quote = nan ∧ shown = "NaN")
               ∨ (quotePrice quote = infinity ∧ shown = "Infinity")
               ∨ (quotePrice quote = neg_infinity ∧ shown = "-Infinity"))
              ∧ e = Error ("Invalid price received for " ++ symbol ++ ": "
                           ++ shown)%string)
           ∨ (Num.isFinite (quotePrice quote) = true
              ∧ (∃ s, s ∈ activeStocks (stockValues cur)
                      ∧ ActiveStock.symbol s = symbol)
              ∧ toISOString (quoteLastUpdated quote) = Throw e)).
Proof.
  unfold updateActiveStock. rewrite tryCatch_rethrow.
  destruct (getStockPrice symbol None) as [quote|e0] eqn:Hq; simpl.
  2:{ split; [intros [= <-]; by left|].
      intros [[= ->] | (quote & [=] & _)]. reflexivity. }
  destruct (Num.isFinite (quotePrice quote)) eqn:Hfin; simpl.
  - split.
    + intros Hrun. right. exists quote. split; [reflexivity|]. right.
      split; [exact Hfin|].
      destruct (mapM _ _) as [new|e'] eqn:Hmap; simpl in Hrun; [discriminate|].
      injection Hrun as ->.
      apply mapM_Throw in Hmap as (s & Hs & Hthrow).
      destruct (String.eqb_spec (ActiveStock.symbol s) symbol) as [Heq|Hne];
        [|discriminate].
      destruct (toISOString (quoteLastUpdated quote)) as [iso|e'] eqn:Hiso;
        simpl in Hthrow; [discriminate|].
      injection Hthrow as ->. eauto.
    + intros [[=] | (quote' & [= <-] & [(shown & Hprice & _) | (_ & Hheld & Hiso)])].
      * exfalso. assert (Num.isFinite (quotePrice quote) = false) as Hnot
          by (by apply nonFinite_cases; destruct Hprice as [[? _] | [[? _] | [? _]]]; auto).
        congruence.
      * rewrite (mapM_Throw_first _ _ e); [reflexivity| |].
        -- destruct Hheld as (s & Hs & Hsym). exists s. split; [exact Hs|].
           apply String.eqb_eq in Hsym. by rewrite Hsym, Hiso.
        -- intros s e' _. destruct (String.eqb _ _); [|discriminate].
           rewrite Hiso. simpl. congruence.
  - split.
    + intros [= <-]. right. exists quote. split; [reflexivity|]. left.
      apply nonFinite_cases in Hfin.
      destruct Hfin as [Hp | [Hp | Hp]]; rewrite Hp;
        [exists "NaN" | exists "Infinity" | exists "-Infinity"];
        (split; [auto|reflexivity]).
    + intros [[=] | (quote' & [= <-] & [(shown & Hprice & ->) | (Habs & _)])];
        [|congruence].
      by destruct Hprice as [[-> ->] | [[-> ->] | [-> ->]]].
Qed.

End RegistryUpdateOutcomes.

(** ** PriceUpdatePipeline: outcomes and the converter *)

Section PipelineOutcomes.

Variable roundCurrency : number → number.
Variable ZAKAT_RATE : number.

Lemma reprice_consistent (stock : ActiveStock.t) (price : number)
    (lastUpdated : string) (currency_ sourceCurrency : option string) :
  consistentHolding roundCurrency ZAKAT_RATE
    (reprice roundCurrency ZAKAT_RATE stock price lastUpdated currency_ sourceCurrency).
Proof. by split. Qed.

(** The three shapes a refreshed holding can have. *)
Lemma refreshStock_cases (currencyStore : option CurrencyStore)
    (currentCurrency : string) (updatedPrices : list PriceUpdate.t)
    (stock : ActiveStock.t) :
  let result :=
    refreshStock roundCurrency ZAKAT_RATE currencyStore currentCurrency
      updatedPrices stock in
  (List.find (quotesTicker stock) updatedPrices = None ∧ result = stock)
  ∨ ∃ updated,
      List.find (quotesTicker stock) updatedPrices = Some updated
      ∧ (result
         = reprice roundCurrency ZAKAT_RATE stock (PriceUpdate.price updated)
             (PriceUpdate.lastUpdated updated)
             (Some (PriceUpdate.currency updated))
             (PriceUpdate.sourceCurrency updated)
         ∨ ∃ store convert convertedPrice,
             currencyStore = Some store
             ∧ convertAmount store = Some convert
             ∧ PriceUpdate.conversionApplied updated
               && String.eqb (PriceUpdate.currency updated) currentCurrency = false
             ∧ PriceUpdate.currency updated ≠ currentCurrency
             ∧ convert (PriceUpdate.price updated) (PriceUpdate.currency updated)
                 currentCurrency = Normal convertedPrice
             ∧ Num.strictNe convertedPrice (PriceUpdate.price updated) = true
             ∧ result
               = reprice roundCurrency ZAKAT_RATE stock convertedPrice
                   (PriceUpdate.lastUpdated updated) (Some currentCurrency)
                   (Some (PriceUpdate.currency updated))).
Proof.
  intros result. subst result. unfold refreshStock.
  destruct (List.find (quotesTicker stock) updatedPrices) as [updated|];
    [|by left].
  right. exists updated. split; [reflexivity|].
  destruct (PriceUpdate.conversionApplied updated
            && String.eqb (PriceUpdate.currency updated) currentCurrency) eqn:Hapi;
    [by left|].
  destruct currencyStore as [store|]; [|by left].
  destruct (convertAmount store) as [convert|] eqn:Hconvert; [|by left].
  destruct (String.eqb_spec (PriceUpdate.currency updated) currentCurrency)
    as [Heq|Hne]; simpl; [by left|].
  destruct (convert _ _ _) as [convertedPrice|] eqn:Hconverted; [|by left].
  destruct (Num.strictNe convertedPrice (PriceUpdate.price updated)) eqn:Hdiff;
    [|by left].
  right. exists store, convert, convertedPrice. auto 10.
Qed.

Lemma refreshStock_symbol_shares (currencyStore : option CurrencyStore)
    (currentCurrency : string) (updatedPrices : list PriceUpdate.t)
    (stock : ActiveStock.t) :
  let result :=
    refreshStock roundCurrency ZAKAT_RATE currencyStore currentCurrency
      updatedPrices stock in
  ActiveStock.symbol result = ActiveStock.symbol stock
  ∧ ActiveStock.shares result = ActiveStock.shares stock.
Proof.
  intros result.
  destruct (refreshStock_cases currencyStore currentCurrency updatedPrices stock)
    as [[_ Hr] | (updated & _ & [Hr | (? & ? & ? & _ & _ & _ & _ & _ & _ & Hr)])];
    subst result; by rewrite Hr.
Qed.

Lemma refreshStock_consistent (currencyStore : option CurrencyStore)
    (currentCurrency : string) (updatedPrices : list PriceUpdate.t)
    (stock : ActiveStock.t) :
  consistentHolding roundCurrency ZAKAT_RATE stock
  ∨ is_Some (List.find (quotesTicker stock) updatedPrices) →
  consistentHolding roundCurrency ZAKAT_RATE
    (refreshStock roundCurrency ZAKAT_RATE currencyStore currentCurrency
       updatedPrices stock).
Proof.
  intros Hstock.
  destruct (refreshStock_cases currencyStore currentCurrency updatedPrices stock)
    as [[Hnone ->] | (updated & _ & [-> | (? & ? & ? & _ & _ & _ & _ & _ & _ & ->)])];
    try apply reprice_consistent.
  destruct Hstock as [?|[? Hsome]]; [done|]. by rewrite Hnone in Hsome.
Qed.

Lemma find_firstQuote (updatedPrices : list PriceUpdate.t) (stock : ActiveStock.t) :
  match List.find (quotesTicker stock) updatedPrices with
  | Some q => firstQuote updatedPrices stock q
  | None => ∀ p, p ∈ updatedPrices → ¬ quotes p stock
  end.
Proof.
  induction updatedPrices as [|p l IH]; simpl.
  - intros p Hp. by apply elem_of_nil in Hp.
  - unfold quotesTicker at 1.
    destruct (String.eqb_spec (toUpperCase (PriceUpdate.symbol p))
                (toUpperCase (ActiveStock.symbol stock))) as [Heq|Hne].
    + exists [], l. split; [reflexivity|]. split; [exact Heq|].
      intros p' Hp'. by apply elem_of_nil in Hp'.
    + destruct (List.find (quotesTicker stock) l) as [q|].
      * destruct IH as (before & after & -> & Hq & Hbefore).
        exists (p :: before), after. split; [reflexivity|]. split; [exact Hq|].
        intros p' Hp'. apply elem_of_cons in Hp' as [->|Hp']; [exact Hne|].
        by apply Hbefore.
      * intros p' Hp'. apply elem_of_cons in Hp' as [->|Hp']; [exact Hne|].
        by apply IH.
Qed.

(** What the callback of [map] makes of a holding, case by case. *)
Lemma refreshStock_exact (currencyStore : option CurrencyStore)
    (target : string) (updatedPrices : list PriceUpdate.t) (stock : ActiveStock.t) :
  let result :=
    refreshStock roundCurrency ZAKAT_RATE currencyStore target updatedPrices stock in
  ((∀ p, p ∈ updatedPrices → ¬ quotes p stock) ∧ result = stock)
  ∨ ∃ q,
      firstQuote updatedPrices stock q
      ∧ ((∃ converted,
            clientConverted currencyStore target q converted
            ∧ result
              = valuedAt roundCurrency ZAKAT_RATE (ActiveStock.symbol stock)
                  (ActiveStock.shares stock) converted (PriceUpdate.lastUpdated q)
                  (Some target) (Some (PriceUpdate.currency q)))
         ∨ ((∀ converted, ¬ clientConverted currencyStore target q converted)
            ∧ result
              = valuedAt roundCurrency ZAKAT_RATE (ActiveStock.symbol stock)
                  (ActiveStock.shares stock) (PriceUpdate.price q)
                  (PriceUpdate.lastUpdated q) (Some (PriceUpdate.currency q))
                  (PriceUpdate.sourceCurrency q))).
Proof.
  intros result. subst result. unfold refreshStock.
  pose proof (find_firstQuote updatedPrices stock) as Hfind.
  destruct (List.find (quotesTicker stock) updatedPrices) as [q|]; [|by left].
  right. exists q. split; [exact Hfind|].
  destruct (PriceUpdate.conversionApplied q
            && String.eqb (PriceUpdate.currency q) target) eqn:Hapi.
  { right. split; [|reflexivity].
    intros converted [Hne _]. apply andb_true_iff in Hapi as [_ Heq].
    by apply String.eqb_eq in Heq. }
  destruct currencyStore as [store|].
  2:{ right. split; [|reflexivity]. by intros converted (_ & ? & ? & [=] & _). }
  destruct (convertAmount store) as [convert|] eqn:Hconvert.
  2:{ right. split; [|reflexivity].
      intros converted (_ & ? & ? & [= <-] & Hc & _). congruence. }
  destruct (String.eqb_spec (PriceUpdate.currency q) target) as [Heq|Hne]; simpl.
  { right. split; [|reflexivity]. by intros converted [Hne _]. }
  destruct (convert _ _ _) as [convertedPrice|] eqn:Hconverted.
  2:{ right. split; [|reflexivity].
      intros converted (_ & ? & ? & [= <-] & Hc & Hrun & _). congruence. }
  destruct (Num.strictNe convertedPrice (PriceUpdate.price q)) eqn:Hdiff.
  - left. exists convertedPrice. split; [|reflexivity].
    split; [exact Hne|]. by exists store, convert.
  - right. split; [|reflexivity].
    intros converted (_ & ? & ? & [= <-] & Hc & Hrun & Hd).
    rewrite Hconvert in Hc. injection Hc as <-.
    rewrite Hconverted in Hrun. injection Hrun as <-. congruence.
Qed.

(** What a completed [updateStockPrices] did. With no holding at the call
    it changed nothing. Otherwise the price source answered; the store's
    currency is the resolved target currency; the holdings are the same
    in number and order, with their symbols and share counts. A holding
    that no entry of the answer quotes is as it was. Every other holding
    is valued anew from its own shares, at the price and with the
    timestamp of the first entry that quotes it: at the amount the
    converter of the currency store makes of that price, in the target
    currency, when the entry is in another currency and the converter
    returns a different amount; at the entry's price and in the entry's
    currency in every other case. The Hawl flag and the other members of
    [stockValues] are as before. *)
Theorem updateStockPrices_outcome
    (getBatchStockPrices : list string → string → Completion (list PriceUpdate.t))
    (currencyStore : option CurrencyStore)
    (targetCurrency fromCurrency : option string)
    (pre cur st' : ZakatState) :
  updateStockPrices roundCurrency ZAKAT_RATE getBatchStockPrices currencyStore
    targetCurrency fromCurrency pre cur = Normal st' →
  let old := activeStocks (stockValues cur) in
  let new := activeStocks (stockValues st') in
  let target := strOr targetCurrency (strOr (currency pre) "USD") in
  (activeStocks (stockValues pre) = [] ∧ st' = cur)
  ∨ (activeStocks (stockValues pre) ≠ []
     ∧ ∃ updatedPrices,
         getBatchStockPrices (ActiveStock.symbol <$> activeStocks (stockValues pre))
           target = Normal updatedPrices
         ∧ currency st' = Some target
         ∧ ActiveStock.symbol <$> new = ActiveStock.symbol <$> old
         ∧ ActiveStock.shares <$> new = ActiveStock.shares <$> old
         ∧ length new = length old
         ∧ (∀ i s s', old !! i = Some s → new !! i = Some s' →
              ((∀ p, p ∈ updatedPrices → ¬ quotes p s) ∧ s' = s)
              ∨ ∃ q,
                  firstQuote updatedPrices s q
                  ∧ ((∃ converted,
                        clientConverted currencyStore target q converted
                        ∧ s' = valuedAt roundCurrency ZAKAT_RATE
                                 (ActiveStock.symbol s) (ActiveStock.shares s)
                                 converted (PriceUpdate.lastUpdated q)
                                 (Some target) (Some (PriceUpdate.currency q)))
                     ∨ ((∀ converted,
                           ¬ clientConverted currencyStore target q converted)
                        ∧ s' = valuedAt roundCurrency ZAKAT_RATE
                                 (ActiveStock.symbol s) (ActiveStock.shares s)
                                 (PriceUpdate.price q) (PriceUpdate.lastUpdated q)
                                 (Some (PriceUpdate.currency q))
                                 (PriceUpdate.sourceCurrency q))))
         ∧ stockHawlMet st' = stockHawlMet cur
         ∧ withActiveStocks (stockValues st') old
           = withActiveStocks (stockValues cur) old).
Proof.
  intros Hrun old new target.
  unfold updateStockPrices in Hrun. rewrite tryCatch_rethrow in Hrun.
  destruct (activeStocks (stockValues pre)) as [|held0 held] eqn:Hheld.
  { left. split; [reflexivity|]. simpl in Hrun. by injection Hrun as <-. }
  right. split; [discriminate|].
  change (length (held0 :: held) =? 0)%nat with false in Hrun.
  fold target in Hrun.
  destruct (getBatchStockPrices _ target) as [updatedPrices|] eqn:Hbatch;
    [|discriminate].
  simpl in Hrun. injection Hrun as <-. subst new old. simpl.
  exists updatedPrices. split; [reflexivity|]. split; [reflexivity|].
  split; [|split; [|split; [|split; [|done]]]].
  - rewrite <- list_fmap_compose. apply list_fmap_ext. intros _ s _. simpl.
    apply refreshStock_symbol_shares.
  - rewrite <- list_fmap_compose. apply list_fmap_ext. intros _ s _. simpl.
    apply refreshStock_symbol_shares.
  - apply length_fmap.
  - intros i s s' Hs Hs'. rewrite list_lookup_fmap, Hs in Hs'.
    injection Hs' as <-. apply refreshStock_exact.
Qed.

(** When [updateStockPrices] fails. With no holding at the call it
    completes, leaving the store as it is, whatever the price source
    would have answered: the source is not consulted. With holdings it
    fails exactly when the price source fails, and then with the source's
    error. *)
Theorem updateStockPrices_failures
    (getBatchStockPrices : list string → string → Completion (list PriceUpdate.t))
    (currencyStore : option CurrencyStore)
    (targetCurrency fromCurrency : option string)
    (pre cur : ZakatState) :
  (activeStocks (stockValues pre) = [] →
   updateStockPrices roundCurrency ZAKAT_RATE getBatchStockPrices currencyStore
     targetCurrency fromCurrency pre cur = Normal cur)
  ∧ (∀ e,
       updateStockPrices roundCurrency ZAKAT_RATE getBatchStockPrices currencyStore
         targetCurrency fromCurrency pre cur = Throw e
       ↔ activeStocks (stockValues pre) ≠ []
         ∧ getBatchStockPrices
             (ActiveStock.symbol <$> activeStocks (stockValues pre))
             (strOr targetCurrency (strOr (currency pre) "USD")) = Throw e).
Proof.
  unfold updateStockPrices. rewrite tryCatch_rethrow.
  destruct (activeStocks (stockValues pre)) as [|held0 held].
  { split; [reflexivity|]. intros e. simpl. split; [discriminate|]. by intros [? _]. }
  change (length (held0 :: held) =? 0)%nat with false. cbv iota.
  split; [discriminate|]. intros e.
  destruct (getBatchStockPrices _ _) as [updatedPrices|e'] eqn:Hbatch; simpl.
  - split; [discriminate|]. by intros [_ [=]].
  - split; [intros [= <-]; done|]. by intros [_ [= <-]].
Qed.


End PipelineOutcomes.

(** ** The holdings stay well formed *)

Section HoldingsInvariant.

Variable roundCurrency : number → number.
Variable ZAKAT_RATE : number.
Variable toISOString : string → Completion string.

Lemma valuedAt_consistent (symbol : string) (shares price : number)
    (lastUpdated : string) (currency_ sourceCurrency : option string) :
  consistentHolding roundCurrency ZAKAT_RATE
    (valuedAt roundCurrency ZAKAT_RATE symbol shares price lastUpdated
       currency_ sourceCurrency).
Proof. by split. Qed.

(** Each of the four writers of the holdings keeps them well formed:
    uppercased symbols pairwise distinct, and every holding's market value
    and zakat due the ones its shares and price call for. *)
Theorem wellFormedHoldings_preserved (cur : ZakatState) :
  wellFormedHoldings roundCurrency ZAKAT_RATE (activeStocks (stockValues cur)) →
  (∀ getStockPrice clock symbol shares manualPrice currency_ pre st',
     addActiveStock roundCurrency ZAKAT_RATE toISOString getStockPrice clock
       symbol shares manualPrice currency_ pre cur = Normal st' →
     wellFormedHoldings roundCurrency ZAKAT_RATE (activeStocks (stockValues st')))
  ∧ (∀ getStockPrice symbol shares st',
       updateActiveStock roundCurrency ZAKAT_RATE toISOString getStockPrice
         symbol shares cur = Normal st' →
       wellFormedHoldings roundCurrency ZAKAT_RATE (activeStocks (stockValues st')))
  ∧ (∀ symbol,
       wellFormedHoldings roundCurrency ZAKAT_RATE
         (activeStocks (stockValues (removeActiveStock symbol cur))))
  ∧ (∀ getBatchStockPrices currencyStore targetCurrency fromCurrency pre st',
       updateStockPrices roundCurrency ZAKAT_RATE getBatchStockPrices currencyStore
         targetCurrency fromCurrency pre cur = Normal st' →
       wellFormedHoldings roundCurrency ZAKAT_RATE (activeStocks (stockValues st'))).
Proof.
  intros [Hdup Hall]. repeat split.
  - apply addActiveStock_Normal_inv in H as (_ & _ & price & lastUpdated & ->).
    simpl. by apply upsertStock_tickers_NoDup.
  - apply addActiveStock_Normal_inv in H as (_ & _ & price & lastUpdated & ->).
    simpl.
    destruct (upsertStock_cases roundCurrency ZAKAT_RATE symbol shares price
                lastUpdated (activeStocks (stockValues cur)))
      as [(i & existing & _ & _ & _ & ->) | (_ & ->)].
    + apply Forall_insert; [done | apply valuedAt_consistent].
    + apply Forall_app. split; [done|].
      constructor; [apply valuedAt_consistent | constructor].
  - apply updateActiveStock_Normal_inv in H as (quote & new & _ & _ & Hnew & ->).
    simpl. unfold tickers in *.
    assert ((fun s => toUpperCase (ActiveStock.symbol s)) <$> new
            = (fun s => toUpperCase (ActiveStock.symbol s))
                <$> activeStocks (stockValues cur)) as ->; [|done].
    clear Hdup Hall. induction Hnew as [|s s' l l' Hs _ IH]; [reflexivity|].
    rewrite !fmap_cons, IH. f_equal. f_equal. by eapply revalued_symbol.
  - apply updateActiveStock_Normal_inv in H as (quote & new & _ & _ & Hnew & ->).
    simpl. clear Hdup.
    induction Hnew as [|s s' l l' Hs _ IH]; [constructor|].
    apply Forall_cons in Hall as [Hs0 Hl].
    constructor; [by eapply revalued_consistent | by apply IH].
  - unfold removeActiveStock. simpl. rewrite filter_symbol_ne.
    apply (sublist_NoDup _ _ Hdup).
    unfold tickers. apply fmap_sublist, sublist_filter.
  - unfold removeActiveStock. simpl. rewrite filter_symbol_ne.
    apply Forall_forall. intros s [_ Hs]%list_elem_of_filter.
    by eapply Forall_forall in Hall.
  - unfold updateStockPrices in H. rewrite tryCatch_rethrow in H.
    destruct (length (activeStocks (stockValues pre)) =? 0)%nat;
      [by injection H as <-|].
    destruct (getBatchStockPrices _ _) as [updatedPrices|]; [|discriminate].
    simpl in H. injection H as <-. simpl.
    unfold tickers in *. rewrite <- list_fmap_compose.
    erewrite list_fmap_ext; [exact Hdup|].
    intros _ s _. simpl. f_equal. apply refreshStock_symbol_shares.
  - unfold updateStockPrices in H. rewrite tryCatch_rethrow in H.
    destruct (length (activeStocks (stockValues pre)) =? 0)%nat;
      [by injection H as <-|].
    destruct (getBatchStockPrices _ _) as [updatedPrices|]; [|discriminate].
    simpl in H. injection H as <-. simpl.
    apply Forall_fmap. eapply Forall_impl; [exact Hall|].
    intros s Hs. simpl. apply refreshStock_consistent. by left.
Qed.

End HoldingsInvariant.

(** ** ZakatAggregator: the shape of the breakdown *)

Section BreakdownShape.

Variable roundCurrency : number → number.
Variable ZAKAT_RATE : number.

(** The breakdown is never empty and has each key once, in the order
    active trading, passive investments, dividends; a category is listed
    exactly when it applies (a holding exists, a passive block exists,
    the dividends are positive), and the [stocks] placeholder exactly when
    none does. *)
Theorem getStocksBreakdown_keys (st : ZakatState) :
  let keys := (items (getStocksBreakdown roundCurrency ZAKAT_RATE st)).*1 in
  let sv := stockValues st in
  keys ≠ []
  ∧ NoDup keys
  ∧ (keys = ["stocks"]
     ∨ keys `sublist_of` ["active_trading"; "passive_investments"; "dividends"])
  ∧ ("active_trading" ∈ keys ↔ activeStocks sv ≠ [])
  ∧ ("passive_investments" ∈ keys ↔ is_Some (passiveInvestments sv))
  ∧ ("dividends" ∈ keys
     ↔ Num.gt (optOrZero (total_dividend_earnings sv)) 0 = true)
  ∧ ("stocks" ∈ keys
     ↔ activeStocks sv = [] ∧ passiveInvestments sv = None
       ∧ Num.gt (optOrZero (total_dividend_earnings sv)) 0 = false).
Proof.
  intros keys sv. subst keys sv. unfold getStocksBreakdown. simpl.
  destruct (activeStocks (stockValues st)) as [|s0 stocks];
    destruct (passiveInvestments (stockValues st)) as [p|];
    destruct (Num.gt (optOrZero (total_dividend_earnings (stockValues st))) 0);
    simpl;
    (split; [discriminate|]);
    (split; [apply (bool_decide_unpack _); by vm_compute|]);
    (split;
     [first [by left
            | right;
              repeat first [apply sublist_nil | apply sublist_skip
                           | apply sublist_cons]]|]);
    repeat match goal with |- _ ∧ _ => split end;
    (split; intros Hside);
    try done; try (by eexists);
    try (apply (bool_decide_unpack _); by vm_compute);
    try (exfalso;
         match goal with
         | H : _ ∈ _ |- _ => apply (bool_decide_pack _) in H; by vm_compute in H
         | H : is_Some None |- _ => by destruct H
         | H : _ ∧ _ |- _ => by destruct H as (? & ? & ?)
         end).
Qed.

(** Under an unmet Hawl nothing in the breakdown is zakatable: the
    zakatable total is 0 and every entry is flagged not zakatable with a
    zakatable amount and a zakat due of 0. Under a met Hawl every
    category is flagged zakatable, active trading and dividends in full
    and the passive investments at their [zakatableValue]. *)
Theorem getStocksBreakdown_zakatable (st : ZakatState) (key : string)
    (item : BreakdownItem) :
  (key, item) ∈ items (getStocksBreakdown roundCurrency ZAKAT_RATE st) →
  (stockHawlMet st = false →
   zakatable (getStocksBreakdown roundCurrency ZAKAT_RATE st) = 0%float
   ∧ isZakatable item = false
   ∧ itemZakatable item = 0%float
   ∧ itemZakatDue item = 0%float)
  ∧ (stockHawlMet st = true → key ≠ "stocks" →
     isZakatable item = true
     ∧ itemZakatDue item = roundCurrency (itemZakatable item * ZAKAT_RATE)%float
     ∧ (key ≠ "passive_investments" → itemZakatable item = itemValue item)
     ∧ (key = "passive_investments" →
        Some (itemZakatable item)
        = Passive.zakatableValue <$> passiveInvestments (stockValues st))).
Proof.
  unfold getStocksBreakdown. simpl. unfold getTotalZakatableStocks.
  destruct (stockHawlMet st);
    destruct (0 <? length (activeStocks (stockValues st)))%nat,
             (passiveInvestments (stockValues st)) as [p|],
             (Num.gt (optOrZero (total_dividend_earnings (stockValues st))) 0);
    simpl; intros Hin;
    repeat match type of Hin with
           | _ ∈ [] => by apply elem_of_nil in Hin
           | _ ∈ _ :: _ => apply elem_of_cons in Hin as [Hin|Hin]
           end;
    injection Hin as -> ->; simpl;
    (split; [intros ?|intros ? ?]); try done; repeat split; try done.
Qed.

End BreakdownShape.

(** ** The order of binary64 numbers *)

Ltac sf_compare_cases :=
  repeat match goal with
         | H : context [(?a ?= ?b)%Z] |- _ => destruct (Z.compare_spec a b)
         | |- context [(?a ?= ?b)%Z] => destruct (Z.compare_spec a b)
         | H : context [PosDef.Pos.compare_cont Eq ?a ?b] |- _ =>
             change (PosDef.Pos.compare_cont Eq a b) with (Pos.compare a b) in *;
             destruct (Pos.compare_spec a b)
         | |- context [PosDef.Pos.compare_cont Eq ?a ?b] =>
             change (PosDef.Pos.compare_cont Eq a b) with (Pos.compare a b) in *;
             destruct (Pos.compare_spec a b)
         end;
  simpl in *; subst; try discriminate; try reflexivity; try lia.

Module NumOrder.

Lemma SFcompare_lt_le_trans (x y t : spec_float) :
  SFcompare x y = Some Lt →
  SFcompare y t = Some Lt ∨ SFcompare y t = Some Eq →
  SFcompare x t = Some Lt.
Proof.
  destruct x as [sx|sx| |sx mx ex], y as [sy|sy| |sy my ey], t as [st|st| |st mt et];
    simpl; intros Hxy [Hyt|Hyt]; try discriminate;
    repeat match goal with s : bool |- _ => destruct s end;
    simpl in *; try discriminate; try reflexivity;
    injection Hxy as Hxy; injection Hyt as Hyt; f_equal;
    sf_compare_cases.
Qed.

Lemma SFcompare_eq_l (x y t : spec_float) :
  SFcompare x y = Some Eq → SFcompare x t = SFcompare y t.
Proof.
  destruct x as [sx|sx| |sx mx ex], y as [sy|sy| |sy my ey], t as [st|st| |st mt et];
    simpl; intros Hxy; try discriminate; try reflexivity;
    repeat match goal with s : bool |- _ => destruct s end;
    simpl in *; try discriminate; try reflexivity;
    injection Hxy as Hxy; f_equal;
    sf_compare_cases.
Qed.

Lemma SFcompare_total (x y : spec_float) :
  x ≠ S754_nan → y ≠ S754_nan →
  SFcompare x y ≠ Some Lt → SFcompare y x ≠ Some Lt → SFcompare x y = Some Eq.
Proof.
  destruct x as [sx|sx| |sx mx ex], y as [sy|sy| |sy my ey];
    simpl; intros Hx Hy Hxy Hyx; try done;
    repeat match goal with s : bool |- _ => destruct s end;
    simpl in *; try done; f_equal;
    sf_compare_cases; try (exfalso; apply Hxy; reflexivity);
    try (exfalso; apply Hyx; reflexivity).
Qed.

Lemma SFcompare_refl (x : spec_float) : x ≠ S754_nan → SFcompare x x = Some Eq.
Proof.
  destruct x as [s|s| |s m e]; try done; intros _.
  - by destruct s.
  - apply NumFacts.SFcompare_self_finite.
Qed.

Lemma is_nan_false (x : number) : PrimFloat.is_nan x = false → Prim2SF x ≠ S754_nan.
Proof.
  unfold PrimFloat.is_nan. rewrite FloatAxioms.eqb_spec. intros Hx Hnan.
  rewrite Hnan in Hx. discriminate.
Qed.

Lemma is_nan_true (x : number) : PrimFloat.is_nan x = true → Prim2SF x = S754_nan.
Proof.
  unfold PrimFloat.is_nan. rewrite FloatAxioms.eqb_spec. unfold SFeqb.
  destruct (Prim2SF x) as [s|s| |s m e]; try reflexivity;
    try (destruct s; discriminate).
  rewrite NumFacts.SFcompare_self_finite. discriminate.
Qed.

(** Reaching the lower of two thresholds is reaching one of them. *)
Lemma leb_mathMin (g s t : number) :
  PrimFloat.leb (mathMin g s) t
  = negb (PrimFloat.is_nan g || PrimFloat.is_nan s)
    && (PrimFloat.leb g t || PrimFloat.leb s t).
Proof.
  unfold mathMin.
  destruct (PrimFloat.is_nan g) eqn:Hg; simpl.
  { rewrite leb_spec. change (Prim2SF nan) with S754_nan. reflexivity. }
  destruct (PrimFloat.is_nan s) eqn:Hs; simpl.
  { rewrite leb_spec. change (Prim2SF nan) with S754_nan. reflexivity. }
  apply is_nan_false in Hg, Hs.
  rewrite !ltb_spec, !leb_spec. unfold SFltb, SFleb.
  destruct (SFcompare (Prim2SF g) (Prim2SF s)) as [[| |]|] eqn:Hgs.
  - assert (SFcompare (Prim2SF s) (Prim2SF g) ≠ Some Lt) as Hsg.
    { intros Hsg. pose proof (SFcompare_eq_l _ _ (Prim2SF g) Hgs) as Heq.
      rewrite Hsg, (SFcompare_refl _ Hg) in Heq. discriminate. }
    destruct (SFcompare (Prim2SF s) (Prim2SF g)) as [[| |]|]; try done;
      destruct (get_sign g);
      rewrite ?(SFcompare_eq_l _ _ (Prim2SF t) Hgs);
      by destruct (SFcompare (Prim2SF s) (Prim2SF t)) as [[| |]|].
  - destruct (SFcompare (Prim2SF s) (Prim2SF t)) as [[| |]|] eqn:Hst;
      try (by rewrite orb_false_r);
      rewrite (SFcompare_lt_le_trans _ _ _ Hgs); auto.
  - destruct (SFcompare (Prim2SF s) (Prim2SF g)) as [[| |]|] eqn:Hsg.
    + pose proof (SFcompare_eq_l _ _ (Prim2SF s) Hsg) as Heq.
      rewrite Hgs, (SFcompare_refl _ Hs) in Heq. discriminate.
    + destruct (SFcompare (Prim2SF g) (Prim2SF t)) as [[| |]|] eqn:Hgt;
        try reflexivity;
        rewrite (SFcompare_lt_le_trans _ _ _ Hsg); auto.
    + exfalso.
      assert (SFcompare (Prim2SF g) (Prim2SF s) = Some Eq) as Heq; [|congruence].
      apply SFcompare_total; congruence.
    + exfalso.
      assert (SFcompare (Prim2SF g) (Prim2SF s) = Some Eq) as Heq; [|congruence].
      apply SFcompare_total; congruence.
  - exfalso. destruct (Prim2SF g) as [? | ? | | ? ? ?], (Prim2SF s) as [? | ? | | ? ? ?];
      done.
Qed.

End NumOrder.

(** ** ZakatAggregator: the other views *)

Section OtherViews.

Variable roundCurrency : number → number.
Variable ZAKAT_RATE : number.
Variable NISAB_GOLD : number.
Variable NISAB_SILVER : number.

(** [meetsNisabThreshold] answers whether the total reaches the gold-based
    or the silver-based threshold (that is, the lower of the two), and
    answers no as soon as one of the two thresholds is [NaN]. Without
    metal prices both thresholds are the constants times 0. *)
Theorem meetsNisabThreshold_either_threshold (metalPrices : option MetalPrices)
    (st : ZakatState) :
  let prices := default {| gold := 0; silver := 0 |} metalPrices in
  let goldNisab := (NISAB_GOLD * gold prices)%float in
  let silverNisab := (NISAB_SILVER * silver prices)%float in
  let total := getTotalStocks roundCurrency st in
  meetsNisabThreshold roundCurrency NISAB_GOLD NISAB_SILVER metalPrices st
  = negb (PrimFloat.is_nan goldNisab || PrimFloat.is_nan silverNisab)
    && (PrimFloat.leb goldNisab total || PrimFloat.leb silverNisab total).
Proof. intros. unfold meetsNisabThreshold. apply NumOrder.leb_mathMin. Qed.

Lemma fold_left_fmap {A B C} (f : C → B → C) (g : A → B) (l : list A) (c : C) :
  fold_left f (g <$> l) c = fold_left (fun acc x => f acc (g x)) l c.
Proof. revert c. induction l as [|x l IH]; intros c; simpl; [reflexivity|apply IH]. Qed.

(** [getActiveStocksBreakdown] lists the holdings in their order and its
    total market value is the figure [getStocksBreakdown] shows for
    active trading (and, under a met Hawl, counts as zakatable). *)
Theorem getActiveStocksBreakdown_agrees (st : ZakatState) :
  let view := getActiveStocksBreakdown st in
  let stocks := activeStocks (stockValues st) in
  viewSymbol <$> viewStocks view = ActiveStock.symbol <$> stocks
  ∧ viewMarketValue <$> viewStocks view = ActiveStock.marketValue <$> stocks
  ∧ viewTotalMarketValue view = activeTotal stocks
  ∧ (stocks ≠ [] →
     ∃ item,
       items (getStocksBreakdown roundCurrency ZAKAT_RATE st) !! 0
       = Some ("active_trading", item)
       ∧ itemValue item = viewTotalMarketValue view
       ∧ (stockHawlMet st = true → itemZakatable item = viewTotalMarketValue view)).
Proof.
  intros view stocks. subst view stocks. unfold getActiveStocksBreakdown. simpl.
  rewrite <- !list_fmap_compose, fold_left_fmap. simpl.
  split; [reflexivity|]. split; [reflexivity|]. split; [reflexivity|].
  intros Hne. unfold getStocksBreakdown. simpl.
  destruct (activeStocks (stockValues st)) as [|s0 l]; [done|]. simpl.
  eexists. split; [reflexivity|]. simpl. split; [reflexivity|]. by intros ->.
Qed.

(** Writing the legacy [market_value], [zakatable_value], [fund_value] or
    [is_passive_fund] through [setStockValue] changes none of the computed
    figures; writing the dividend earnings replaces that one term. *)
Theorem setStockValue_frame (update : StockValueUpdate) (st : ZakatState) :
  (∀ value, update ≠ SetTotalDividendEarnings value) →
  getStocksBreakdown roundCurrency ZAKAT_RATE (setStockValue update st)
  = getStocksBreakdown roundCurrency ZAKAT_RATE st
  ∧ getTotalStocks roundCurrency (setStockValue update st)
    = getTotalStocks roundCurrency st
  ∧ getTotalZakatableStocks roundCurrency (setStockValue update st)
    = getTotalZakatableStocks roundCurrency st
  ∧ activeStocks (stockValues (setStockValue update st))
    = activeStocks (stockValues st).
Proof.
  intros Hupdate. destruct update; try by (exfalso; eapply Hupdate).
  all: done.
Qed.

End OtherViews.

(** ** PassiveInvestmentManager *)

Lemma getOpt_optField (v : JsValue) (k : string) :
  Js.getOpt v k = Normal (optField v k).
Proof. unfold optField. by destruct v. Qed.

(** The members of the draft. *)
Lemma draftPassiveState_fields (c : Clock) (method : PassiveMethod)
    (data : option PassiveData) (calculations currentState : JsValue) :
  ∃ draft,
    draftPassiveState c method data calculations currentState = Normal draft
    ∧ Migrator.field draft "version" = JStr "2.0"
    ∧ Migrator.field draft "method" = JStr (methodName method)
    ∧ Migrator.field draft "investments"
      = (let given := match data with
                      | Some d => dataInvestments d
                      | None => JUndefined
                      end in
         if Js.isArray given then given
         else Js.or (optField currentState "investments") (JArr []))
    ∧ Migrator.field draft "marketValue"
      = (if Js.isNumber (optField calculations "marketValue")
         then optField calculations "marketValue"
         else Js.or (optField currentState "marketValue") (JNum 0))
    ∧ Migrator.field draft "zakatableValue"
      = (if Js.isNumber (optField calculations "zakatableValue")
         then optField calculations "zakatableValue"
         else Js.or (optField currentState "zakatableValue") (JNum 0))
    ∧ Migrator.field draft "hawlStatus"
      = Js.or (optField currentState "hawlStatus")
          (JObj [("isComplete", JBool false); ("startDate", JStr (nowISO c))])
    ∧ optField (Migrator.field draft "displayProperties") "currency"
      = Js.or (optField (optField currentState "displayProperties") "currency")
          (JStr "USD")
    ∧ Migrator.field draft "companyData"
      = match data with
        | Some {| dataCompanyData := Some company |} =>
            companyDataObject
              (Js.or (optField (optField currentState "displayProperties") "currency")
                 (JStr "USD"))
              company
        | _ => JUndefined
        end.
Proof.
  unfold draftPassiveState. repeat (rewrite getOpt_optField; simpl).
  destruct data as [[given [company|]]|]; simpl;
    eexists; (split; [reflexivity|]); repeat split.
Qed.

Section PassiveManager.

Variable StockPrices : Type.

(** The two ways [updatePassiveInvestments] can end. *)
Lemma updatePassiveInvestments_cases (stockAsset : option (AssetType StockPrices))
    (stockPrices : StockPrices) (c : Clock)
    (method : PassiveMethod) (data : option PassiveData) (calculations : JsValue)
    (s : PassiveSlice) :
  ∃ draft,
    draftPassiveState c method data calculations (passiveObject s) = Normal draft
    ∧ Js.isStr "2.0" (Migrator.field draft "version") = true
    ∧ let migrated := sanitizedV2 c draft in
      let updated :=
        {| activeStocks := activeStocks (stockValues (store s));
           market_value := asNumber (Migrator.field migrated "marketValue");
           zakatable_value := asNumber (Migrator.field migrated "zakatableValue");
           total_dividend_earnings := total_dividend_earnings (stockValues (store s));
           fund_value := fund_value (stockValues (store s));
           is_passive_fund := is_passive_fund (stockValues (store s));
           passiveInvestments := passiveView migrated |} in
      let written (sv : StockValues) :=
        {| store := setStockValues (store s) sv;
           passiveObject := migrated;
           passiveTop := migrated |} in
      let s' :=
        updatePassiveInvestments StockPrices stockAsset stockPrices c method data
          calculations s in
      match stockAsset with
      | None => s' = written updated
      | Some asset =>
          match calculateTotal StockPrices asset updated migrated stockPrices,
                calculateZakatable StockPrices asset updated migrated stockPrices
                  (stockHawlMet (store s)) with
          | Normal newTotal, Normal newZakatable =>
              s' = written
                     {| activeStocks := activeStocks updated;
                        market_value := newTotal;
                        zakatable_value := newZakatable;
                        total_dividend_earnings := total_dividend_earnings updated;
                        fund_value := fund_value updated;
                        is_passive_fund := is_passive_fund updated;
                        passiveInvestments := passiveInvestments updated |}
          | _, _ => s' = s
          end
      end.
Proof.
  destruct (draftPassiveState_fields c method data calculations (passiveObject s))
    as (draft & Hdraft & Hversion & _).
  exists draft. split; [exact Hdraft|].
  assert (Js.isStr "2.0" (Migrator.field draft "version") = true) as Hv
    by (by rewrite Hversion).
  split; [exact Hv|].
  unfold updatePassiveInvestments. rewrite Hdraft. simpl.
  rewrite (migratePassiveInvestments_v2 c draft Hv). simpl.
  destruct stockAsset as [asset|]; simpl; [|reflexivity].
  destruct (calculateTotal _ asset _ _ _) as [newTotal|]; simpl; [|reflexivity].
  destruct (calculateZakatable _ asset _ _ _ _) as [newZakatable|]; simpl;
    reflexivity.
Qed.

(** When the store is written and when it is left alone. [plain] is what
    the call stores when no calculator is registered; a registered
    calculator is asked about exactly those stock values. *)
Lemma updatePassiveInvestments_exact (stockAsset : option (AssetType StockPrices))
    (stockPrices : StockPrices) (c : Clock)
    (method : PassiveMethod) (data : option PassiveData) (calculations : JsValue)
    (s : PassiveSlice) :
  let s' :=
    updatePassiveInvestments StockPrices stockAsset stockPrices c method data
      calculations s in
  let plain :=
    updatePassiveInvestments StockPrices None stockPrices c method data
      calculations s in
  let raised :=
    calculatorRaises stockAsset (stockValues (store plain)) (passiveObject plain)
      stockPrices (stockHawlMet (store s)) in
  ∃ draft,
    draftPassiveState c method data calculations (passiveObject s) = Normal draft
    ∧ plain
      = {| store :=
             setStockValues (store s)
               {| activeStocks := activeStocks (stockValues (store s));
                  market_value :=
                    asNumber (Migrator.field (sanitizedV2 c draft) "marketValue");
                  zakatable_value :=
                    asNumber (Migrator.field (sanitizedV2 c draft) "zakatableValue");
                  total_dividend_earnings :=
                    total_dividend_earnings (stockValues (store s));
                  fund_value := fund_value (stockValues (store s));
                  is_passive_fund := is_passive_fund (stockValues (store s));
                  passiveInvestments := passiveView (sanitizedV2 c draft) |};
           passiveObject := sanitizedV2 c draft;
           passiveTop := sanitizedV2 c draft |}
    ∧ ((raised ∧ s' = s)
       ∨ (¬ raised
          ∧ ∃ newTotal newZakatable,
              s' = {| store :=
                        setStockValues (store s)
                          {| activeStocks := activeStocks (stockValues (store s));
                             market_value := newTotal;
                             zakatable_value := newZakatable;
                             total_dividend_earnings :=
                               total_dividend_earnings (stockValues (store s));
                             fund_value := fund_value (stockValues (store s));
                             is_passive_fund := is_passive_fund (stockValues (store s));
                             passiveInvestments := passiveView (sanitizedV2 c draft) |};
                      passiveObject := sanitizedV2 c draft;
                      passiveTop := sanitizedV2 c draft |}
              ∧ match stockAsset with
                | None =>
                    newTotal = market_value (stockValues (store plain))
                    ∧ newZakatable = zakatable_value (stockValues (store plain))
                | Some asset =>
                    calculateTotal StockPrices asset (stockValues (store plain))
                      (passiveObject plain) stockPrices = Normal newTotal
                    ∧ calculateZakatable StockPrices asset (stockValues (store plain))
                        (passiveObject plain) stockPrices (stockHawlMet (store s))
                      = Normal newZakatable
                end)).
Proof.
  intros s' plain raised.
  destruct (updatePassiveInvestments_cases stockAsset stockPrices c method data
              calculations s) as (draft & Hdraft & _ & Hcases).
  destruct (updatePassiveInvestments_cases None stockPrices c method data
              calculations s) as (draft' & Hdraft' & _ & Hplain).
  rewrite Hdraft in Hdraft'. injection Hdraft' as <-.
  cbv zeta in Hcases, Hplain. fold s' in Hcases. fold plain in Hplain.
  exists draft. split; [exact Hdraft|]. split; [exact Hplain|].
  subst raised. rewrite Hplain. cbv beta.
  cbn [store stockValues passiveObject setStockValues].
  destruct stockAsset as [asset|].
  - destruct (calculateTotal _ asset _ _ _) as [newTotal|e] eqn:Htotal.
    + destruct (calculateZakatable _ asset _ _ _ _) as [newZakatable|e] eqn:Hzak.
      * right. split.
        -- intros (asset' & [= <-] & [[e He] | [e He]]); congruence.
        -- by exists newTotal, newZakatable.
      * left. split; [|exact Hcases]. exists asset. split; [reflexivity|].
        right. by exists e.
    + left. split; [|exact Hcases]. exists asset. split; [reflexivity|].
      left. by exists e.
  - right. split; [by intros (asset' & [=] & _)|].
    eexists _, _. split; [exact Hcases|]. by split.
Qed.

End PassiveManager.

Section PassiveManagerProps.

Variable StockPrices : Type.

Lemma isNumber_numberOrZero (x : JsValue) :
  Js.isNumber (Migrator.numberOrZero x) = true.
Proof. by destruct x. Qed.

Lemma numberOrZero_number (x : JsValue) :
  Js.isNumber x = true → Migrator.numberOrZero x = x.
Proof. by destruct x. Qed.

(** [updatePassiveInvestments] never takes its fail-safe exit: the draft
    it builds always migrates. A registered calculator is asked about the
    stock values the call would store without it. When one of its two
    answers is an exception the store stays as it was. In every other
    case - no calculator, or both answers given - the call stores, in both
    places, a version ['2.0'] state with the method it was called with and
    that method's labels, numeric market and zakatable values (the
    calculated ones when those are numbers), an array of investments (the
    given one when it is an array) and the company data it was given - or
    none: company data of the previous state is not carried over. *)
Theorem updatePassiveInvestments_stored_state
    (stockAsset : option (AssetType StockPrices))
    (stockPrices : StockPrices) (c : Clock)
    (method : PassiveMethod) (data : option PassiveData) (calculations : JsValue)
    (s : PassiveSlice) :
  let s' :=
    updatePassiveInvestments StockPrices stockAsset stockPrices c method data
      calculations s in
  let plain :=
    updatePassiveInvestments StockPrices None stockPrices c method data
      calculations s in
  let raised :=
    calculatorRaises stockAsset (stockValues (store plain)) (passiveObject plain)
      stockPrices (stockHawlMet (store s)) in
  let m := passiveObject s' in
  (raised → s' = s)
  ∧ (¬ raised →
     passiveTop s' = m
     ∧ Migrator.field m "version" = JStr "2.0"
     ∧ Migrator.field m "method" = JStr (methodName method)
     ∧ labelsOf m = labelsFor (JStr (methodName method))
     ∧ Js.isNumber (Migrator.field m "marketValue") = true
     ∧ Js.isNumber (Migrator.field m "zakatableValue") = true
     ∧ (Js.isNumber (optField calculations "marketValue") = true →
        Migrator.field m "marketValue" = optField calculations "marketValue")
     ∧ (Js.isNumber (optField calculations "zakatableValue") = true →
        Migrator.field m "zakatableValue" = optField calculations "zakatableValue")
     ∧ Js.isArray (Migrator.field m "investments") = true
     ∧ (∀ d, data = Some d → Js.isArray (dataInvestments d) = true →
             Migrator.field m "investments" = dataInvestments d)
     ∧ Migrator.field m "companyData"
       = match data with
         | Some {| dataCompanyData := Some company |} =>
             companyDataObject
               (Js.or (optField (optField (passiveObject s) "displayProperties")
                         "currency") (JStr "USD"))
               company
         | _ => JUndefined
         end
     ∧ passiveInvestments (stockValues (store s'))
       = Some {| Passive.method := methodName method;
                 Passive.marketValue := asNumber (Migrator.field m "marketValue");
                 Passive.zakatableValue :=
                   asNumber (Migrator.field m "zakatableValue") |}).
Proof.
  intros s' plain raised m.
  pose proof (updatePassiveInvestments_exact StockPrices stockAsset stockPrices c
                method data calculations s) as (draft & Hdraft & _ & Hcases).
  destruct (draftPassiveState_fields c method data calculations (passiveObject s))
    as (draft' & Hdraft' & _ & Hmethod & Hinv & Hmv & Hzv & _ & _ & Hcompany).
  rewrite Hdraft in Hdraft'. injection Hdraft' as <-.
  match goal with
  | |- _ ∧ (_ → ?stored) =>
      assert (∀ sv,
                s' = {| store := setStockValues (store s) sv;
                        passiveObject := sanitizedV2 c draft;
                        passiveTop := sanitizedV2 c draft |} →
                passiveInvestments sv = passiveView (sanitizedV2 c draft) →
                stored) as Hwritten
  end.
  { intros sv Hs' Hview. subst m. rewrite Hs'. simpl.
    rewrite Hview. unfold sanitizedV2, labelsOf, passiveView.
    cbn [Migrator.field Js.get Js.own String.eqb Ascii.eqb Bool.eqb].
    rewrite Hmethod, Hmv, Hzv, Hinv, Hcompany.
    split; [reflexivity|]. split; [reflexivity|].
    split; [by destruct method|]. split; [by destruct method|].
    split; [apply isNumber_numberOrZero|]. split; [apply isNumber_numberOrZero|].
    split; [intros Hn; rewrite Hn; by apply numberOrZero_number|].
    split; [intros Hn; rewrite Hn; by apply numberOrZero_number|].
    split.
    { match goal with
      | |- Js.isArray (if Js.isArray ?x then _ else _) = true =>
          by destruct (Js.isArray x) eqn:E
      end. }
    split.
    { intros d -> Hd. cbv beta iota zeta. by rewrite !Hd. }
    split.
    { by destruct data as [[given [company|]]|]. }
    by destruct method. }
  destruct Hcases as [[Hraised Hsame] | (Hnot & newTotal & newZakatable & Hs' & _)].
  - split; [intros _; exact Hsame | intros Hno; by destruct Hno].
  - split; [intros Hyes; by destruct Hnot|]. intros _.
    by eapply Hwritten.
Qed.

(** [updatePassiveInvestments] never touches the holdings, the dividend
    earnings, the Hawl flag or the currency. A registered calculator is
    asked about the stock values the call would store without it, the
    legacy fields mirroring the migrated state. When one of its answers is
    an exception the store stays as it was. In every other case the
    migrated state is stored and the legacy [market_value] and
    [zakatable_value] are the calculator's two answers - or, with no
    calculator registered, the migrated state's own figures. *)
Theorem updatePassiveInvestments_store
    (stockAsset : option (AssetType StockPrices))
    (stockPrices : StockPrices) (c : Clock)
    (method : PassiveMethod) (data : option PassiveData) (calculations : JsValue)
    (s : PassiveSlice) :
  let s' :=
    updatePassiveInvestments StockPrices stockAsset stockPrices c method data
      calculations s in
  let plain :=
    updatePassiveInvestments StockPrices None stockPrices c method data
      calculations s in
  let raised :=
    calculatorRaises stockAsset (stockValues (store plain)) (passiveObject plain)
      stockPrices (stockHawlMet (store s)) in
  let sv' := stockValues (store s') in
  (activeStocks sv' = activeStocks (stockValues (store s))
   ∧ total_dividend_earnings sv' = total_dividend_earnings (stockValues (store s))
   ∧ stockHawlMet (store s') = stockHawlMet (store s)
   ∧ currency (store s') = currency (store s))
  ∧ (raised → s' = s)
  ∧ (¬ raised →
     passiveObject s' = passiveObject plain
     ∧ passiveTop s' = passiveObject plain
     ∧ mirrorLegacy sv' (passiveObject s') = stockValues (store plain)
     ∧ match stockAsset with
       | None => sv' = mirrorLegacy sv' (passiveObject s')
       | Some asset =>
           calculateTotal StockPrices asset (stockValues (store plain))
             (passiveObject plain) stockPrices
           = Normal (market_value sv')
           ∧ calculateZakatable StockPrices asset (stockValues (store plain))
               (passiveObject plain) stockPrices (stockHawlMet (store s))
             = Normal (zakatable_value sv')
       end).
Proof.
  intros s' plain raised sv'.
  pose proof (updatePassiveInvestments_exact StockPrices stockAsset stockPrices c
                method data calculations s) as (draft & _ & Hplain & Hcases).
  cbv zeta in Hplain, Hcases. fold s' in Hcases. fold plain in Hplain, Hcases.
  fold raised in Hcases. subst sv'.
  destruct Hcases as [[Hraised Hsame] | (Hnot & newTotal & newZakatable & Hs' & Hlegacy)].
  - rewrite Hsame. split; [done|].
    split; [done | intros Hno; by destruct Hno].
  - split; [by rewrite Hs'|]. split; [intros Hyes; by destruct Hnot|]. intros _.
    rewrite Hs', Hplain. cbn [store stockValues passiveObject passiveTop setStockValues].
    split; [reflexivity|]. split; [reflexivity|]. split; [reflexivity|].
    rewrite Hplain in Hlegacy.
    cbn [store stockValues passiveObject setStockValues] in Hlegacy.
    destruct stockAsset as [asset|].
    + exact Hlegacy.
    + destruct Hlegacy as [-> ->]. reflexivity.
Qed.

End PassiveManagerProps.

(** ** Reset, removal and the migrator's output *)

Section ResetProps.

Variable roundCurrency : number → number.
Variable ZAKAT_RATE : number.
Variable DEFAULT_HAWL_STATUS_stocks : bool.

(** [resetStockValues] overwrites the stock values, the Hawl flag and
    both passive-investment members, and leaves the currency as it was.
    What it writes does not depend on the store it is applied to; of the
    clock only the placeholder's [id] and the Hawl [startDate] of the
    passive block depend, so that two resets write the same passive block
    exactly when the clock reads the same at both, and the typed stock
    values and the getters' results are the same at any clock. A later
    reset supersedes an earlier one. It leaves no holdings, the default
    Hawl flag, no top-level passive investments and a default passive
    block inside the stock values - so the total is [roundCurrency 0] and
    the breakdown shows the passive investments at 0, where the initial
    state, which has no such block, shows the [stocks] placeholder. *)
Theorem resetStockValues_outcome (c c' : Clock) (s s0 : PassiveSlice) :
  let reset := resetStockValues DEFAULT_HAWL_STATUS_stocks in
  let s' := reset c s in
  currency (store s') = currency (store s)
  ∧ stockValues (store (reset c' s0)) = stockValues (store s')
  ∧ stockHawlMet (store (reset c' s0)) = stockHawlMet (store s')
  ∧ passiveTop (reset c' s0) = passiveTop s'
  ∧ passiveObject (reset c s0) = passiveObject s'
  ∧ (passiveObject (reset c' s0) = passiveObject s'
     ↔ dateNow c' = dateNow c ∧ nowISO c' = nowISO c)
  ∧ getStocksBreakdown roundCurrency ZAKAT_RATE (store (reset c' s0))
    = getStocksBreakdown roundCurrency ZAKAT_RATE (store s')
  ∧ reset c' s' = reset c' s
  ∧ activeStocks (stockValues (store s')) = []
  ∧ stockHawlMet (store s') = DEFAULT_HAWL_STATUS_stocks
  ∧ passiveTop s' = JUndefined
  ∧ passiveInvestments (stockValues (store s')) = passiveView (passiveObject s')
  ∧ getTotalStocks roundCurrency (store s') = roundCurrency 0
  ∧ (items (getStocksBreakdown roundCurrency ZAKAT_RATE (store s'))).*1
    = ["passive_investments"]
  ∧ (items (getStocksBreakdown roundCurrency ZAKAT_RATE
              (store (initialSlice DEFAULT_HAWL_STATUS_stocks c)))).*1
    = ["stocks"].
Proof.
  intros reset s'. subst reset s'. unfold resetStockValues. simpl.
  split; [reflexivity|]. split; [reflexivity|]. split; [reflexivity|].
  split; [reflexivity|]. split; [reflexivity|].
  split; [|repeat split].
  unfold defaultPassiveInvestments, Migrator.placeholderInvestment. split.
  - intros [= Hid Hiso]. by split.
  - by intros [-> ->].
Qed.

End ResetProps.

(** Removing a symbol twice is removing it once; afterwards no holding has
    that symbol; and removing a symbol that no holding has, letter for
    letter, changes nothing. *)
Theorem removeActiveStock_idempotent (symbol : string) (st : ZakatState) :
  removeActiveStock symbol (removeActiveStock symbol st) = removeActiveStock symbol st
  ∧ (∀ s, s ∈ activeStocks (stockValues (removeActiveStock symbol st)) →
          ActiveStock.symbol s ≠ symbol)
  ∧ ((∀ s, s ∈ activeStocks (stockValues st) → ActiveStock.symbol s ≠ symbol) →
     removeActiveStock symbol st = st).
Proof.
  assert (∀ s, s ∈ activeStocks (stockValues (removeActiveStock symbol st)) →
               ActiveStock.symbol s ≠ symbol) as Hgone.
  { unfold removeActiveStock. simpl. rewrite filter_symbol_ne.
    by intros s [Hs _]%list_elem_of_filter. }
  split; [|split; [exact Hgone|]].
  - unfold removeActiveStock at 1. rewrite filter_symbol_absent by exact Hgone.
    by destruct st as [[] ? ?].
  - intros Habsent. unfold removeActiveStock.
    rewrite filter_symbol_absent by exact Habsent. by destruct st as [[] ? ?].
Qed.

Section MigratorOutput.

Import Migrator.

(** Whatever it is given, the migrator answers [undefined] or a
    well-typed version ['2.0'] state: investments an array, a valid
    method, numeric market and zakatable values, a boolean
    [hawlStatus.isComplete], a string currency and string labels. The
    answer is a state exactly for the truthy inputs whose [version] is
    falsy, ['1.0'] or ['2.0']. *)
Theorem migratePassiveInvestments_well_typed (c : Clock) (state migrated : JsValue) :
  migratePassiveInvestments c state = Normal migrated →
  (migrated ≠ JUndefined
   ↔ Js.truthy state = true
     ∧ (Js.truthy (field state "version") = false
        ∨ Js.isStr "1.0" (field state "version") = true
        ∨ Js.isStr "2.0" (field state "version") = true))
  ∧ (migrated ≠ JUndefined →
     field migrated "version" = JStr "2.0"
     ∧ Js.isArray (field migrated "investments") = true
     ∧ validMethod (field migrated "method") = true
     ∧ Js.isNumber (field migrated "marketValue") = true
     ∧ Js.isNumber (field migrated "zakatableValue") = true
     ∧ Js.isBoolean (field (field migrated "hawlStatus") "isComplete") = true
     ∧ Js.isString (field (field migrated "displayProperties") "currency") = true
     ∧ Js.isString (fst (labelsOf migrated)) = true
     ∧ Js.isString (snd (labelsOf migrated)) = true).
Proof.
  unfold migratePassiveInvestments.
  destruct (Js.truthy state) eqn:Hstate; simpl;
    [|intros [= <-]; split; [split; [done | by intros [? _]] | done]].
  assert (∀ (P : JsValue → bool) x d,
            P d = true → P (if P x then x else d) = true) as Harr.
  { intros P x d Hd. by destruct (P x) eqn:E. }
  destruct (Js.isStr "2.0" (field state "version")) eqn:Hv2.
  { pose proof (migratePassiveInvestments_v2 c state Hv2) as Hm.
    unfold migratePassiveInvestments in Hm. rewrite Hstate in Hm. simpl in Hm.
    rewrite Hm. intros [= <-]. split; [split; [auto | discriminate]|].
    intros _. unfold sanitizedV2, labelsOf, methodLabel, totalLabel.
    cbn [field Js.get Js.own String.eqb Ascii.eqb Bool.eqb fst snd].
    repeat split; try reflexivity.
    - by apply (Harr Js.isArray).
    - apply sanitizeMethod_valid.
    - apply isNumber_numberOrZero.
    - apply isNumber_numberOrZero.
    - by apply (Harr Js.isBoolean).
    - by apply (Harr Js.isString). }
  unfold migrateBody. rewrite !(get_truthy state) by done. simpl. rewrite Hv2.
  destruct (Js.truthy (field state "version")) eqn:Hv; simpl.
  - destruct (Js.isStr "1.0" (field state "version")) eqn:Hv1; simpl.
    + intros [= <-]. split; [split; [auto | discriminate]|]. intros _.
      unfold labelsOf, methodLabel, totalLabel.
      cbn [field Js.get Js.own String.eqb Ascii.eqb Bool.eqb fst snd].
      repeat split; try reflexivity;
        [by apply (Harr Js.isArray) | apply sanitizeMethod_valid
        | apply isNumber_numberOrZero | apply isNumber_numberOrZero].
    + intros [= <-]. split; [|done].
      split; [done|]. intros [_ [?|[?|?]]]; discriminate.
  - intros [= <-]. split; [split; [auto | discriminate]|]. intros _.
    unfold labelsOf, methodLabel, totalLabel.
    cbn [field Js.get Js.own String.eqb Ascii.eqb Bool.eqb fst snd].
    repeat split; try reflexivity;
      [by apply (Harr Js.isArray) | apply sanitizeMethod_valid
      | apply isNumber_numberOrZero | apply isNumber_numberOrZero].
Qed.

End MigratorOutput.

(** ** Instances *)

Lemma addActiveStock_then_removeActiveStock_witness :
  addActiveStock roundCents zakatRate isoOrRangeError quoteAt150 sampleClock
    "msft" 5 (Some 300%float) None (sampleStore true 1000) (sampleStore true 1000)
  = Normal afterAddMsft
  ∧ tickers (activeStocks (stockValues afterAddMsft)) = ["AAPL"; "TSLA"; "MSFT"]
  ∧ removeActiveStock "MSFT" afterAddMsft = sampleStore true 1000
  ∧ removeActiveStock "msft" afterAddMsft = afterAddMsft.
Proof.
  assert (addActiveStock roundCents zakatRate isoOrRangeError quoteAt150 sampleClock
            "msft" 5 (Some 300%float) None (sampleStore true 1000)
            (sampleStore true 1000) = Normal afterAddMsft) as Hadd
    by (vm_compute; reflexivity).
  split; [exact Hadd|]. split; [reflexivity|].
  destruct (addActiveStock_then_removeActiveStock roundCents zakatRate
              isoOrRangeError quoteAt150 sampleClock "msft" 5 (Some 300%float) None
              (sampleStore true 1000) (sampleStore true 1000) afterAddMsft Hadd)
    as [Hcanonical Htyped].
  - apply Forall_forall. repeat constructor; by vm_compute.
  - split; [exact Hcanonical|]. apply Htyped. by vm_compute.
Defined.

Lemma updateActiveStock_outcome_witness :
  updateActiveStock roundCents zakatRate isoOrRangeError quoteAt150
    "AAPL" 20 (sampleStore false 1000) = Normal afterUpdateAapl
  ∧ ActiveStock.symbol <$> activeStocks (stockValues afterUpdateAapl)
    = ["AAPL"; "TSLA"]
  ∧ ActiveStock.marketValue <$> activeStocks (stockValues afterUpdateAapl)
    = [3000%float; 1000%float]
  ∧ market_value (stockValues afterUpdateAapl)
    = legacyTotal (activeStocks (stockValues afterUpdateAapl))
  ∧ market_value (stockValues afterUpdateAapl) = 4000%float.
Proof.
  assert (updateActiveStock roundCents zakatRate isoOrRangeError quoteAt150
            "AAPL" 20 (sampleStore false 1000) = Normal afterUpdateAapl) as Hrun
    by (vm_compute; reflexivity).
  split; [exact Hrun|].
  destruct (updateActiveStock_outcome roundCents zakatRate isoOrRangeError
              quoteAt150 "AAPL" 20 (sampleStore false 1000) afterUpdateAapl Hrun)
    as (quote & _ & _ & Hsymbols & _ & Hlegacy & _).
  split; [exact Hsymbols|]. split; [reflexivity|].
  split; [exact Hlegacy | reflexivity].
Defined.

Lemma updateActiveStock_failures_witness :
  updateActiveStock roundCents zakatRate isoOrRangeError sourceDown
    "AAPL" 20 (sampleStore false 1000) = Throw (Error "Network request failed")
  ∧ updateActiveStock roundCents zakatRate isoOrRangeError quoteAtInfinity
      "AAPL" 20 (sampleStore false 1000)
    = Throw (Error "Invalid price received for AAPL: Infinity")
  ∧ updateActiveStock roundCents zakatRate isoOrRangeError quoteUndated
      "AAPL" 20 (sampleStore false 1000)
    = Throw (RangeError "Invalid time value").
Proof.
  split; [|split].
  - apply (updateActiveStock_failures roundCents zakatRate isoOrRangeError
             sourceDown "AAPL" 20 (sampleStore false 1000)).
    left. reflexivity.
  - apply (updateActiveStock_failures roundCents zakatRate isoOrRangeError
             quoteAtInfinity "AAPL" 20 (sampleStore false 1000)).
    right. eexists. split; [reflexivity|]. left.
    exists "Infinity". split; [right; left; split; reflexivity | reflexivity].
  - apply (updateActiveStock_failures roundCents zakatRate isoOrRangeError
             quoteUndated "AAPL" 20 (sampleStore false 1000)).
    right. eexists. split; [reflexivity|]. right.
    split; [reflexivity|]. split; [|reflexivity].
    exists aapl. split; [apply list_elem_of_here | reflexivity].
Defined.

Lemma updateStockPrices_outcome_witness :
  updateStockPrices roundCents zakatRate batchInEuros (Some converterAt09)
    (Some "USD") None (sampleStore true 1000) (sampleStore true 1000)
  = Normal afterEuroRefresh
  ∧ currency afterEuroRefresh = Some "USD"
  ∧ ActiveStock.symbol <$> activeStocks (stockValues afterEuroRefresh)
    = ["AAPL"; "TSLA"]
  ∧ ActiveStock.currentPrice <$> activeStocks (stockValues afterEuroRefresh)
    = [126%float; 207%float]
  ∧ ActiveStock.sourceCurrency <$> activeStocks (stockValues afterEuroRefresh)
    = [Some "EUR"; Some "EUR"].
Proof.
  assert (updateStockPrices roundCents zakatRate batchInEuros (Some converterAt09)
            (Some "USD") None (sampleStore true 1000) (sampleStore true 1000)
          = Normal afterEuroRefresh) as Hrun by (vm_compute; reflexivity).
  split; [exact Hrun|].
  destruct (updateStockPrices_outcome roundCents zakatRate batchInEuros
              (Some converterAt09) (Some "USD") None (sampleStore true 1000)
              (sampleStore true 1000) afterEuroRefresh Hrun)
    as [[Hempty _] | (_ & updatedPrices & _ & Hcurrency & Hsymbols & _)];
    [discriminate|].
  split; [exact Hcurrency|]. split; [exact Hsymbols|].
  split; reflexivity.
Defined.

(** With two entries for a holding the first one counts, and an entry
    for another symbol leaves it alone. *)
Example updateStockPrices_first_entry :
  ∃ st',
    updateStockPrices roundCents zakatRate batchQuotingTwice None
      (Some "USD") None (sampleStore true 1000) (sampleStore true 1000)
    = Normal st'
    ∧ (fun s => (ActiveStock.currentPrice s, ActiveStock.lastUpdated s))
        <$> activeStocks (stockValues st')
      = [(160%float, "2023-11-14T22:00:00.000Z");
         (250%float, "2023-11-02T00:00:00.000Z")].
Proof. eexists. split; vm_compute; reflexivity. Qed.

Lemma updateStockPrices_failures_witness :
  updateStockPrices roundCents zakatRate batchDown None None None
    (sampleStore true 1000) (sampleStore true 1000)
  = Throw (Error "Network request failed")
  ∧ updateStockPrices roundCents zakatRate batchDown None None None
      emptyStore (sampleStore true 1000)
    = Normal (sampleStore true 1000).
Proof.
  split.
  - apply (proj2 (updateStockPrices_failures roundCents zakatRate batchDown None
                    None None (sampleStore true 1000) (sampleStore true 1000))).
    split; [discriminate | reflexivity].
  - apply (proj1 (updateStockPrices_failures roundCents zakatRate batchDown None
                    None None emptyStore (sampleStore true 1000))).
    reflexivity.
Defined.


Lemma wellFormedHoldings_preserved_witness :
  wellFormedHoldings roundCents zakatRate
    (activeStocks (stockValues (sampleStore true 1000)))
  ∧ wellFormedHoldings roundCents zakatRate (activeStocks (stockValues afterAddMsft))
  ∧ wellFormedHoldings roundCents zakatRate
      (activeStocks (stockValues afterEuroRefresh)).
Proof.
  assert (wellFormedHoldings roundCents zakatRate
            (activeStocks (stockValues (sampleStore true 1000)))) as Hsample.
  { split.
    - apply (bool_decide_unpack _). by vm_compute.
    - repeat constructor; by vm_compute. }
  split; [exact Hsample|].
  destruct (wellFormedHoldings_preserved roundCents zakatRate isoOrRangeError
              (sampleStore true 1000) Hsample) as (Hadd & _ & _ & Hrefresh).
  split.
  - apply (Hadd quoteAt150 sampleClock "msft" 5%float (Some 300%float) None
             (sampleStore true 1000)).
    by vm_compute.
  - apply (Hrefresh batchInEuros (Some converterAt09) (Some "USD") None
             (sampleStore true 1000)).
    by vm_compute.
Defined.

Lemma getStocksBreakdown_zakatable_witness :
  ("dividends", sampleDividendsItem)
  ∈ items (getStocksBreakdown roundCents zakatRate (sampleStore true 1000))
  ∧ isZakatable sampleDividendsItem = true
  ∧ itemZakatable sampleDividendsItem = itemValue sampleDividendsItem.
Proof.
  assert (("dividends", sampleDividendsItem)
          ∈ items (getStocksBreakdown roundCents zakatRate (sampleStore true 1000)))
    as Hin.
  { vm_compute. do 2 apply list_elem_of_further. apply list_elem_of_here. }
  split; [exact Hin|].
  destruct (proj2 (getStocksBreakdown_zakatable roundCents zakatRate
                     (sampleStore true 1000) "dividends" sampleDividendsItem Hin)
              eq_refl) as (Hflag & _ & Hfull & _); [discriminate|].
  split; [exact Hflag|]. apply Hfull. discriminate.
Defined.

Lemma setStockValue_frame_witness :
  getStocksBreakdown roundCents zakatRate
    (setStockValue (SetMarketValue 123456) (sampleStore true 1000))
  = getStocksBreakdown roundCents zakatRate (sampleStore true 1000).
Proof.
  apply (setStockValue_frame roundCents zakatRate (SetMarketValue 123456)
           (sampleStore true 1000)).
  discriminate.
Defined.

Lemma migratePassiveInvestments_well_typed_witness :
  ∃ migrated,
    Migrator.migratePassiveInvestments sampleClock nullCompanyDataState
    = Normal migrated
    ∧ Migrator.field migrated "version" = JStr "2.0"
    ∧ Js.isNumber (Migrator.field migrated "zakatableValue") = true.
Proof.
  eexists. split; [reflexivity|].
  destruct (proj2 (migratePassiveInvestments_well_typed sampleClock
                     nullCompanyDataState _ eq_refl))
    as (Hversion & _ & _ & _ & Hnumber & _).
  - discriminate.
  - split; [exact Hversion | exact Hnumber].
Defined.

(** ** Writers and the views together *)

Section WritersAndViews.

Variable roundCurrency : number → number.
Variable ZAKAT_RATE : number.
Variable StockPrices : Type.


(** [setStockHawl] changes the Hawl flag and nothing else: the total, the
    keys, values, labels and percentages of the breakdown are as before;
    only what counts as zakatable changes, and with the flag off the
    zakatable total is 0. Setting the flag twice is setting it once. *)
Theorem setStockHawl_effect (value : bool) (st : ZakatState) :
  let shown (b : Breakdown) :=
    (fun entry : string * BreakdownItem =>
       (entry.1, itemValue entry.2, label entry.2, tooltip entry.2,
        percentage entry.2)) <$> items b in
  stockHawlMet (setStockHawl value st) = value
  ∧ stockValues (setStockHawl value st) = stockValues st
  ∧ getTotalStocks roundCurrency (setStockHawl value st)
    = getTotalStocks roundCurrency st
  ∧ shown (getStocksBreakdown roundCurrency ZAKAT_RATE (setStockHawl value st))
    = shown (getStocksBreakdown roundCurrency ZAKAT_RATE st)
  ∧ getTotalZakatableStocks roundCurrency (setStockHawl false st) = 0%float
  ∧ (∀ other, setStockHawl value (setStockHawl other st) = setStockHawl value st).
Proof.
  intros shown. subst shown.
  split; [reflexivity|]. split; [reflexivity|]. split; [reflexivity|].
  split; [|split; reflexivity].
  unfold getStocksBreakdown. simpl.
  destruct (0 <? length (activeStocks (stockValues st)))%nat,
           (passiveInvestments (stockValues st)) as [p|],
           (Num.gt (optOrZero (total_dividend_earnings (stockValues st))) 0);
    reflexivity.
Qed.

End WritersAndViews.

(** ** Instances for the passive manager *)

Lemma updatePassiveInvestments_stored_state_witness :
  updatePassiveInvestments unit (Some brokenAsset) tt sampleClock Detailed None
    sampleCalculations sampleSlice
  = sampleSlice
  ∧ updatePassiveInvestments unit (Some halfBrokenAsset) tt sampleClock Detailed None
      sampleCalculations sampleSlice
    = sampleSlice
  ∧ (let stored :=
       passiveObject
         (updatePassiveInvestments unit (Some sampleAsset) tt sampleClock Detailed
            (Some {| dataInvestments := JUndefined;
                     dataCompanyData := Some sampleCompany |})
            sampleCalculations sampleSlice) in
     Migrator.field stored "method" = JStr "detailed"
     ∧ Migrator.field stored "marketValue" = JNum 2000
     ∧ Migrator.field stored "companyData"
       = companyDataObject (JStr "EUR") sampleCompany).
Proof.
  split; [|split].
  - apply (proj1 (updatePassiveInvestments_stored_state unit (Some brokenAsset) tt
                    sampleClock Detailed None sampleCalculations sampleSlice)).
    exists brokenAsset. split; [reflexivity|]. left. eexists. reflexivity.
  - apply (proj1 (updatePassiveInvestments_stored_state unit (Some halfBrokenAsset) tt
                    sampleClock Detailed None sampleCalculations sampleSlice)).
    exists halfBrokenAsset. split; [reflexivity|]. right. eexists. reflexivity.
  - destruct (proj2 (updatePassiveInvestments_stored_state unit (Some sampleAsset) tt
                       sampleClock Detailed
                       (Some {| dataInvestments := JUndefined;
                                dataCompanyData := Some sampleCompany |})
                       sampleCalculations sampleSlice))
      as (_ & _ & Hmethod & _ & _ & _ & Hvalue & _ & _ & _ & Hcompany & _).
    + intros (asset & [= <-] & [[e He] | [e He]]); discriminate He.
    + split; [exact Hmethod|]. split; [by apply Hvalue | exact Hcompany].
Defined.

Lemma updatePassiveInvestments_store_witness :
  let s' :=
    updatePassiveInvestments unit (Some sampleAsset) tt sampleClock Quick None
      sampleCalculations sampleSlice in
  activeStocks (stockValues (store s')) = [aapl; tsla]
  ∧ market_value (stockValues (store s')) = 4500%float
  ∧ zakatable_value (stockValues (store s')) = 2950%float
  ∧ updatePassiveInvestments unit (Some brokenAsset) tt sampleClock Quick None
      sampleCalculations sampleSlice
    = sampleSlice.
Proof.
  intros s'.
  pose proof (updatePassiveInvestments_store unit (Some sampleAsset) tt sampleClock
                Quick None sampleCalculations sampleSlice) as [[Hheld _] _].
  split; [exact Hheld|].
  split; [vm_compute; reflexivity|]. split; [vm_compute; reflexivity|].
  apply (proj1 (proj2 (updatePassiveInvestments_store unit (Some brokenAsset) tt
                         sampleClock Quick None sampleCalculations sampleSlice))).
  exists brokenAsset. split; [reflexivity|]. left. eexists. reflexivity.
Defined.


(** Two resets at different moments: the passive blocks differ, the
    stock values read by the getters do not, and the second reset alone
    gives what both give. *)
Lemma resetStockValues_outcome_witness :
  passiveObject (resetStockValues false laterClock sampleSlice)
  ≠ passiveObject (resetStockValues false sampleClock sampleSlice)
  ∧ stockValues (store (resetStockValues false laterClock sampleSlice))
    = stockValues (store (resetStockValues false sampleClock sampleSlice))
  ∧ resetStockValues false laterClock (resetStockValues false sampleClock sampleSlice)
    = resetStockValues false laterClock sampleSlice
  ∧ currency (store (resetStockValues false sampleClock sampleSlice)) = Some "USD".
Proof.
  pose proof (resetStockValues_outcome roundCents zakatRate false sampleClock
                laterClock sampleSlice sampleSlice)
    as (Hcurrency & Hvalues & _ & _ & _ & Hblock & _ & Hlater & _).
  split; [|split; [exact Hvalues | split; [exact Hlater | exact Hcurrency]]].
  intros Hsame. apply Hblock in Hsame as [Hid _]. discriminate Hid.
Defined.
